(** * langgraph_cli: the interrupt-resume protocol of the terminal front-end

    A shallow embedding of the two command-line drivers of the repository,
    [deepagent_code/cli.py] and [langgraph_utils_cli/cli.py], together with
    the helpers of [utils.py] they call.  Python values are an inductive
    type; the terminal, the operator, the clock and the graph engine are an
    explicit [world] threaded through a small outcome monad. *)

From Stdlib Require Import ZArith List String Ascii Bool Lia DecimalString.
Import ListNotations.

Local Open Scope string_scope.
Local Open Scope Z_scope.

Set Warnings "-register-all".

(* ================================================================== *)
(** ** Python values *)

Module Py.

(** The values the drivers handle: chunks, interrupt payloads and decisions
    are [Dict[str, Any]]; a dict is an association list read by first match,
    an object is its attribute table. *)
Inductive pyval : Type :=
| PNone
| PBool (b : bool)
| PInt (z : Z)
| PStr (s : string)
| PList (items : list pyval)
| PTuple (items : list pyval)
| PDict (entries : list (string * pyval))
| PObj (attrs : list (string * pyval)).

Definition pydict : Type := list (string * pyval).

Inductive exn : Type :=
| AttributeError
| TypeError
| KeyError
| ValueError (msg : string)
| NormalizationError (msg : string)
| EOFError
| Abort
| UnboundLocalError.

(** [d.get(key)] on a dict: [None] when the key is missing. *)
Fixpoint lookup (key : string) (d : pydict) : option pyval :=
  match d with
  | [] => None
  | (k, v) :: rest => if String.eqb k key then Some v else lookup key rest
  end.

(** [d.get(key, default)]. *)
Definition get (d : pydict) (key : string) (default : pyval) : pyval :=
  match lookup key d with
  | Some v => v
  | None => default
  end.

(** [v.get(key, default)] on an arbitrary value: only a dict has [get]. *)
Definition get_method (v : pyval) (key : string) (default : pyval)
  : exn + pyval :=
  match v with
  | PDict d => inr (get d key default)
  | _ => inl AttributeError
  end.

(** [v == s] for a string literal [s]. *)
Definition eq_str (v : pyval) (s : string) : bool :=
  match v with
  | PStr t => String.eqb t s
  | _ => false
  end.

(** Python truthiness, as [if v] and [v if c else w] test it. *)
Definition truthy (v : pyval) : bool :=
  match v with
  | PNone => false
  | PBool b => b
  | PInt z => negb (z =? 0)
  | PStr s => negb (String.eqb s "")
  | PList l => match l with [] => false | _ => true end
  | PTuple l => match l with [] => false | _ => true end
  | PDict d => match d with [] => false | _ => true end
  | PObj _ => true
  end.

(** A [str] is held as the bytes of its UTF-8 encoding.  Comparing,
    joining and searching for an ASCII character are the same on the bytes
    as on the characters; counting, cutting and classifying characters are
    not, and go by the character boundaries below. *)

(** A byte that continues a character: [10xxxxxx]. *)
Definition continues (c : ascii) : bool :=
  let n := N_of_ascii c in
  (N.leb 128 n && N.ltb n 192)%bool.

(** The byte before [rest] is the last of its character. *)
Definition ends_char (rest : string) : bool :=
  match rest with
  | EmptyString => true
  | String c _ => negb (continues c)
  end.

(** [len(s)] of a [str]: its characters. *)
Fixpoint char_length (s : string) : nat :=
  match s with
  | EmptyString => O
  | String _ rest =>
      ((if ends_char rest then 1 else 0) + char_length rest)%nat
  end.

(** [s[:n]] of a [str]: its first [n] characters. *)
Fixpoint take_chars (n : nat) (s : string) : string :=
  match s with
  | EmptyString => EmptyString
  | String c rest =>
      match n with
      | O => EmptyString
      | S n' =>
          String c (take_chars (if ends_char rest then n' else n) rest)
      end
  end.

(** [len(v)]: defined on the sized values, a [TypeError] on the others. *)
Definition len (v : pyval) : exn + Z :=
  match v with
  | PStr s => inr (Z.of_nat (char_length s))
  | PList l => inr (Z.of_nat (List.length l))
  | PTuple l => inr (Z.of_nat (List.length l))
  | PDict d => inr (Z.of_nat (List.length d))
  | _ => inl TypeError
  end.

(** [[x for _ in range(n)]]: [range] of a non-positive bound is empty. *)
Definition replicate (n : Z) (x : pyval) : list pyval :=
  List.repeat x (Z.to_nat n).

(** [str(i)] of an integer. *)
Definition str_of_int (i : Z) : string :=
  NilZero.string_of_int (Z.to_int i).

(** The UTF-8 encoding of a code point of the basic plane. *)
Definition utf8 (code : N) : string :=
  if (code <? 128)%N then
    String (ascii_of_N code) EmptyString
  else if (code <? 2048)%N then
    String (ascii_of_N (192 + code / 64))
      (String (ascii_of_N (128 + code mod 64)) EmptyString)
  else
    String (ascii_of_N (224 + code / 4096))
      (String (ascii_of_N (128 + (code / 64) mod 64))
         (String (ascii_of_N (128 + code mod 64)) EmptyString)).

(** The characters [str.isspace] holds of, which [str.strip] removes:
    U+0009 to U+000D, U+001C to U+0020, U+0085, U+00A0, U+1680, U+2000 to
    U+200A, U+2028, U+2029, U+202F, U+205F and U+3000. *)
Definition whitespace_codes : list N :=
  [9; 10; 11; 12; 13; 28; 29; 30; 31; 32; 133; 160; 5760;
   8192; 8193; 8194; 8195; 8196; 8197; 8198; 8199; 8200; 8201; 8202;
   8232; 8233; 8239; 8287; 12288]%N.

Definition whitespace : list string := map utf8 whitespace_codes.

Fixpoint reverse_onto (s acc : string) : string :=
  match s with
  | EmptyString => acc
  | String c rest => reverse_onto rest (String c acc)
  end.

Definition reverse (s : string) : string := reverse_onto s EmptyString.

(** [s] without the prefix [p], when it starts with it. *)
Fixpoint drop_prefix (p s : string) : option string :=
  match p, s with
  | EmptyString, _ => Some s
  | String a p', String b s' =>
      if Ascii.eqb a b then drop_prefix p' s' else None
  | String _ _, EmptyString => None
  end.

(** [s] without the first of [prefixes] it starts with. *)
Fixpoint drop_any (prefixes : list string) (s : string) : option string :=
  match prefixes with
  | [] => None
  | p :: others =>
      match drop_prefix p s with
      | Some rest => Some rest
      | None => drop_any others s
      end
  end.

(** Dropping leading [prefixes] for as long as there is one; every drop
    shortens the text, so its length bounds the drops. *)
Fixpoint drop_leading (fuel : nat) (prefixes : list string) (s : string)
  : string :=
  match fuel with
  | O => s
  | S fuel' =>
      match drop_any prefixes s with
      | Some rest => drop_leading fuel' prefixes rest
      | None => s
      end
  end.

(** [s.lstrip()]. *)
Definition lstrip (s : string) : string :=
  drop_leading (String.length s) whitespace s.

(** [s.rstrip()]: the same from the end, on the encodings read backwards. *)
Definition rstrip (s : string) : string :=
  reverse (drop_leading (String.length s) (map reverse whitespace) (reverse s)).

(** [s.strip()]. *)
Definition strip (s : string) : string := rstrip (lstrip s).

End Py.

Import Py.

(* ================================================================== *)
(** ** utils.py: the interrupt extractor and the resume input builder *)

Module Utils.

(** What the graph engine is fed on one invocation. *)
Inductive agent_input : Type :=
| MessagesInput (state : pyval)
| ResumeCommand (decisions : list pyval)
| RawInput (raw : pyval).

(** An argument counts as supplied when it is not left at [None]. *)
Definition supplied {A : Type} (x : option A) : Z :=
  match x with Some _ => 1 | None => 0 end.

(** Modelled from the spec: [prepare_agent_input] of [utils.py], which is not
    among the sources.  Exactly one of a message, a decision sequence and a
    raw payload must be supplied; a message becomes one user-role message in
    the engine's message list, decisions become the resume signal carrying
    them verbatim, a raw payload passes through unchanged.  The two error
    texts are the ones the tests match. *)
Definition prepare_agent_input (message : option string)
    (decisions : option (list pyval)) (raw_input : option pyval)
  : exn + agent_input :=
  let provided := supplied message + supplied decisions + supplied raw_input in
  if provided =? 0 then
    inl (ValueError "Must provide one of: message, decisions, or raw_input")
  else if provided >? 1 then
    inl (ValueError "Can only provide one of: message, decisions, or raw_input")
  else
    match message, decisions, raw_input with
    | Some text, _, _ =>
        inr (MessagesInput
               (PDict [("messages",
                        PList [PDict [("role", PStr "user");
                                      ("content", PStr text)]])]))
    | None, Some ds, _ => inr (ResumeCommand ds)
    | None, None, Some raw => inr (RawInput raw)
    | None, None, None =>
        inl (ValueError "Must provide one of: message, decisions, or raw_input")
    end.

(** Reading a field through whichever accessor the value has: a key of a
    dict, an attribute of an object. *)
Definition field (v : pyval) (name : string) : option pyval :=
  match v with
  | PDict d => lookup name d
  | PObj attrs => lookup name attrs
  | _ => None
  end.

(** [getattr(v, name)] when [v] has the attribute. *)
Definition attribute (v : pyval) (name : string) : option pyval :=
  match v with
  | PObj attrs => lookup name attrs
  | _ => None
  end.

Definition seq_items (v : pyval) : option (list pyval) :=
  match v with
  | PList l => Some l
  | PTuple l => Some l
  | _ => None
  end.

Definition is_sequence (v : pyval) : bool :=
  match seq_items v with Some _ => true | None => false end.

Definition or_default (o : option pyval) (default : pyval) : pyval :=
  match o with Some v => v | None => default end.

(** Modelled from the spec: [serialize_action_request] of [utils.py], which is
    not among the sources.  A dict-shaped or attribute-shaped action is
    normalised into the four ActionRequest fields; a missing [tool_call_id]
    is filled with [call_{index}]; an action without a [tool] is a malformed
    record. *)
Definition serialize_action_request (action : pyval) (index : Z)
  : exn + pyval :=
  match field action "tool" with
  | None => inl (NormalizationError "action request without a tool")
  | Some tool =>
      inr (PDict
             [("tool", tool);
              ("tool_call_id",
               or_default (field action "tool_call_id")
                          (PStr ("call_" ++ str_of_int index)));
              ("args", or_default (field action "args") (PDict []));
              ("description", or_default (field action "description") PNone)])
  end.

(** The action requests and review configs a value carries under its two
    keys or attributes. *)
Definition read_payload (v : pyval) : option (pyval * pyval) :=
  match field v "action_requests" with
  | Some actions =>
      Some (actions, or_default (field v "review_configs") (PList []))
  | None => None
  end.

Definition unrecognized : exn :=
  NormalizationError "unrecognized interrupt value".

(** Modelled from the spec: [parse_interrupt_value] of [utils.py], which is
    not among the sources.  The raw interrupt value is matched against the
    shapes of the spec in order: a 2-tuple of sequences is used directly; a
    1-tuple is unwrapped (through the [value] attribute of the wrapped
    object when it has one, as in the tests) and read by key or attribute; a
    mapping with the keys is read by key; a lone ActionRequest-shaped value
    becomes a singleton with no review configs; anything else is a
    normalisation error. *)
Definition parse_interrupt_value (interrupt_value : pyval)
  : exn + (pyval * pyval) :=
  match interrupt_value with
  | PTuple [action_requests; review_configs] =>
      if (is_sequence action_requests && is_sequence review_configs)%bool
      then inr (action_requests, review_configs)
      else inl unrecognized
  | PTuple [wrapped] =>
      let carrier := or_default (attribute wrapped "value") wrapped in
      match read_payload carrier with
      | Some payload => inr payload
      | None => inl unrecognized
      end
  | _ =>
      match interrupt_value with
      | PDict d =>
          match read_payload interrupt_value with
          | Some payload => inr payload
          | None =>
              match lookup "tool" d with
              | Some _ => inr (PList [interrupt_value], PList [])
              | None => inl unrecognized
              end
          end
      | PObj attrs =>
          match lookup "tool" attrs with
          | Some _ => inr (PList [interrupt_value], PList [])
          | None => inl unrecognized
          end
      | _ => inl unrecognized
      end
  end.

(** [[serialize_action_request(a, i) for i, a in enumerate(actions)]],
    counting from [index]. *)
Fixpoint serialize_from (index : Z) (actions : list pyval)
  : exn + list pyval :=
  match actions with
  | [] => inr []
  | a :: rest =>
      match serialize_action_request a index with
      | inl e => inl e
      | inr s =>
          match serialize_from (index + 1) rest with
          | inl e => inl e
          | inr ss => inr (s :: ss)
          end
      end
  end.

(** Modelled from the spec: [process_interrupt] of [utils.py], which is not
    among the sources.  The canonical InterruptPayload: the parsed action
    requests, each serialised at its position, and the review configs. *)
Definition process_interrupt (interrupt_value : pyval) : exn + pyval :=
  match parse_interrupt_value interrupt_value with
  | inl e => inl e
  | inr (action_requests, review_configs) =>
      match seq_items action_requests, seq_items review_configs with
      | Some actions, Some configs =>
          match serialize_from 0 actions with
          | inl e => inl e
          | inr serialized =>
              inr (PDict [("action_requests", PList serialized);
                          ("review_configs", PList configs)])
          end
      | _, _ => inl unrecognized
      end
  end.

End Utils.

Import Utils.

(* ================================================================== *)
(** ** The world around a driver: operator, terminal, clock, engine *)

Module Env.

(** What [get_key] returns: the two arrows, enter, ctrl-c, or the character
    read. *)
Inductive key : Type := KUp | KDown | KEnter | KCtrlC | KChar (c : string).

(** What a run does to its surroundings, in the order it happens.  Drawing
    on the terminal is not detailed: a call of [print_chunk] is one event, a
    printed line is its text without the colour codes, and the menu and
    cursor sequences of [select_option] leave no event. *)
Inductive event : Type :=
| ESpinnerStart
| ESpinnerStop
| EStream (input : agent_input) (took : Z)
| EPrintChunk (chunk : pydict) (verbose : bool)
| EPrint (text : string)
| ECollect (argument : pyval)
| EKey (waited : Z) (k : key)
| ELine (waited : Z) (text : string)
| ENumber (waited : Z) (n : Z).

(** One engine invocation streamed to exhaustion: the chunks it yields, the
    time it takes, and the engine afterwards. *)
Record stream_result (G : Type) : Type := mkStream {
  chunks : list pydict;
  took : Z;
  graph_after : G
}.
Arguments mkStream {G} _ _ _.
Arguments chunks {G} _.
Arguments took {G} _.
Arguments graph_after {G} _.

(** [json.loads]: the parsed value, or the text of the [JSONDecodeError]. *)
Class Json : Type := { json_loads : string -> string + pyval }.

Section World.
Context {G : Type}.

(** The clock is a tick count that the engine and the operator advance
    (everything else takes no time); the operator is the keys, lines and
    numbers that will be entered, each after some wait. *)
Record world : Type := mkWorld {
  now : Z;
  graph : G;
  keys : list (Z * key);
  lines : list (Z * string);
  numbers : list (Z * Z);
  trace : list event
}.

Inductive outcome (A : Type) : Type :=
| Done (a : A) (w : world)
| Raised (e : exn) (w : world)
| Exited (code : Z) (w : world)
| Starved (w : world)
| OutOfFuel (w : world).
Arguments Done {A} _ _.
Arguments Raised {A} _ _.
Arguments Exited {A} _ _.
Arguments Starved {A} _.
Arguments OutOfFuel {A} _.

Definition M (A : Type) : Type := world -> outcome A.

Definition ret {A : Type} (a : A) : M A := fun w => Done a w.

Definition bind {A B : Type} (m : M A) (f : A -> M B) : M B :=
  fun w =>
    match m w with
    | Done a w' => f a w'
    | Raised e w' => Raised e w'
    | Exited c w' => Exited c w'
    | Starved w' => Starved w'
    | OutOfFuel w' => OutOfFuel w'
    end.

Definition raise {A : Type} (e : exn) : M A := fun w => Raised e w.

Definition lift {A : Type} (r : exn + A) : M A :=
  match r with
  | inl e => raise e
  | inr a => ret a
  end.

(** [sys.exit(code)]. *)
Definition sys_exit {A : Type} (code : Z) : M A := fun w => Exited code w.

Definition final_world {A : Type} (o : outcome A) : world :=
  match o with
  | Done _ w | Raised _ w | Exited _ w | Starved w | OutOfFuel w => w
  end.

Definition log (e : event) (w : world) : world :=
  mkWorld (now w) (graph w) (keys w) (lines w) (numbers w) (trace w ++ [e]).

Definition emit (e : event) : M unit := fun w => Done tt (log e w).

(** [time.time()]. *)
Definition time_time : M Z := fun w => Done (now w) w.

(** [get_key()]: blocks until the operator presses a key. *)
Definition get_key : M key :=
  fun w =>
    match keys w with
    | [] => Starved w
    | (waited, k) :: rest =>
        Done k (log (EKey waited k)
                  (mkWorld (now w + waited) (graph w) rest (lines w)
                           (numbers w) (trace w)))
    end.

(** [input(prompt)]: the next line, [EOFError] at the end of the input. *)
Definition input : M string :=
  fun w =>
    match lines w with
    | [] => Raised EOFError w
    | (waited, text) :: rest =>
        Done text (log (ELine waited text)
                     (mkWorld (now w + waited) (graph w) (keys w) rest
                              (numbers w) (trace w)))
    end.

(** [click.prompt(text, type=str)]: the line click accepts, [Abort] at the
    end of the input. *)
Definition click_prompt_str : M string :=
  fun w =>
    match lines w with
    | [] => Raised Abort w
    | (waited, text) :: rest =>
        Done text (log (ELine waited text)
                     (mkWorld (now w + waited) (graph w) (keys w) rest
                              (numbers w) (trace w)))
    end.

(** [click.prompt(text, type=int, default=...)]: the integer click accepts
    (an empty entry, for which click takes the default, is the default
    here). *)
Definition click_prompt_int : M Z :=
  fun w =>
    match numbers w with
    | [] => Raised Abort w
    | (waited, n) :: rest =>
        Done n (log (ENumber waited n)
                  (mkWorld (now w + waited) (graph w) (keys w) (lines w)
                           rest (trace w)))
    end.

(** Iterating a stream function of the engine to exhaustion. *)
Definition invoke (stream : G -> stream_result G) (input_data : agent_input)
  : M (list pydict) :=
  fun w =>
    let r := stream (graph w) in
    Done (chunks r)
         (log (EStream input_data (took r))
            (mkWorld (now w + took r) (graph_after r) (keys w) (lines w)
                     (numbers w) (trace w))).

End World.

Arguments world : clear implicits.
Arguments outcome : clear implicits.
Arguments M : clear implicits.
Arguments mkWorld {G} _ _ _ _ _ _.
Arguments Done {G A} _ _.
Arguments Raised {G A} _ _.
Arguments Exited {G A} _ _.
Arguments Starved {G A} _.
Arguments OutOfFuel {G A} _.

End Env.

Import Env.

Declare Scope run_scope.
Delimit Scope run_scope with run.
Notation "x <- c ;; k" := (bind c (fun x => k))
  (at level 61, c at next level, right associativity) : run_scope.
Notation "c ;;; k" := (bind c (fun _ => k))
  (at level 61, right associativity) : run_scope.

Definition approve : pyval := PDict [("type", PStr "approve")].
Definition reject : pyval := PDict [("type", PStr "reject")].

(* ================================================================== *)
(** ** deepagent_code/cli.py *)

Module DeepagentCode.

(** [stream_graph_updates] and [astream_graph_updates] of
    [deepagent_code.utils], which is not among the sources: the chunks of
    one invocation of the graph on an input, under a config and a stream
    mode, are whatever the engine at hand yields. *)
Class Engine (G : Type) : Type := {
  stream_graph_updates :
    G -> agent_input -> option pyval -> string -> stream_result G;
  astream_graph_updates :
    G -> agent_input -> option pyval -> string -> stream_result G
}.

(** [print_chunk] draws a chunk on the terminal.  What it draws is not
    detailed here; a chunk it cannot draw makes it raise, and
    [print_chunk_error] tells for which chunks it does. *)
Class Renderer : Type := {
  print_chunk_error : pydict -> bool -> option exn
}.

Section Driver.
Context {G : Type} {E : Engine G} {R : Renderer} {J : Json}.

Local Open Scope run_scope.

(** [Spinner.start] and [Spinner.stop]; the animation thread itself only
    draws. *)
Definition spinner_start : M G unit := emit ESpinnerStart.
Definition spinner_stop : M G unit := emit ESpinnerStop.

(** [print_chunk(chunk, verbose)]: one event per call, then the exception
    if the chunk cannot be drawn. *)
Definition print_chunk (chunk : pydict) (verbose : bool) : M G unit :=
  emit (EPrintChunk chunk verbose) ;;;
  match print_chunk_error chunk verbose with
  | Some e => raise e
  | None => ret tt
  end.

(** The [while True] of [select_option]: one key per round, so as many
    rounds as keys are left suffice. *)
Fixpoint select_loop (rounds : nat) (num_options selected : Z) : M G Z :=
  match rounds with
  | O => fun w => Starved w
  | S rounds' =>
      key <- get_key ;;
      match key with
      | KUp =>
          if selected >? 0 then select_loop rounds' num_options (selected - 1)
          else select_loop rounds' num_options selected
      | KDown =>
          if selected <? num_options - 1
          then select_loop rounds' num_options (selected + 1)
          else select_loop rounds' num_options selected
      | KEnter => ret selected
      | KCtrlC => sys_exit 0
      | KChar _ => select_loop rounds' num_options selected
      end
  end.

Definition select_option (options : list string) (prompt : string) : M G Z :=
  fun w =>
    select_loop (S (List.length (keys w))) (Z.of_nat (List.length options)) 0 w.

Definition options : list string :=
  ["Approve all actions"; "Reject all actions";
   "Provide custom decision (JSON)"; "Exit"].

Definition handle_interrupt_input (num_actions : Z) : M G (list pyval) :=
  emit (ECollect (PInt num_actions)) ;;;
  choice <- select_option options "How would you like to proceed?" ;;
  if choice =? 0 then
    ret (replicate num_actions approve)
  else if choice =? 1 then
    ret (replicate num_actions reject)
  else if choice =? 2 then
    emit (EPrint "Enter your decision as JSON (will be applied to all actions):") ;;;
    line <- input ;;
    let json_str := strip line in
    match json_loads json_str with
    | inr decision => ret (replicate num_actions decision)
    | inl e =>
        emit (EPrint ("⏺ Invalid JSON: " ++ e)) ;;;
        ret (replicate num_actions reject)
    end
  else
    sys_exit 0.

(** The variables one pass of the [while True] of a turn keeps while it
    consumes the stream. *)
Record turn_state : Type := mkTurn {
  has_interrupt : bool;
  num_pending_actions : Z;
  first_chunk : bool
}.

Definition fresh : turn_state := mkTurn false 0 true.

(** [len(action_requests) if action_requests else 1] on the chunk's
    interrupt payload. *)
Definition pending_actions (chunk : pydict) : exn + Z :=
  let interrupt_data := get chunk "interrupt" (PDict []) in
  match get_method interrupt_data "action_requests" (PList []) with
  | inl e => inl e
  | inr action_requests =>
      if truthy action_requests then len action_requests else inr 1
  end.

(** The body of the [for chunk in ...] loop. *)
Definition on_chunk (verbose : bool) (st : turn_state) (chunk : pydict)
  : M G turn_state :=
  (if first_chunk st then spinner_stop else ret tt) ;;;
  print_chunk chunk verbose ;;;
  if eq_str (get chunk "status" PNone) "interrupt" then
    n <- lift (pending_actions chunk) ;;
    ret (mkTurn true n false)
  else
    ret (mkTurn (has_interrupt st) (num_pending_actions st) false).

Fixpoint for_each_chunk (verbose : bool) (st : turn_state)
    (stream : list pydict) : M G turn_state :=
  match stream with
  | [] => ret st
  | chunk :: rest =>
      st' <- on_chunk verbose st chunk ;;
      for_each_chunk verbose st' rest
  end.

(** The [while True] of a turn, over either stream function; [fuel] bounds
    the number of engine invocations. *)
Fixpoint turn_loop
    (stream : G -> agent_input -> option pyval -> string -> stream_result G)
    (fuel : nat) (input_data : agent_input) (config : option pyval)
    (interactive verbose : bool) (stream_mode : string) : M G unit :=
  match fuel with
  | O => fun w => OutOfFuel w
  | S fuel' =>
      spinner_start ;;;
      stream_chunks <-
        invoke (fun g => stream g input_data config stream_mode) input_data ;;
      st <- for_each_chunk verbose fresh stream_chunks ;;
      (if first_chunk st then spinner_stop else ret tt) ;;;
      if (has_interrupt st && interactive)%bool then
        decisions <- handle_interrupt_input (num_pending_actions st) ;;
        input_data' <- lift (prepare_agent_input None (Some decisions) None) ;;
        turn_loop stream fuel' input_data' config interactive verbose
                  stream_mode
      else
        ret tt
  end.

Definition run_single_turn_async (fuel : nat) (message : string)
    (config : option pyval) (interactive verbose : bool)
    (stream_mode : string) : M G Z :=
  input_data <- lift (prepare_agent_input (Some message) None None) ;;
  start_time <- time_time ;;
  turn_loop astream_graph_updates fuel input_data config interactive verbose
            stream_mode ;;;
  end_time <- time_time ;;
  ret (end_time - start_time).

Definition run_single_turn_sync (fuel : nat) (message : string)
    (config : option pyval) (interactive verbose : bool)
    (stream_mode : string) : M G Z :=
  input_data <- lift (prepare_agent_input (Some message) None None) ;;
  start_time <- time_time ;;
  turn_loop stream_graph_updates fuel input_data config interactive verbose
            stream_mode ;;;
  end_time <- time_time ;;
  ret (end_time - start_time).

End Driver.

End DeepagentCode.

(* ================================================================== *)
(** ** langgraph_utils_cli/cli.py *)

Module LanggraphUtilsCli.

(** [stream_graph_updates] and [astream_graph_updates] of
    [langgraph_utils_cli.utils], which is not among the sources, called with
    the graph, the input and the config only. *)
Class Engine (G : Type) : Type := {
  stream_graph_updates : G -> agent_input -> option pyval -> stream_result G;
  astream_graph_updates : G -> agent_input -> option pyval -> stream_result G
}.

(** [print_chunk] draws a chunk on the terminal.  What it draws is not
    detailed here; a chunk it cannot draw makes it raise, and
    [print_chunk_error] tells for which chunks it does. *)
Class Renderer : Type := {
  print_chunk_error : pydict -> bool -> option exn
}.

Section Driver.
Context {G : Type} {E : Engine G} {R : Renderer} {J : Json}.

Local Open Scope run_scope.

(** [print_chunk(chunk, verbose)]: one event per call, then the exception
    if the chunk cannot be drawn. *)
Definition print_chunk (chunk : pydict) (verbose : bool) : M G unit :=
  emit (EPrintChunk chunk verbose) ;;;
  match print_chunk_error chunk verbose with
  | Some e => raise e
  | None => ret tt
  end.

Definition handle_interrupt_input (interrupt_data : pyval) : M G pyval :=
  emit (ECollect interrupt_data) ;;;
  action_requests <- lift (get_method interrupt_data "action_requests" (PList [])) ;;
  review_configs <- lift (get_method interrupt_data "review_configs" (PList [])) ;;
  emit (EPrint "How would you like to proceed?") ;;;
  emit (EPrint "1. Approve all actions") ;;;
  emit (EPrint "2. Reject all actions") ;;;
  emit (EPrint "3. Provide custom decision (JSON)") ;;;
  emit (EPrint "4. Exit") ;;;
  choice <- click_prompt_int ;;
  if choice =? 1 then
    ret approve
  else if choice =? 2 then
    ret reject
  else if choice =? 3 then
    emit (EPrint "Enter your decision as JSON (e.g., {'type': 'approve'}):") ;;;
    json_str <- click_prompt_str ;;
    match json_loads json_str with
    | inr decision => ret decision
    | inl e =>
        emit (EPrint ("Invalid JSON: " ++ e)) ;;;
        ret reject
    end
  else
    sys_exit 0.

(** The variables one pass of the [while True] keeps while it consumes the
    stream. *)
Record graph_state : Type := mkGraph {
  has_interrupt : bool;
  interrupt_data : pyval
}.

Definition fresh : graph_state := mkGraph false PNone.

(** The body of the [for chunk in ...] loop. *)
Definition on_chunk (verbose : bool) (st : graph_state) (chunk : pydict)
  : M G graph_state :=
  print_chunk chunk verbose ;;;
  if eq_str (get chunk "status" PNone) "interrupt" then
    ret (mkGraph true (get chunk "interrupt" (PDict [])))
  else
    ret st.

Fixpoint for_each_chunk (verbose : bool) (st : graph_state)
    (stream : list pydict) : M G graph_state :=
  match stream with
  | [] => ret st
  | chunk :: rest =>
      st' <- on_chunk verbose st chunk ;;
      for_each_chunk verbose st' rest
  end.

(** The [while True] of a run, over either stream function; [fuel] bounds
    the number of engine invocations. *)
Fixpoint graph_loop
    (stream : G -> agent_input -> option pyval -> stream_result G)
    (fuel : nat) (input_data : agent_input) (config : option pyval)
    (interactive verbose : bool) : M G unit :=
  match fuel with
  | O => fun w => OutOfFuel w
  | S fuel' =>
      stream_chunks <-
        invoke (fun g => stream g input_data config) input_data ;;
      st <- for_each_chunk verbose fresh stream_chunks ;;
      if (has_interrupt st && interactive)%bool then
        decision <- handle_interrupt_input (interrupt_data st) ;;
        input_data' <- lift (prepare_agent_input None (Some [decision]) None) ;;
        graph_loop stream fuel' input_data' config interactive verbose
      else
        ret tt
  end.

(** Reading a local name of a function: [UnboundLocalError] as long as no
    statement has bound it. *)
Definition read_local {A : Type} (name : option A) : M G A :=
  match name with
  | Some a => ret a
  | None => raise UnboundLocalError
  end.

(** In both drivers the [from ... import prepare_agent_input] inside the
    [while True] makes [prepare_agent_input] a local name of the whole
    function, so the first statement reads a name that nothing has bound
    yet; the loop below it, where the import has run before the name is
    read again, is [graph_loop]. *)
Definition run_async_graph (fuel : nat) (message : string)
    (config : option pyval) (interactive verbose : bool) : M G unit :=
  let unbound : option (option string -> option (list pyval) -> option pyval
                        -> exn + agent_input) := None in
  prepare_agent_input <- read_local unbound ;;
  input_data <- lift (prepare_agent_input (Some message) None None) ;;
  graph_loop astream_graph_updates fuel input_data config interactive verbose.

Definition run_sync_graph (fuel : nat) (message : string)
    (config : option pyval) (interactive verbose : bool) : M G unit :=
  let unbound : option (option string -> option (list pyval) -> option pyval
                        -> exn + agent_input) := None in
  prepare_agent_input <- read_local unbound ;;
  input_data <- lift (prepare_agent_input (Some message) None None) ;;
  graph_loop stream_graph_updates fuel input_data config interactive verbose.

End Driver.

End LanggraphUtilsCli.

(* ================================================================== *)
(** ** Reading a trace *)

Module Trace.

(** The arguments of the calls of the Decision Collector, in order. *)
Fixpoint collector_calls (t : list event) : list pyval :=
  match t with
  | [] => []
  | ECollect a :: rest => a :: collector_calls rest
  | _ :: rest => collector_calls rest
  end.

(** The inputs of the engine invocations, in order. *)
Fixpoint invocations (t : list event) : list agent_input :=
  match t with
  | [] => []
  | EStream i _ :: rest => i :: invocations rest
  | _ :: rest => invocations rest
  end.

(** The chunks handed to the renderer, in order. *)
Fixpoint printed (t : list event) : list pydict :=
  match t with
  | [] => []
  | EPrintChunk c _ :: rest => c :: printed rest
  | _ :: rest => printed rest
  end.

(** The time the engine invocations of a trace took. *)
Fixpoint streaming_time (t : list event) : Z :=
  match t with
  | [] => 0
  | EStream _ d :: rest => d + streaming_time rest
  | _ :: rest => streaming_time rest
  end.

(** The time the operator let pass before each entry. *)
Fixpoint waiting_time (t : list event) : Z :=
  match t with
  | [] => 0
  | EKey d _ :: rest => d + waiting_time rest
  | ELine d _ :: rest => d + waiting_time rest
  | ENumber d _ :: rest => d + waiting_time rest
  | _ :: rest => waiting_time rest
  end.

Definition elapsed (t : list event) : Z := streaming_time t + waiting_time t.

(** An event that takes no time. *)
Definition untimed (e : event) : bool :=
  match e with
  | EStream _ _ | EKey _ _ | ELine _ _ | ENumber _ _ => false
  | _ => true
  end.

(** What the renderer is handed while a stream is consumed. *)
Definition render_event (e : event) : bool :=
  match e with
  | ESpinnerStop | EPrintChunk _ _ => true
  | _ => false
  end.

(** Events that are neither a call of the Decision Collector nor an engine
    invocation. *)
Definition quiet (e : event) : bool :=
  match e with
  | ECollect _ | EStream _ _ => false
  | _ => true
  end.

(** Events the spinner discipline does not look at. *)
Definition spinner_neutral (e : event) : bool :=
  match e with
  | ESpinnerStart | ESpinnerStop | EPrintChunk _ _ | ECollect _ => false
  | _ => true
  end.

(** Any event at all. *)
Definition any_event (e : event) : bool := true.

(** What happens inside the Decision Collector: the operator is shown text,
    presses keys, enters lines and numbers. *)
Definition operator_event (e : event) : bool :=
  match e with
  | EPrint _ | EKey _ _ | ELine _ _ | ENumber _ _ => true
  | _ => false
  end.

(** The spinner discipline: [Some running] while it is respected, [None]
    once a chunk is rendered or the Decision Collector is entered while the
    spinner runs. *)
Definition spinner_step (s : option bool) (e : event) : option bool :=
  match s with
  | None => None
  | Some running =>
      match e with
      | ESpinnerStart => Some true
      | ESpinnerStop => Some false
      | EPrintChunk _ _ => if running then None else Some false
      | ECollect _ => if running then None else Some false
      | _ => Some running
      end
  end.

Definition spinner_after (s : option bool) (t : list event) : option bool :=
  fold_left spinner_step t s.




End Trace.

Import Trace.

(* ================================================================== *)
(** ** What one pass over a stream computes *)

Module Scan.

Import DeepagentCode.

(** A chunk is an interrupt chunk when its status says so. *)
Definition is_interrupt (chunk : pydict) : bool :=
  eq_str (get chunk "status" PNone) "interrupt".

(** A stream on which the count of pending actions never raises. *)
Definition countable (stream : list pydict) : bool :=
  forallb (fun c => if is_interrupt c
                    then match pending_actions c with
                         | inr _ => true
                         | inl _ => false
                         end
                    else true) stream.

Section Deepagent.
Context {R : Renderer}.

(** The state [on_chunk] leaves, without the world. *)
Definition step (verbose : bool) (st : turn_state) (chunk : pydict)
  : exn + turn_state :=
  match print_chunk_error chunk verbose with
  | Some e => inl e
  | None =>
      if eq_str (get chunk "status" PNone) "interrupt" then
        match pending_actions chunk with
        | inl e => inl e
        | inr n => inr (mkTurn true n false)
        end
      else inr (mkTurn (has_interrupt st) (num_pending_actions st) false)
  end.

Fixpoint scan (verbose : bool) (st : turn_state) (stream : list pydict)
  : exn + turn_state :=
  match stream with
  | [] => inr st
  | chunk :: rest =>
      match step verbose st chunk with
      | inl e => inl e
      | inr st' => scan verbose st' rest
      end
  end.

(** The events [for_each_chunk] emits, up to the chunk that raises. *)
Fixpoint stream_events (verbose : bool) (st : turn_state)
    (stream : list pydict) : list event :=
  match stream with
  | [] => []
  | chunk :: rest =>
      (if first_chunk st then [ESpinnerStop] else [])
        ++ EPrintChunk chunk verbose
        :: match step verbose st chunk with
           | inl _ => []
           | inr st' => stream_events verbose st' rest
           end
  end.

(** A stream every chunk of which the renderer can draw. *)
Definition renders (verbose : bool) (stream : list pydict) : bool :=
  forallb (fun c => match print_chunk_error c verbose with
                    | None => true
                    | Some _ => false
                    end) stream.

End Deepagent.

End Scan.

Import Scan.

Section Worlds.
Context {G : Type}.

(** The world after some more events. *)
Definition add_events (w : world G) (evs : list event) : world G :=
  mkWorld (now w) (graph w) (keys w) (lines w) (numbers w) (trace w ++ evs).

(** From [w] to [w'] the trace grew by events that all satisfy [Q], and the
    clock advanced by exactly the time those events account for. *)
Definition grows (Q : event -> bool) (w w' : world G) : Prop :=
  exists evs,
    trace w' = (trace w ++ evs)%list /\
    forallb Q evs = true /\
    now w' - now w = elapsed evs.

Definition keeps {A : Type} (Q : event -> bool) (m : M G A) : Prop :=
  forall w, grows Q w (final_world (m w)).

End Worlds.

(* ================================================================== *)
(** ** The interrupt shapes of the spec *)



(** The canonical InterruptPayload. *)
Definition payload (actions configs : list pyval) : pyval :=
  PDict [("action_requests", PList actions); ("review_configs", PList configs)].




(* ================================================================== *)
(** ** A small engine, parser and operator to run the drivers on *)

Module Demo.

Definition write_file : pyval :=
  PDict [("tool", PStr "write_file"); ("args", PDict [])].

Definition delete_file : pyval :=
  PDict [("tool", PStr "delete_file"); ("tool_call_id", PStr "call_9");
         ("args", PDict [])].



Definition interrupt_chunk (actions : list pyval) : pydict :=
  [("status", PStr "interrupt");
   ("interrupt", PDict [("action_requests", PList actions);
                        ("review_configs", PList [])])].

Definition text_chunk : pydict :=
  [("status", PStr "streaming"); ("chunk", PStr "working"); ("node", PStr "agent")].

Definition complete_chunk : pydict := [("status", PStr "complete")].

(** The engine counts its invocations: the first one suspends on two
    actions after 5 ticks, every later one completes after 7. *)
Definition two_actions (n : nat) : stream_result nat :=
  match n with
  | O => mkStream [text_chunk; interrupt_chunk [write_file; delete_file]] 5 1%nat
  | S _ => mkStream [text_chunk; complete_chunk] 7 (S n)
  end.

(** An engine whose first invocation streams two interrupts, of two actions
    and then of no listed action. *)
Definition two_interrupts (n : nat) : stream_result nat :=
  match n with
  | O => mkStream [interrupt_chunk [write_file; delete_file];
                   text_chunk; interrupt_chunk []] 5 1%nat
  | S _ => mkStream [complete_chunk] 7 (S n)
  end.

(** An engine whose first invocation streams two interrupts, of one action
    and then of three. *)
Definition growing_interrupts (n : nat) : stream_result nat :=
  match n with
  | O => mkStream [interrupt_chunk [write_file]; text_chunk;
                   interrupt_chunk [write_file; delete_file; write_file]]
                  5 1%nat
  | S _ => mkStream [complete_chunk] 7 (S n)
  end.

(** An engine that streams nothing at all. *)
Definition silent (n : nat) : stream_result nat := mkStream [] 3 (S n).

Definition deepagent_engine (f : nat -> stream_result nat)
  : DeepagentCode.Engine nat :=
  {| DeepagentCode.stream_graph_updates := fun g _ _ _ => f g;
     DeepagentCode.astream_graph_updates := fun g _ _ _ => f g |}.

(** A renderer that draws every chunk. *)
Definition deepagent_renderer : DeepagentCode.Renderer :=
  {| DeepagentCode.print_chunk_error := fun _ _ => None |}.

(** A parser that knows three JSON texts. *)
Definition tiny_json : Json :=
  {| json_loads := fun s =>
       if String.eqb s "{}" then inr (PDict [])
       else if String.eqb s "null" then inr PNone
       else if String.eqb s "[]" then inr (PList [])
       else inl "Expecting value: line 1 column 1 (char 0)" |}.

(** The world at tick 100, before the engine was ever invoked, with what
    the operator is going to enter. *)
Definition start (ks : list (Z * key)) (ls : list (Z * string))
    (ns : list (Z * Z)) : world nat :=
  mkWorld 100 0%nat ks ls ns [].

End Demo.

(* ================================================================== *)
(** ** One engine invocation, seen from outside *)

Module Pass.

(** The collector calls of a trace up to the next engine invocation. *)
Fixpoint calls_until_next_stream (t : list event) : list pyval :=
  match t with
  | [] => []
  | EStream _ _ :: _ => []
  | ECollect a :: rest => a :: calls_until_next_stream rest
  | _ :: rest => calls_until_next_stream rest
  end.

(** The collector calls that belong to the first engine invocation of a
    trace: those after it and before the second one. *)
Fixpoint first_invocation_calls (t : list event) : list pyval :=
  match t with
  | [] => []
  | EStream _ _ :: rest => calls_until_next_stream rest
  | _ :: rest => first_invocation_calls rest
  end.

Section Deepagent.
Context {G : Type} {R : DeepagentCode.Renderer}.

(** The events of one pass of a deepagent_code turn up to the end of the
    stream: the spinner starts, the engine is invoked, the chunks are
    rendered behind a stopped spinner, and a spinner that saw no chunk is
    stopped. *)
Definition pass_events (input_data : agent_input) (verbose : bool)
    (r : stream_result G) : list event :=
  ESpinnerStart :: EStream input_data (took r)
    :: stream_events verbose DeepagentCode.fresh (chunks r)
    ++ match chunks r with [] => [ESpinnerStop] | _ => [] end.

(** The world once the stream of one invocation is exhausted. *)
Definition streamed (input_data : agent_input) (verbose : bool)
    (r : stream_result G) (w : world G) : world G :=
  mkWorld (now w + took r) (graph_after r) (keys w) (lines w) (numbers w)
          (trace w ++ pass_events input_data verbose r).

End Deepagent.

End Pass.

Import Pass.

(* ================================================================== *)
(** ** Runs of a single pass *)

(** The input of the first invocation of a turn: the user's message in the
    engine's message list. *)
Definition user_message (message : string) : agent_input :=
  MessagesInput
    (PDict [("messages",
             PList [PDict [("role", PStr "user"); ("content", PStr message)]])]).

(** A run that made one pass only: from [w] on, the engine was invoked once,
    on [i], the Decision Collector was never called and the operator never
    asked; and if the run returned, every chunk of [stream], in order, went
    to the renderer. *)
Definition one_pass_only {G A : Type} (w : world G) (o : outcome G A)
    (i : agent_input) (stream : list pydict) : Prop :=
  exists evs,
    trace (final_world o) = (trace w ++ evs)%list /\
    invocations evs = [i] /\
    collector_calls evs = [] /\
    keys (final_world o) = keys w /\
    lines (final_world o) = lines w /\
    numbers (final_world o) = numbers w /\
    ((exists a w', o = Done a w') -> printed evs = stream).


(* ================================================================== *)
(** ** Python string operations *)

Module Text.

(** [c in s] for a one-character [c]. *)
Fixpoint has_char (c : ascii) (s : string) : bool :=
  match s with
  | EmptyString => false
  | String d rest => (Ascii.eqb d c || has_char c rest)%bool
  end.

(** [s.rsplit(sep, 1)] when [sep] occurs in [s]: what is before and what is
    after its last occurrence; [None] when it does not occur. *)
Fixpoint rsplit1 (sep : ascii) (s : string) : option (string * string) :=
  match s with
  | EmptyString => None
  | String c rest =>
      match rsplit1 sep rest with
      | Some (before, after) => Some (String c before, after)
      | None => if Ascii.eqb c sep then Some (EmptyString, rest) else None
      end
  end.

(** [s.endswith(suffix)]. *)
Fixpoint endswith (s suffix : string) : bool :=
  (String.eqb s suffix
   || match s with
      | EmptyString => false
      | String _ rest => endswith rest suffix
      end)%bool.

(** [s.split(sep)]: never empty, one more piece than [sep] occurs. *)
Fixpoint split (sep : ascii) (s : string) : list string :=
  match s with
  | EmptyString => [EmptyString]
  | String c rest =>
      if Ascii.eqb c sep then EmptyString :: split sep rest
      else match split sep rest with
           | piece :: pieces => String c piece :: pieces
           | [] => [String c EmptyString]
           end
  end.

(** How often [c] occurs in [s]. *)
Fixpoint count_char (c : ascii) (s : string) : nat :=
  match s with
  | EmptyString => O
  | String d rest => ((if Ascii.eqb d c then 1 else 0) + count_char c rest)%nat
  end.

Definition newline : ascii := ascii_of_nat 10.
Definition colon : ascii := ":"%char.
Definition slash : ascii := "/"%char.
Definition backslash : ascii := ascii_of_nat 92.

End Text.

Import Text.

(* ================================================================== *)
(** ** deepagent_code/cli.py: names, specs and previews *)

Module DeepagentCodeTools.

(** [if name and isinstance(name, str)]: the name, when it is a non-empty
    string. *)
Definition usable_name (found : option pyval) : option string :=
  match found with
  | Some (PStr s) => if String.eqb s "" then None else Some s
  | _ => None
  end.

(** The [for attr in (...)] of [get_agent_name]. *)
Fixpoint first_usable_name (graph : pyval) (attrs : list string)
  : option string :=
  match attrs with
  | [] => None
  | attr :: rest =>
      match usable_name (attribute graph attr) with
      | Some name => Some name
      | None => first_usable_name graph rest
      end
  end.

Definition get_agent_name (graph : pyval) : string :=
  match first_usable_name graph ["name"; "agent_name"; "_name"; "__name__"] with
  | Some name => name
  | None =>
      match attribute graph "builder" with
      | Some builder =>
          match usable_name (attribute builder "name") with
          | Some name => name
          | None => "AgentCode"
          end
      | None => "AgentCode"
      end
  end.

Definition parse_agent_spec (agent_spec : string) : exn + (string * string) :=
  match rsplit1 colon agent_spec with
  | None =>
      inl (ValueError
             ("Invalid agent spec format: '" ++ agent_spec
                ++ "'. Expected format: 'path/to/file.py:variable_name'"))
  | Some (file_path, variable_name) =>
      if negb (endswith file_path ".py") then
        inl (ValueError ("Agent spec file must be a .py file: " ++ file_path))
      else inr (file_path, variable_name)
  end.

(** What loading a graph can raise. *)
Inductive load_error : Type :=
| FileNotFoundError (path : string)
| CouldNotLoad (path : string)
| NoSuchVariable (graph_name : string)
| ImportFailed (what : string).

(** The file system and the import machinery behind the loaders: where a
    path resolves to, whether it exists, whether an import spec with a
    loader is found for it, and what executing a file or importing a module
    leaves as the module's attributes, or raises. *)
Class Importer : Type := {
  resolve : string -> string;
  path_exists : string -> bool;
  spec_from_file_location : string -> bool;
  exec_module : string -> load_error + pydict;
  import_module : string -> load_error + pydict
}.

Section Loading.
Context {I : Importer}.

Definition load_graph_from_file (file_path graph_name : string)
  : load_error + pyval :=
  let file_path := resolve file_path in
  if negb (path_exists file_path) then inl (FileNotFoundError file_path)
  else if negb (spec_from_file_location file_path) then
    inl (CouldNotLoad file_path)
  else
    match exec_module file_path with
    | inl e => inl e
    | inr module =>
        match lookup graph_name module with
        | None => inl (NoSuchVariable graph_name)
        | Some graph => inr graph
        end
    end.

Definition load_graph_from_module (module_path graph_name : string)
  : load_error + pyval :=
  match import_module module_path with
  | inl e => inl e
  | inr module =>
      match lookup graph_name module with
      | None => inl (NoSuchVariable graph_name)
      | Some graph => inr graph
      end
  end.

Definition load_graph (spec default_graph_name : string)
  : load_error + (pyval * string) :=
  let '(path_or_module, graph_name) :=
    match rsplit1 colon spec with
    | Some (path_or_module, graph_name) =>
        (path_or_module,
         if String.eqb graph_name "" then default_graph_name else graph_name)
    | None => (spec, default_graph_name)
    end in
  let is_file_path :=
    (endswith path_or_module ".py"
     || has_char slash path_or_module
     || has_char backslash path_or_module
     || path_exists path_or_module)%bool in
  if is_file_path then
    match load_graph_from_file path_or_module graph_name with
    | inl e => inl e
    | inr graph => inr (graph, graph_name)
    end
  else
    match load_graph_from_module path_or_module graph_name with
    | inl e => inl e
    | inr graph => inr (graph, graph_name)
    end.

End Loading.

(** [str(list(args.values())[0])], cut to 50 characters; [str] is Python's
    conversion of a value to text. *)
Definition get_tool_arg_preview (str : pyval -> string) (args : pyval)
  : exn + string :=
  if negb (truthy args) then inr ""
  else
    match args with
    | PDict ((_, first) :: _) =>
        let first_val := str first in
        if (50 <? char_length first_val)%nat
        then inr (take_chars 50 first_val ++ "...")
        else inr first_val
    | _ => inl AttributeError
    end.

Definition format_result_preview (result : string) : string :=
  if String.eqb result "" then "(empty)"
  else
    let lines := split newline result in
    let first_line := List.hd "" lines in
    let preview := take_chars 60 first_line in
    if (1 <? List.length lines)%nat then
      preview ++ " ... +" ++ str_of_int (Z.of_nat (List.length lines - 1))
        ++ " lines"
    else if (60 <? char_length first_line)%nat then preview ++ "..."
    else preview.

End DeepagentCodeTools.


(* ================================================================== *)
(** ** Surroundings to run the tools on *)

Module Bench.

(** A file system with one agent file, whose module defines [graph]. *)
Definition one_agent_file : DeepagentCodeTools.Importer :=
  {| DeepagentCodeTools.resolve := fun p => "/work/" ++ p;
     DeepagentCodeTools.path_exists := fun p => String.eqb p "/work/my_agent.py";
     DeepagentCodeTools.spec_from_file_location := fun _ => true;
     DeepagentCodeTools.exec_module := fun _ => inr [("graph", PObj [])];
     DeepagentCodeTools.import_module :=
       fun m => inl (DeepagentCodeTools.ImportFailed m) |}.

(** An engine whose stream holds an interrupt chunk without a usable
    payload between two ordinary chunks. *)
Definition broken_interrupt (n : nat) : stream_result nat :=
  mkStream [Demo.text_chunk;
            [("status", PStr "interrupt"); ("interrupt", PNone)];
            Demo.complete_chunk] 4 (S n).

End Bench.


(* ================================================================== *)
(** ** deepagent_code/cli.py: the conversation loop *)

Module DeepagentCodeLoop.

(** What the loop takes from the terminal and the libraries: the separator
    line (its width is the terminal's), the lines of the header box for an
    agent name, the two glyphs of the prompt and of the status lines, the
    text of a duration and of an exception, and the identifiers [uuid4]
    hands out, in the order of the calls. *)
Class Screen : Type := {
  separator : string;
  header_box : string -> list string;
  prompt_mark : string;
  bullet : string;
  format_duration : Z -> string;
  str_of_exn : exn -> string;
  uuid4 : nat -> string
}.

(** [d[key] = v] on a dict: the entry is replaced where it stands, a new
    key goes to the end. *)
Fixpoint set_item (d : pydict) (key : string) (v : pyval) : pydict :=
  match d with
  | [] => [(key, v)]
  | (k, x) :: rest =>
      if String.eqb k key then (k, v) :: rest
      else (k, x) :: set_item rest key v
  end.

(** [config["configurable"]["thread_id"] = thread_id]: [KeyError] when the
    config has no "configurable", [TypeError] when the config or its
    "configurable" is not a dict. *)
Definition set_thread_id (config : pyval) (thread_id : string) : exn + pyval :=
  match config with
  | PDict d =>
      match lookup "configurable" d with
      | None => inl KeyError
      | Some (PDict c) =>
          inr (PDict (set_item d "configurable"
                        (PDict (set_item c "thread_id" (PStr thread_id)))))
      | Some _ => inl TypeError
      end
  | _ => inl TypeError
  end.

(** The thread identifier a turn runs under. *)
Definition thread_id (config : pyval) : option pyval :=
  match config with
  | PDict d =>
      match lookup "configurable" d with
      | Some (PDict c) => lookup "thread_id" c
      | _ => None
      end
  | _ => None
  end.

(** [sub in s] for two strings. *)
Fixpoint is_substring (sub s : string) : bool :=
  (String.prefix sub s
   || match s with
      | EmptyString => false
      | String _ rest => is_substring sub rest
      end)%bool.

(** [key not in container]: a key is looked up in a dict, an element in a
    list or a tuple, a substring in a string; anything else has no [in]. *)
Definition not_in (key : string) (container : pyval) : exn + bool :=
  match container with
  | PDict d => inr (match lookup key d with Some _ => false | None => true end)
  | PList l | PTuple l =>
      inr (negb (existsb (fun v => eq_str v key) l))
  | PStr s => inr (negb (is_substring key s))
  | _ => inl TypeError
  end.

(** The lines of [main] that make sure the config has a thread identifier
    before the loop starts; [fresh] is what [uuid4] returns if called.
    A config read as JSON [null] is [None]. *)
Definition ensure_thread_id (config_dict : pyval) (fresh : string)
  : exn + pyval :=
  let config_dict := match config_dict with PNone => PDict [] | c => c end in
  match not_in "configurable" config_dict with
  | inl e => inl e
  | inr absent =>
      match (if absent then
               match config_dict with
               | PDict d => inr (PDict (set_item d "configurable" (PDict [])))
               | _ => inl TypeError
               end
             else inr config_dict) with
      | inl e => inl e
      | inr config_dict =>
          match config_dict with
          | PDict d =>
              match lookup "configurable" d with
              | None => inl KeyError
              | Some configurable =>
                  match not_in "thread_id" configurable with
                  | inl e => inl e
                  | inr true => set_thread_id config_dict fresh
                  | inr false => inr config_dict
                  end
              end
          | _ => inl TypeError
          end
      end
  end.

(** [user_input in ("/q", "/quit", "/exit", "exit")]. *)
Definition is_quit (user_input : string) : bool :=
  existsb (String.eqb user_input) ["/q"; "/quit"; "/exit"; "exit"].

(** [user_input in ("/h", "/help")]. *)
Definition is_help (user_input : string) : bool :=
  existsb (String.eqb user_input) ["/h"; "/help"].

(** The variables of the loop: the config, which "/c" updates in place, and
    the number of identifiers [uuid4] has handed out. *)
Record loop_vars : Type := mkLoop {
  config : pyval;
  uuids : nat
}.

(** How an iteration of the [while True] ends. *)
Inductive flow : Type :=
| Continue (vars : loop_vars)
| Break.

Section Loop.
Context {G : Type} {E : DeepagentCode.Engine G} {R : DeepagentCode.Renderer}
        {J : Json} {S : Screen}.

Local Open Scope run_scope.

Fixpoint print_lines (texts : list string) : M G unit :=
  match texts with
  | [] => ret tt
  | text :: rest => emit (EPrint text) ;;; print_lines rest
  end.

(** [print_header_box(agent_name, os.getcwd())]. *)
Definition print_header_box (agent_name : string) : M G unit :=
  print_lines (header_box agent_name).

(** [print_timing(duration, verbose)]. *)
Definition print_timing (duration : Z) (verbose : bool) : M G unit :=
  let formatted := format_duration duration in
  if verbose then
    emit (EPrint (String newline ("Response time: " ++ formatted)))
  else
    emit (EPrint (String newline formatted)).

(** One turn with its timing line: the [if use_async] of the loop, then
    [print_timing] and the empty [print]. *)
Definition run_turn (fuel : nat) (message : string) (config : pyval)
    (use_async interactive verbose : bool) (stream_mode : string) : M G unit :=
  duration <-
    (if use_async then
       DeepagentCode.run_single_turn_async fuel message (Some config)
         interactive verbose stream_mode
     else
       DeepagentCode.run_single_turn_sync fuel message (Some config)
         interactive verbose stream_mode) ;;
  print_timing duration verbose ;;;
  emit (EPrint EmptyString).

(** [except Exception as err]: the error is shown and the loop goes on. *)
Definition on_error (err : exn) (vars : loop_vars) : M G flow :=
  emit (EPrint (bullet ++ " Error: " ++ str_of_exn err)) ;;;
  ret (Continue vars).

(** The body of the [try].  The assignment of "/c" is the one statement
    that can raise after a variable of the loop changed ([uuid4] was
    called): its exception, never an [EOFError], goes to [on_error] with
    the variables as they are then. *)
Definition body (fuel : nat) (use_async interactive verbose : bool)
    (stream_mode : string) (vars : loop_vars) : M G flow :=
  emit (EPrint separator) ;;;
  line <- input ;;
  let user_input := strip line in
  emit (EPrint separator) ;;;
  if String.eqb user_input EmptyString then
    ret (Continue vars)
  else if is_quit user_input then
    ret Break
  else if String.eqb user_input "/c" then
    let vars' := mkLoop (config vars) (Datatypes.S (uuids vars)) in
    match set_thread_id (config vars) (uuid4 (uuids vars)) with
    | inl err => on_error err vars'
    | inr config' =>
        emit (EPrint (bullet ++ " Cleared conversation")) ;;;
        ret (Continue (mkLoop config' (Datatypes.S (uuids vars))))
    end
  else if is_help user_input then
    emit (EPrint (String newline "Commands:")) ;;;
    emit (EPrint "  /q, /quit, exit  - Exit") ;;;
    emit (EPrint "  /c               - Clear conversation") ;;;
    emit (EPrint ("  /h, /help        - Show this help" ++ String newline EmptyString)) ;;;
    ret (Continue vars)
  else
    run_turn fuel user_input (config vars) use_async interactive verbose
      stream_mode ;;;
    ret (Continue vars).

(** One iteration: the [try] with its two handlers.  Leaving the process
    is no exception the handlers catch. *)
Definition iteration (fuel : nat) (use_async interactive verbose : bool)
    (stream_mode : string) (vars : loop_vars) : M G flow :=
  fun w =>
    match body fuel use_async interactive verbose stream_mode vars w with
    | Raised EOFError w' => Done Break w'
    | Raised err w' => on_error err vars w'
    | o => o
    end.

(** The [while True]; every iteration that does not end the loop has read
    a line, so [rounds] bounds the iterations by the lines to come. *)
Fixpoint loop (rounds fuel : nat) (use_async interactive verbose : bool)
    (stream_mode : string) (vars : loop_vars) : M G unit :=
  match rounds with
  | O => fun w => OutOfFuel w
  | Datatypes.S rounds' =>
      next <- iteration fuel use_async interactive verbose stream_mode vars ;;
      match next with
      | Continue vars' =>
          loop rounds' fuel use_async interactive verbose stream_mode vars'
      | Break => ret tt
      end
  end.

(** [fuel] bounds the engine invocations of each turn. *)
Definition run_conversation_loop (fuel : nat) (config : pyval)
    (agent_name : string) (use_async interactive verbose : bool)
    (stream_mode : string) (initial_message : option string) : M G unit :=
  print_header_box agent_name ;;;
  match initial_message with
  | Some message =>
      if String.eqb message EmptyString then ret tt
      else
        emit (EPrint separator) ;;;
        emit (EPrint (prompt_mark ++ " " ++ message)) ;;;
        emit (EPrint separator) ;;;
        run_turn fuel message config use_async interactive verbose stream_mode
  | None => ret tt
  end ;;;
  fun w =>
    loop (Datatypes.S (List.length (lines w))) fuel use_async interactive
      verbose stream_mode (mkLoop config 0) w.

End Loop.

End DeepagentCodeLoop.

(** A terminal for the examples. *)
Module Stage.

Definition screen : DeepagentCodeLoop.Screen :=
  {| DeepagentCodeLoop.separator := "----";
     DeepagentCodeLoop.header_box := fun name => ["+--+"; name; "+--+"];
     DeepagentCodeLoop.prompt_mark := ">";
     DeepagentCodeLoop.bullet := "*";
     DeepagentCodeLoop.format_duration := fun d => (str_of_int d ++ "s")%string;
     DeepagentCodeLoop.str_of_exn := fun e =>
       match e with
       | AttributeError => "'NoneType' object has no attribute 'get'"
       | TypeError => "TypeError"
       | KeyError => "'configurable'"
       | ValueError msg => msg
       | NormalizationError msg => msg
       | EOFError => "EOF"
       | Abort => "Abort"
       | UnboundLocalError =>
           "cannot access local variable where it is not associated with a value"
       end;
     DeepagentCodeLoop.uuid4 := fun n => ("id-" ++ str_of_int (Z.of_nat n))%string |}.

(** A quit command between a unit separator (U+001F) and a no-break space
    (U+00A0), both of which [str.strip] removes. *)
Definition padded_quit : string :=
  String (ascii_of_nat 31) ("/q" ++ utf8 160).

End Stage.


(** What the properties of the conversation loop speak about. *)
Module Dialogue.

Import DeepagentCodeLoop.

Section Dialogue.
Context {G : Type} {E : DeepagentCode.Engine G} {S : Screen}.

(** The stream function the loop drives. *)
Definition stream_of (use_async : bool)
  : G -> agent_input -> option pyval -> string -> stream_result G :=
  if use_async then DeepagentCode.astream_graph_updates
  else DeepagentCode.stream_graph_updates.

(** The world once the operator answered the prompt with [line], between
    the two separators. *)
Definition after_prompt (w : world G) (waited : Z) (line : string)
    (rest : list (Z * string)) : world G :=
  mkWorld (now w + waited) (graph w) (keys w) rest (numbers w)
          (trace w ++ [EPrint separator; ELine waited line; EPrint separator]).

(** The two lines a turn that returned ends with. *)
Definition timing_lines (duration : Z) (verbose : bool) : list event :=
  [EPrint (String newline
             ((if verbose then "Response time: " else EmptyString)
              ++ format_duration duration));
   EPrint EmptyString].

(** The lines the loop answers itself: nothing, a quit command, "/c", a
    help command. *)
Definition is_command (user_input : string) : bool :=
  (String.eqb user_input EmptyString || is_quit user_input
   || String.eqb user_input "/c" || is_help user_input)%bool.

End Dialogue.

End Dialogue.


(* ================================================================== *)
(** ** deepagent_code/cli.py: reading a key *)

Module Keyboard.

Definition escape : ascii := ascii_of_nat 27.
Definition carriage_return : ascii := ascii_of_nat 13.
Definition ctrl_c : ascii := ascii_of_nat 3.
Definition special_0 : ascii := ascii_of_nat 0.
Definition special_e0 : ascii := ascii_of_nat 224.

(** [ch == c] for what was read and a one-character literal. *)
Definition is_char (ch : string) (c : ascii) : bool :=
  String.eqb ch (String c EmptyString).

(** [sys.stdin.read(1)] on the characters still to come: the next one, the
    empty string at the end of the input. *)
Definition read1 (stdin : list ascii) : string * list ascii :=
  match stdin with
  | [] => (EmptyString, [])
  | c :: rest => (String c EmptyString, rest)
  end.

(** The Unix branch of [get_key]: the key and the characters left. *)
Definition get_key_unix (stdin : list ascii) : key * list ascii :=
  let (ch, stdin1) := read1 stdin in
  if is_char ch escape then
    let (ch2, stdin2) := read1 stdin1 in
    if is_char ch2 "["%char then
      let (ch3, stdin3) := read1 stdin2 in
      if is_char ch3 "A"%char then (KUp, stdin3)
      else if is_char ch3 "B"%char then (KDown, stdin3)
      else (KChar ch, stdin3)
    else (KChar ch, stdin2)
  else if (is_char ch carriage_return || is_char ch newline)%bool then
    (KEnter, stdin1)
  else if is_char ch ctrl_c then (KCtrlC, stdin1)
  else (KChar ch, stdin1).

(** [b.decode('utf-8', errors='ignore')] of one byte: itself below 128,
    nothing above. *)
Definition decode (b : ascii) : string :=
  if (nat_of_ascii b <? 128)%nat then String b EmptyString else EmptyString.

(** The Windows branch of [get_key], over the bytes [msvcrt.getch] will
    return; [None] when it waits for a byte that does not come. *)
Definition get_key_windows (stdin : list ascii) : option (key * list ascii) :=
  match stdin with
  | [] => None
  | ch :: stdin1 =>
      if (Ascii.eqb ch special_0 || Ascii.eqb ch special_e0)%bool then
        match stdin1 with
        | [] => None
        | ch2 :: stdin2 =>
            if Ascii.eqb ch2 "H"%char then Some (KUp, stdin2)
            else if Ascii.eqb ch2 "P"%char then Some (KDown, stdin2)
            else Some (KChar (decode ch2), stdin2)
        end
      else if Ascii.eqb ch carriage_return then Some (KEnter, stdin1)
      else if Ascii.eqb ch ctrl_c then Some (KCtrlC, stdin1)
      else Some (KChar (decode ch), stdin1)
  end.

End Keyboard.


(* ================================================================== *)
(** * Properties *)

(** ** Python helpers *)


Lemma replicate_all (n : Z) (x y : pyval) : In y (replicate n x) -> y = x.
Proof.
  unfold replicate. intros Hy. exact (repeat_spec _ _ _ Hy).
Qed.

(** A text that is not empty has a character. *)
Lemma char_length_positive (c : ascii) (rest : string) :
  (1 <= char_length (String c rest))%nat.
Proof.
  revert c. induction rest as [ | d rest IH ]; intros c.
  - simpl. lia.
  - change (char_length (String c (String d rest)))
      with ((if ends_char (String d rest) then 1 else 0)
            + char_length (String d rest))%nat.
    specialize (IH d). lia.
Qed.


Example strip_example : strip "  {}  " = "{}".
Proof. reflexivity. Qed.

Example str_of_int_example :
  str_of_int 5 = "5" /\ str_of_int 0 = "0" /\ str_of_int 12 = "12".
Proof. repeat split; reflexivity. Qed.

(** ** The resume input builder *)

(** C4.  [prepare_agent_input] succeeds exactly when exactly one of the
    message, the decisions and the raw input is supplied; with none, and with
    two or three of them, it fails with a [ValueError]. *)
Theorem prepare_agent_input_exactly_one
    (message : option string) (decisions : option (list pyval))
    (raw_input : option pyval) :
  let provided := supplied message + supplied decisions + supplied raw_input in
  (provided = 1 <-> exists input, prepare_agent_input message decisions raw_input = inr input)
  /\ (provided = 0 ->
      exists msg, prepare_agent_input message decisions raw_input = inl (ValueError msg))
  /\ (2 <= provided ->
      exists msg, prepare_agent_input message decisions raw_input = inl (ValueError msg)).
Proof.
  destruct message, decisions, raw_input; cbn;
    repeat split; intros;
    try lia; try discriminate; eauto;
    match goal with
    | H : exists _, _ |- _ => destruct H; discriminate
    end.
Qed.

Lemma prepare_agent_input_exactly_one_witness :
  (exists input, prepare_agent_input (Some "Hello, agent!") None None = inr input)
  /\ (exists msg, prepare_agent_input None None None = inl (ValueError msg))
  /\ (exists msg, prepare_agent_input (Some "Hello") (Some []) None = inl (ValueError msg)).
Proof.
  split; [ | split ].
  - destruct (prepare_agent_input_exactly_one (Some "Hello, agent!") None None)
      as [[Hone _] _].
    apply Hone. reflexivity.
  - destruct (prepare_agent_input_exactly_one None None None)
      as [_ [Hnone _]].
    apply Hnone. reflexivity.
  - destruct (prepare_agent_input_exactly_one (Some "Hello") (Some []) None)
      as [_ [_ Hmany]].
    apply Hmany. simpl. lia.
Defined.

(** ** The interrupt extractor *)

(** C5.  An action request that names its tool and lacks a [tool_call_id] is
    serialised at position [index] with the id [call_] followed by the
    decimal [index]; an id it carries is kept as it is. *)
Theorem serialize_action_request_fallback_id
    (action tool : pyval) (index : Z) :
  field action "tool" = Some tool ->
  exists serialized,
    serialize_action_request action index = inr serialized /\
    (field action "tool_call_id" = None ->
     field serialized "tool_call_id" = Some (PStr ("call_" ++ str_of_int index))) /\
    (forall id, field action "tool_call_id" = Some id ->
                field serialized "tool_call_id" = Some id).
Proof.
  intros Htool. unfold serialize_action_request. rewrite Htool.
  eexists; split; [ reflexivity | ].
  split.
  - intros Hid. rewrite Hid. reflexivity.
  - intros id Hid. rewrite Hid. reflexivity.
Qed.

Lemma serialize_action_request_fallback_id_witness :
  exists serialized,
    serialize_action_request (PDict [("tool", PStr "t"); ("args", PDict [])]) 5
      = inr serialized /\
    field serialized "tool_call_id" = Some (PStr "call_5").
Proof.
  destruct (serialize_action_request_fallback_id
              (PDict [("tool", PStr "t"); ("args", PDict [])]) (PStr "t") 5
              eq_refl) as [s [Hs [Hnone _]]].
  exists s. split; [ exact Hs | ]. apply Hnone. reflexivity.
Defined.






(* ================================================================== *)
(** ** Runs and their traces *)

Section Runs.
Context {G : Type}.
Implicit Types (w : world G) (t evs : list event) (Q : event -> bool).

Lemma add_events_nil w : add_events w [] = w.
Proof.
  destruct w. unfold add_events. simpl. rewrite app_nil_r. reflexivity.
Qed.

Lemma add_events_app w evs evs' :
  add_events (add_events w evs) evs' = add_events w (evs ++ evs').
Proof.
  unfold add_events. simpl. rewrite app_assoc. reflexivity.
Qed.

Lemma log_add_events (e : event) w : log e w = add_events w [e].
Proof. reflexivity. Qed.

Lemma streaming_time_app t t' :
  streaming_time (t ++ t') = streaming_time t + streaming_time t'.
Proof.
  induction t as [ | e t IH ]; simpl; [ reflexivity | ].
  destruct e; rewrite ?IH; lia.
Qed.

Lemma waiting_time_app t t' :
  waiting_time (t ++ t') = waiting_time t + waiting_time t'.
Proof.
  induction t as [ | e t IH ]; simpl; [ reflexivity | ].
  destruct e; rewrite ?IH; lia.
Qed.

Lemma elapsed_app t t' : elapsed (t ++ t') = elapsed t + elapsed t'.
Proof.
  unfold elapsed. rewrite streaming_time_app, waiting_time_app. lia.
Qed.

Lemma grows_refl Q w : grows Q w w.
Proof.
  exists []. rewrite app_nil_r. repeat split. unfold elapsed. simpl. lia.
Qed.

Lemma grows_trans Q w1 w2 w3 : grows Q w1 w2 -> grows Q w2 w3 -> grows Q w1 w3.
Proof.
  intros [evs [Ht [HQ Hclock]]] [evs' [Ht' [HQ' Hclock']]].
  exists (evs ++ evs')%list. split; [ | split ].
  - rewrite Ht', Ht, app_assoc. reflexivity.
  - rewrite forallb_app, HQ, HQ'. reflexivity.
  - rewrite elapsed_app. lia.
Qed.

Lemma grows_weaken Q Q' w w' :
  (forall e, Q e = true -> Q' e = true) -> grows Q w w' -> grows Q' w w'.
Proof.
  intros Hsub [evs [Ht [HQ Hclock]]]. exists evs. repeat split; auto.
  rewrite forallb_forall in *. auto.
Qed.

Lemma final_world_bind {A B : Type} (m : M G A) (f : A -> M G B) w :
  final_world (bind m f w)
  = match m w with
    | Done a w' => final_world (f a w')
    | o => final_world o
    end.
Proof. unfold bind. destruct (m w); reflexivity. Qed.

Lemma keeps_ret {A : Type} Q (a : A) : keeps Q (ret (G := G) a).
Proof. intros w. apply grows_refl. Qed.

Lemma keeps_bind {A B : Type} Q (m : M G A) (f : A -> M G B) :
  keeps Q m -> (forall a, keeps Q (f a)) -> keeps Q (bind m f).
Proof.
  intros Hm Hf w. rewrite final_world_bind. specialize (Hm w).
  destruct (m w) as [ a w' | e w' | c w' | w' | w' ]; simpl in *; auto.
  eapply grows_trans; [ exact Hm | apply Hf ].
Qed.

Lemma keeps_raise {A : Type} Q (e : exn) : keeps Q (raise (G := G) (A := A) e).
Proof. intros w. apply grows_refl. Qed.

Lemma keeps_lift {A : Type} Q (r : exn + A) : keeps Q (lift (G := G) r).
Proof. destruct r; [ apply keeps_raise | apply keeps_ret ]. Qed.

Lemma keeps_sys_exit {A : Type} Q (code : Z) :
  keeps Q (sys_exit (G := G) (A := A) code).
Proof. intros w. apply grows_refl. Qed.

Lemma keeps_time_time Q : keeps Q (time_time (G := G)).
Proof. intros w. apply grows_refl. Qed.

Lemma keeps_emit Q (e : event) :
  Q e = true -> untimed e = true -> keeps Q (emit (G := G) e).
Proof.
  intros HQ He w. exists [e]. simpl. rewrite HQ.
  repeat split. destruct e; try discriminate; unfold elapsed; simpl; lia.
Qed.

Lemma keeps_get_key Q :
  (forall d k, Q (EKey d k) = true) -> keeps Q (get_key (G := G)).
Proof.
  intros HQ w. unfold get_key.
  destruct (keys w) as [ | [d k] rest ]; simpl; [ apply grows_refl | ].
  exists [EKey d k]. simpl. rewrite HQ. repeat split.
  unfold elapsed. simpl. lia.
Qed.

Lemma keeps_input Q :
  (forall d s, Q (ELine d s) = true) -> keeps Q (input (G := G)).
Proof.
  intros HQ w. unfold input.
  destruct (lines w) as [ | [d s] rest ]; simpl; [ apply grows_refl | ].
  exists [ELine d s]. simpl. rewrite HQ. repeat split.
  unfold elapsed. simpl. lia.
Qed.

Lemma keeps_click_prompt_str Q :
  (forall d s, Q (ELine d s) = true) -> keeps Q (click_prompt_str (G := G)).
Proof.
  intros HQ w. unfold click_prompt_str.
  destruct (lines w) as [ | [d s] rest ]; simpl; [ apply grows_refl | ].
  exists [ELine d s]. simpl. rewrite HQ. repeat split.
  unfold elapsed. simpl. lia.
Qed.

Lemma keeps_click_prompt_int Q :
  (forall d n, Q (ENumber d n) = true) -> keeps Q (click_prompt_int (G := G)).
Proof.
  intros HQ w. unfold click_prompt_int.
  destruct (numbers w) as [ | [d n] rest ]; simpl; [ apply grows_refl | ].
  exists [ENumber d n]. simpl. rewrite HQ. repeat split.
  unfold elapsed. simpl. lia.
Qed.

Lemma keeps_invoke Q (stream : G -> stream_result G) (i : agent_input) :
  (forall d, Q (EStream i d) = true) -> keeps Q (invoke stream i).
Proof.
  intros HQ w. unfold invoke. simpl.
  exists [EStream i (took (stream (graph w)))]. simpl. rewrite HQ.
  repeat split. unfold elapsed. simpl. lia.
Qed.

End Runs.

Create HintDb keeps.
#[export] Hint Resolve keeps_ret keeps_raise keeps_lift keeps_sys_exit
  keeps_time_time : keeps.

(** Decomposing a computation along its binds. *)
Ltac keeps_step :=
  first
    [ apply keeps_bind; [ | intros ? ]
    | apply keeps_emit; reflexivity
    | apply keeps_get_key; reflexivity
    | apply keeps_input; reflexivity
    | apply keeps_click_prompt_str; reflexivity
    | apply keeps_click_prompt_int; reflexivity
    | apply keeps_invoke; reflexivity
    | solve [ auto with keeps ] ].

(* ================================================================== *)
(** ** The Decision Collector of deepagent_code *)

Section Collector.
Context {G : Type} {E : DeepagentCode.Engine G} {J : Json}.
Import DeepagentCode.

Lemma select_loop_keeps (rounds : nat) :
  forall num_options selected, keeps operator_event (select_loop (G := G) rounds num_options selected).
Proof.
  induction rounds as [ | rounds IH ]; intros num_options selected; simpl.
  - intros w. apply grows_refl.
  - apply keeps_bind; [ apply keeps_get_key; reflexivity | ].
    intros [ | | | | c ]; try apply IH; auto with keeps.
    + destruct (selected >? 0); apply IH.
    + destruct (selected <? num_options - 1); apply IH.
Qed.

Lemma select_option_keeps (opts : list string) (prompt : string) :
  keeps operator_event (select_option (G := G) opts prompt).
Proof. intros w. unfold select_option. apply select_loop_keeps. Qed.



(** The Decision Collector, choice by choice. *)
Lemma handle_interrupt_input_paths (num_actions : Z) (w : world G) :
  match select_option options "How would you like to proceed?"
          (log (ECollect (PInt num_actions)) w) with
  | Done choice w1 =>
      if choice =? 0 then
        handle_interrupt_input num_actions w
        = Done (replicate num_actions approve) w1
      else if choice =? 1 then
        handle_interrupt_input num_actions w
        = Done (replicate num_actions reject) w1
      else if choice =? 2 then
        let w2 :=
          log (EPrint "Enter your decision as JSON (will be applied to all actions):") w1 in
        match input w2 with
        | Done line w3 =>
            match json_loads (strip line) with
            | inr decision =>
                handle_interrupt_input num_actions w
                = Done (replicate num_actions decision) w3
            | inl e =>
                handle_interrupt_input num_actions w
                = Done (replicate num_actions reject)
                       (log (EPrint ("⏺ Invalid JSON: " ++ e)) w3)
            end
        | _ => forall ds w', handle_interrupt_input num_actions w <> Done ds w'
        end
      else
        handle_interrupt_input num_actions w = Exited 0 w1
  | _ => forall ds w', handle_interrupt_input num_actions w <> Done ds w'
  end.
Proof.
  remember (handle_interrupt_input num_actions w) as o eqn:Ho.
  cbv beta iota delta [handle_interrupt_input bind emit ret sys_exit] in Ho.
  destruct (select_option options _ (log _ w)) as [ choice w1 | | | | ];
    try (subst o; intros; discriminate).
  destruct (choice =? 0); [ exact Ho | ].
  destruct (choice =? 1); [ exact Ho | ].
  destruct (choice =? 2); [ | exact Ho ].
  cbv zeta.
  destruct (input _) as [ line w3 | | | | ];
    try (subst o; intros; discriminate).
  cbv zeta in Ho. destruct (json_loads (strip line)); exact Ho.
Qed.


(** Inside the Decision Collector there is only the operator. *)
Lemma handle_interrupt_input_grows (num_actions : Z) (w : world G) :
  grows operator_event (log (ECollect (PInt num_actions)) w)
        (final_world (handle_interrupt_input num_actions w)).
Proof.
  unfold handle_interrupt_input.
  rewrite final_world_bind. unfold emit at 1.
  apply keeps_bind; [ apply select_option_keeps | ].
  intros choice.
  destruct (choice =? 0); [ auto with keeps | ].
  destruct (choice =? 1); [ auto with keeps | ].
  destruct (choice =? 2); [ | auto with keeps ].
  apply keeps_bind; [ apply keeps_emit; reflexivity | intros _ ].
  apply keeps_bind; [ apply keeps_input; reflexivity | intros line ].
  cbv zeta. destruct (json_loads (strip line)); repeat keeps_step.
Qed.

End Collector.

(* ================================================================== *)
(** ** One pass of a deepagent_code turn *)

Section Turn.
Context {G : Type} {E : DeepagentCode.Engine G} {R : DeepagentCode.Renderer}
        {J : Json}.
Import DeepagentCode.

Lemma on_chunk_spec (verbose : bool) (st : turn_state) (chunk : pydict)
    (w : world G) :
  on_chunk verbose st chunk w
  = let w' := add_events w ((if first_chunk st then [ESpinnerStop] else [])
                              ++ [EPrintChunk chunk verbose]) in
    match step verbose st chunk with
    | inr st' => Done st' w'
    | inl e => Raised e w'
    end.
Proof.
  unfold on_chunk, step, bind, spinner_stop, print_chunk, bind, emit, ret,
    lift, raise.
  destruct (first_chunk st); simpl;
    destruct (print_chunk_error chunk verbose);
    try destruct (eq_str _ _); try destruct (pending_actions chunk);
    unfold log, add_events; simpl; rewrite <- ?app_assoc; reflexivity.
Qed.

Lemma for_each_chunk_spec (verbose : bool) (stream : list pydict) :
  forall (st : turn_state) (w : world G),
    for_each_chunk verbose st stream w
    = match scan verbose st stream with
      | inr st' => Done st' (add_events w (stream_events verbose st stream))
      | inl e => Raised e (add_events w (stream_events verbose st stream))
      end.
Proof.
  induction stream as [ | chunk rest IH ]; intros st w; simpl.
  - rewrite add_events_nil. reflexivity.
  - unfold bind. rewrite on_chunk_spec. cbv zeta.
    destruct (step verbose st chunk) as [ e | st' ].
    + reflexivity.
    + rewrite IH, add_events_app, <- app_assoc. reflexivity.
Qed.

Lemma step_first_chunk (verbose : bool) (st st' : turn_state)
    (chunk : pydict) :
  step verbose st chunk = inr st' -> first_chunk st' = false.
Proof.
  unfold step. destruct (print_chunk_error chunk verbose); [ discriminate | ].
  destruct (eq_str _ _); [ destruct (pending_actions chunk) | ];
    intros H; inversion H; reflexivity.
Qed.

Lemma scan_first_chunk (verbose : bool) (stream : list pydict) :
  forall st st', scan verbose st stream = inr st' ->
    first_chunk st' = match stream with [] => first_chunk st | _ => false end.
Proof.
  induction stream as [ | chunk rest IH ]; intros st st'; simpl.
  - intros H; inversion H; reflexivity.
  - destruct (step verbose st chunk) as [ e | st1 ] eqn:Hstep; [ discriminate | ].
    intros H. rewrite (IH _ _ H).
    destruct rest; [ eapply step_first_chunk; eauto | reflexivity ].
Qed.

(** One pass of the loop of a turn: the stream is consumed, and then either
    the count of pending actions raised, or the Decision Collector is asked
    and the engine resumed with its decisions, or the loop ends. *)
Lemma turn_loop_unfold
    (stream : G -> agent_input -> option pyval -> string -> stream_result G)
    (fuel : nat) (input_data : agent_input) (config : option pyval)
    (interactive verbose : bool) (stream_mode : string) (w : world G) :
  let r := stream (graph w) input_data config stream_mode in
  let w1 := streamed input_data verbose r w in
  turn_loop stream (S fuel) input_data config interactive verbose stream_mode w
  = match scan verbose fresh (chunks r) with
    | inl e => Raised e w1
    | inr st =>
        if (has_interrupt st && interactive)%bool then
          match handle_interrupt_input (num_pending_actions st) w1 with
          | Done decisions w2 =>
              turn_loop stream fuel (ResumeCommand decisions) config
                        interactive verbose stream_mode w2
          | Raised e w2 => Raised e w2
          | Exited c w2 => Exited c w2
          | Starved w2 => Starved w2
          | OutOfFuel w2 => OutOfFuel w2
          end
        else Done tt w1
    end.
Proof.
  intros r w1. cbn [turn_loop].
  unfold bind at 1. unfold spinner_start, emit at 1.
  unfold bind at 1. unfold invoke at 1.
  change (graph (log ESpinnerStart w)) with (graph w). fold r.
  unfold bind at 1. rewrite for_each_chunk_spec.
  assert (Hw1 : forall tail,
             add_events
               (add_events
                  (log (EStream input_data (took r))
                     (mkWorld (now (log ESpinnerStart w) + took r) (graph_after r)
                        (keys (log ESpinnerStart w)) (lines (log ESpinnerStart w))
                        (numbers (log ESpinnerStart w))
                        (trace (log ESpinnerStart w))))
                  (stream_events verbose fresh (chunks r))) tail
             = mkWorld (now w + took r) (graph_after r) (keys w) (lines w) (numbers w)
                 (trace w ++ ESpinnerStart :: EStream input_data (took r)
                    :: stream_events verbose fresh (chunks r) ++ tail)).
  { intros tail. unfold add_events, log. simpl.
    rewrite <- !app_assoc. reflexivity. }
  destruct (scan verbose fresh (chunks r)) as [ e | st ] eqn:Hscan.
  - pose proof (Hw1 []) as H0. rewrite add_events_nil in H0. rewrite H0.
    unfold w1, streamed, pass_events.
    destruct (chunks r); [ discriminate | rewrite app_nil_r; reflexivity ].
  - unfold bind at 1.
    pose proof (scan_first_chunk _ _ _ _ Hscan) as Hfirst.
    assert (Hstop : (if first_chunk st then spinner_stop else ret tt)
                      (add_events
                         (log (EStream input_data (took r))
                            (mkWorld (now (log ESpinnerStart w) + took r) (graph_after r)
                               (keys (log ESpinnerStart w)) (lines (log ESpinnerStart w))
                               (numbers (log ESpinnerStart w))
                               (trace (log ESpinnerStart w))))
                         (stream_events verbose fresh (chunks r)))
                    = Done tt w1).
    { unfold w1, streamed, pass_events. rewrite Hfirst.
      revert Hw1. destruct (chunks r) as [ | c cs ]; intros Hw1.
      - change (first_chunk fresh) with true. cbv iota beta.
        unfold spinner_stop, emit.
        rewrite log_add_events, Hw1. reflexivity.
      - unfold ret. pose proof (Hw1 []) as H0.
        rewrite add_events_nil in H0. rewrite H0. reflexivity. }
    rewrite Hstop.
    destruct (has_interrupt st && interactive)%bool; [ | reflexivity ].
    unfold bind at 1.
    destruct (handle_interrupt_input (num_pending_actions st) w1); reflexivity.
Qed.

End Turn.

(* ================================================================== *)
(** ** What a stream leaves in the variables of a turn *)

Section ScanFacts.
Context {R : DeepagentCode.Renderer}.
Import DeepagentCode.


Lemma step_interrupt (verbose : bool) (st : turn_state) (chunk : pydict)
    (n : Z) :
  print_chunk_error chunk verbose = None ->
  is_interrupt chunk = true -> pending_actions chunk = inr n ->
  step verbose st chunk = inr (mkTurn true n false).
Proof.
  unfold step, is_interrupt. intros Hr Hi Hn. rewrite Hr, Hi, Hn. reflexivity.
Qed.

Lemma step_other (verbose : bool) (st : turn_state) (chunk : pydict) :
  print_chunk_error chunk verbose = None ->
  is_interrupt chunk = false ->
  step verbose st chunk
  = inr (mkTurn (has_interrupt st) (num_pending_actions st) false).
Proof.
  unfold step, is_interrupt. intros Hr Hi. rewrite Hr, Hi. reflexivity.
Qed.

Lemma renders_cons (verbose : bool) (c : pydict) (rest : list pydict) :
  renders verbose (c :: rest) = true ->
  print_chunk_error c verbose = None /\ renders verbose rest = true.
Proof.
  unfold renders. simpl. intros H. apply andb_true_iff in H.
  destruct H as [Hc Hrest]. split; [ | exact Hrest ].
  destruct (print_chunk_error c verbose); [ discriminate | reflexivity ].
Qed.

Lemma renders_app (verbose : bool) (pre post : list pydict) :
  renders verbose (pre ++ post) = true ->
  renders verbose pre = true /\ renders verbose post = true.
Proof.
  unfold renders. rewrite forallb_app. intros H.
  apply andb_true_iff in H. exact H.
Qed.

Lemma scan_app (verbose : bool) (pre post : list pydict) :
  forall st,
    scan verbose st (pre ++ post)
    = match scan verbose st pre with
      | inl e => inl e
      | inr st' => scan verbose st' post
      end.
Proof.
  induction pre as [ | c pre IH ]; intros st; simpl; [ reflexivity | ].
  destruct (step verbose st c); [ reflexivity | apply IH ].
Qed.

(** A stream that can be drawn and whose counts never raise is consumed to
    its end. *)
Lemma scan_countable (verbose : bool) (stream : list pydict) :
  forall st,
    renders verbose stream = true -> countable stream = true ->
    exists st', scan verbose st stream = inr st'.
Proof.
  induction stream as [ | c rest IH ]; intros st; simpl.
  - eauto.
  - intros Hr H. apply renders_cons in Hr. destruct Hr as [Hrc Hrrest].
    apply andb_true_iff in H. destruct H as [Hc Hrest].
    destruct (is_interrupt c) eqn:Hi.
    + destruct (pending_actions c) as [ e | n ] eqn:Hn; [ discriminate | ].
      rewrite (step_interrupt verbose st c n Hrc Hi Hn). apply IH; assumption.
    + rewrite (step_other verbose st c Hrc Hi). apply IH; assumption.
Qed.

(** Chunks that are not interrupts leave the two interrupt variables as they
    are. *)
Lemma scan_no_interrupt (verbose : bool) (stream : list pydict) :
  forall st,
    renders verbose stream = true ->
    forallb (fun c => negb (is_interrupt c)) stream = true ->
    exists first, scan verbose st stream
                  = inr (mkTurn (has_interrupt st) (num_pending_actions st) first).
Proof.
  induction stream as [ | c rest IH ]; intros st; simpl.
  - intros _ _. exists (first_chunk st). destruct st; reflexivity.
  - intros Hr H. apply renders_cons in Hr. destruct Hr as [Hrc Hrrest].
    apply andb_true_iff in H. destruct H as [Hc Hrest].
    apply negb_true_iff in Hc. rewrite (step_other verbose st c Hrc Hc).
    destruct (IH (mkTurn (has_interrupt st) (num_pending_actions st) false)
                Hrrest Hrest)
      as [first Hscan].
    exists first. exact Hscan.
Qed.

(** The count a stream leaves is the count of its last interrupt chunk. *)
Lemma scan_last_interrupt (verbose : bool) (pre post : list pydict)
    (chunk : pydict) (n : Z) (st : turn_state) :
  renders verbose (pre ++ chunk :: post) = true ->
  countable pre = true ->
  is_interrupt chunk = true ->
  pending_actions chunk = inr n ->
  forallb (fun c => negb (is_interrupt c)) post = true ->
  scan verbose st (pre ++ chunk :: post) = inr (mkTurn true n false).
Proof.
  intros Hr Hpre Hi Hn Hpost.
  apply renders_app in Hr. destruct Hr as [Hrpre Hr].
  apply renders_cons in Hr. destruct Hr as [Hrc Hrpost].
  destruct (scan_countable verbose pre st Hrpre Hpre) as [st1 Hst1].
  rewrite scan_app, Hst1. simpl.
  rewrite (step_interrupt verbose st1 chunk n Hrc Hi Hn).
  destruct (scan_no_interrupt verbose post (mkTurn true n false) Hrpost Hpost)
    as [first Hscan].
  rewrite Hscan. f_equal. f_equal.
  apply scan_first_chunk in Hscan. simpl in Hscan.
  destruct post; exact Hscan.
Qed.


Lemma stream_events_render (verbose : bool) (stream : list pydict) :
  forall st, forallb render_event (stream_events verbose st stream) = true.
Proof.
  induction stream as [ | c rest IH ]; intros st; simpl; [ reflexivity | ].
  rewrite forallb_app. simpl.
  destruct (first_chunk st); simpl;
    (destruct (step verbose st c); [ reflexivity | apply IH ]).
Qed.

(** On a stream consumed to its end, the spinner is stopped once, ahead of
    the first chunk, and every chunk is rendered in order. *)
Lemma stream_events_countable (verbose : bool) (stream : list pydict) :
  forall st st', scan verbose st stream = inr st' ->
    stream_events verbose st stream
    = (match stream with
       | [] => []
       | _ => if first_chunk st then [ESpinnerStop] else []
       end ++ map (fun c => EPrintChunk c verbose) stream)%list.
Proof.
  induction stream as [ | c rest IH ]; intros st st'; simpl; [ reflexivity | ].
  destruct (step verbose st c) as [ e | st1 ] eqn:Hstep; [ discriminate | ].
  intros Hscan. rewrite (IH _ _ Hscan).
  rewrite (step_first_chunk _ _ _ _ Hstep).
  destruct rest; reflexivity.
Qed.

End ScanFacts.

(* ================================================================== *)
(** ** Reading traces piecewise *)

Section TraceFacts.
Context {R : DeepagentCode.Renderer}.
Implicit Types (t evs : list event).

Lemma collector_calls_app t t' :
  collector_calls (t ++ t') = (collector_calls t ++ collector_calls t')%list.
Proof.
  induction t as [ | e t IH ]; simpl; [ reflexivity | ].
  destruct e; simpl; rewrite IH; reflexivity.
Qed.

Lemma invocations_app t t' :
  invocations (t ++ t') = (invocations t ++ invocations t')%list.
Proof.
  induction t as [ | e t IH ]; simpl; [ reflexivity | ].
  destruct e; simpl; rewrite IH; reflexivity.
Qed.

Lemma printed_app t t' : printed (t ++ t') = (printed t ++ printed t')%list.
Proof.
  induction t as [ | e t IH ]; simpl; [ reflexivity | ].
  destruct e; simpl; rewrite IH; reflexivity.
Qed.

Lemma printed_chunks (verbose : bool) (stream : list pydict) :
  printed (map (fun c => EPrintChunk c verbose) stream) = stream.
Proof. induction stream; simpl; congruence. Qed.

Lemma quiet_collector_calls evs :
  forallb quiet evs = true -> collector_calls evs = [].
Proof.
  induction evs as [ | e evs IH ]; simpl; [ reflexivity | ].
  intros H. apply andb_true_iff in H. destruct H as [He Hevs].
  destruct e; try discriminate; auto.
Qed.

Lemma quiet_invocations evs : forallb quiet evs = true -> invocations evs = [].
Proof.
  induction evs as [ | e evs IH ]; simpl; [ reflexivity | ].
  intros H. apply andb_true_iff in H. destruct H as [He Hevs].
  destruct e; try discriminate; auto.
Qed.

Lemma quiet_calls_until_next_stream evs t :
  forallb quiet evs = true ->
  calls_until_next_stream (evs ++ t) = calls_until_next_stream t.
Proof.
  induction evs as [ | e evs IH ]; simpl; [ reflexivity | ].
  intros H. apply andb_true_iff in H. destruct H as [He Hevs].
  destruct e; try discriminate; auto.
Qed.

Lemma forallb_weaken (Q Q' : event -> bool) evs :
  (forall e, Q e = true -> Q' e = true) ->
  forallb Q evs = true -> forallb Q' evs = true.
Proof. intros Hsub H. rewrite forallb_forall in *. auto. Qed.

Lemma render_quiet (e : event) : render_event e = true -> quiet e = true.
Proof. destruct e; simpl; congruence. Qed.

Lemma operator_quiet (e : event) : operator_event e = true -> quiet e = true.
Proof. destruct e; simpl; congruence. Qed.

Lemma operator_spinner_neutral (e : event) :
  operator_event e = true -> spinner_neutral e = true.
Proof. destruct e; simpl; congruence. Qed.

Lemma spinner_after_app (s : option bool) t t' :
  spinner_after s (t ++ t') = spinner_after (spinner_after s t) t'.
Proof. apply fold_left_app. Qed.

Lemma spinner_after_neutral evs :
  forallb spinner_neutral evs = true ->
  forall s, spinner_after s evs = s.
Proof.
  induction evs as [ | e evs IH ]; simpl; [ reflexivity | ].
  intros H s. apply andb_true_iff in H. destruct H as [He Hevs].
  unfold spinner_after in *. simpl. rewrite IH by exact Hevs.
  destruct s as [ running | ]; [ | reflexivity ].
  destruct e; try discriminate; reflexivity.
Qed.

(** While a stream is consumed the spinner is stopped before anything is
    rendered, and stays stopped. *)
Lemma spinner_after_stream_events (verbose : bool) (stream : list pydict) :
  forall (st : DeepagentCode.turn_state) (running : bool),
    (running = true -> DeepagentCode.first_chunk st = true) ->
    spinner_after (Some running) (stream_events verbose st stream)
    = Some (match stream with [] => running | _ => false end).
Proof.
  induction stream as [ | c rest IH ]; intros st running Hrunning; simpl;
    [ reflexivity | ].
  assert (Hrest : forall st1,
             DeepagentCode.first_chunk st1 = false ->
             spinner_after (Some false) (stream_events verbose st1 rest) = Some false).
  { intros st1 _. rewrite IH by discriminate. destruct rest; reflexivity. }
  destruct (DeepagentCode.first_chunk st) eqn:Hfirst.
  - unfold spinner_after. simpl.
    destruct (step verbose st c) as [ e | st1 ] eqn:Hstep;
      [ destruct running; reflexivity | ].
    replace (if running then Some false else Some false) with (Some false)
      by (destruct running; reflexivity).
    cbv iota. apply (Hrest st1). eapply step_first_chunk; eauto.
  - destruct running; [ specialize (Hrunning eq_refl); discriminate | ].
    unfold spinner_after. simpl.
    destruct (step verbose st c) as [ e | st1 ] eqn:Hstep; [ reflexivity | ].
    apply (Hrest st1). eapply step_first_chunk; eauto.
Qed.

End TraceFacts.

(* ================================================================== *)
(** ** Invariants of the loop of a turn *)

Section TurnInvariant.
Context {G : Type} {E : DeepagentCode.Engine G} {R : DeepagentCode.Renderer}
        {J : Json}.
Import DeepagentCode.

Variable stream :
  G -> agent_input -> option pyval -> string -> stream_result G.
Variables (config : option pyval) (interactive verbose : bool)
          (stream_mode : string).

(** [P] holds at the top of every pass, [Qf] wherever the run stops. *)
Variable P : agent_input -> world G -> Prop.
Variable Qf : world G -> Prop.

Hypothesis stop_at_top : forall i w, P i w -> Qf w.

Hypothesis stop_after_stream :
  forall i w, P i w ->
    Qf (streamed i verbose (stream (graph w) i config stream_mode) w).

Hypothesis stop_in_collector :
  forall i w st, P i w ->
    scan verbose fresh (chunks (stream (graph w) i config stream_mode)) = inr st ->
    has_interrupt st = true ->
    Qf (final_world
          (handle_interrupt_input (num_pending_actions st)
             (streamed i verbose (stream (graph w) i config stream_mode) w))).

Hypothesis resumed :
  forall i w st decisions w2, P i w ->
    scan verbose fresh (chunks (stream (graph w) i config stream_mode)) = inr st ->
    has_interrupt st = true ->
    handle_interrupt_input (num_pending_actions st)
      (streamed i verbose (stream (graph w) i config stream_mode) w)
    = Done decisions w2 ->
    P (ResumeCommand decisions) w2.

Lemma turn_loop_invariant (fuel : nat) :
  forall i w, P i w ->
    Qf (final_world
          (turn_loop stream fuel i config interactive verbose stream_mode w)).
Proof.
  induction fuel as [ | fuel IH ]; intros i w HP.
  - simpl. eapply stop_at_top; eauto.
  - rewrite turn_loop_unfold. cbv zeta.
    destruct (scan verbose fresh _) as [ e | st ] eqn:Hscan.
    + simpl. apply stop_after_stream; exact HP.
    + destruct (has_interrupt st) eqn:Hint;
        [ destruct interactive | ]; simpl andb; cbv iota;
        try (simpl; apply stop_after_stream; exact HP).
      pose proof (stop_in_collector i w st HP Hscan Hint) as Hstop.
      pose proof (resumed i w st) as Hres.
      destruct (handle_interrupt_input _ _) as [ ds w2 | | | | ] eqn:Hh;
        simpl in Hstop; try exact Hstop.
      apply IH. eapply Hres; eauto.
Qed.

End TurnInvariant.

Section TurnFacts.
Context {G : Type} {E : DeepagentCode.Engine G} {R : DeepagentCode.Renderer}
        {J : Json}.
Import DeepagentCode.
Implicit Types (w : world G).

Lemma untimed_elapsed (evs : list event) :
  forallb untimed evs = true -> elapsed evs = 0.
Proof.
  unfold elapsed.
  induction evs as [ | e evs IH ]; simpl; [ reflexivity | ].
  intros H. apply andb_true_iff in H. destruct H as [He Hevs].
  destruct e; try discriminate; auto.
Qed.

Lemma render_untimed (e : event) : render_event e = true -> untimed e = true.
Proof. destruct e; simpl; congruence. Qed.

Lemma pass_events_elapsed (i : agent_input) (verbose : bool)
    (r : stream_result G) :
  elapsed (pass_events i verbose r) = took r.
Proof.
  unfold pass_events.
  change (ESpinnerStart :: EStream i (took r)
            :: stream_events verbose fresh (chunks r)
            ++ match chunks r with [] => [ESpinnerStop] | _ => [] end)
    with ([ESpinnerStart; EStream i (took r)]
            ++ (stream_events verbose fresh (chunks r)
            ++ match chunks r with [] => [ESpinnerStop] | _ => [] end))%list.
  rewrite !elapsed_app.
  rewrite (untimed_elapsed (stream_events verbose fresh (chunks r))).
  - destruct (chunks r); unfold elapsed; simpl; lia.
  - eapply forallb_weaken; [ apply render_untimed | apply stream_events_render ].
Qed.

Lemma streamed_grows (i : agent_input) (verbose : bool) (r : stream_result G) w :
  grows any_event w (streamed i verbose r w).
Proof.
  exists (pass_events i verbose r). split; [ reflexivity | ]. split.
  - apply forallb_forall. reflexivity.
  - rewrite pass_events_elapsed. simpl. lia.
Qed.

Lemma handle_interrupt_input_keeps (num_actions : Z) :
  keeps any_event (handle_interrupt_input (G := G) num_actions).
Proof.
  intros w. eapply grows_trans.
  - apply (keeps_emit any_event (ECollect (PInt num_actions))); reflexivity.
  - eapply grows_weaken; [ | apply handle_interrupt_input_grows ]. reflexivity.
Qed.

(** Over a whole loop the trace only grows, and the clock advances by the
    time the new events account for. *)
Lemma turn_loop_grows
    (stream : G -> agent_input -> option pyval -> string -> stream_result G)
    (fuel : nat) (i : agent_input) (config : option pyval)
    (interactive verbose : bool) (stream_mode : string) w :
  grows any_event w
    (final_world
       (turn_loop stream fuel i config interactive verbose stream_mode w)).
Proof.
  apply (turn_loop_invariant stream config interactive verbose stream_mode
           (fun _ w' => grows any_event w w') (fun w' => grows any_event w w')).
  - auto.
  - intros i0 w0 H. eapply grows_trans; [ exact H | apply streamed_grows ].
  - intros i0 w0 st H _ _.
    eapply grows_trans; [ exact H | ].
    eapply grows_trans; [ apply streamed_grows | apply handle_interrupt_input_keeps ].
  - intros i0 w0 st ds w2 H _ _ Hh.
    eapply grows_trans; [ exact H | ].
    eapply grows_trans; [ apply streamed_grows | ].
    pose proof (handle_interrupt_input_keeps (num_pending_actions st)
                  (streamed i0 verbose (stream (graph w0) i0 config stream_mode) w0))
      as Hk.
    rewrite Hh in Hk. exact Hk.
  - apply grows_refl.
Qed.

Lemma spinner_after_pass_events (i : agent_input) (verbose : bool)
    (r : stream_result G) :
  spinner_after (Some false) (pass_events i verbose r) = Some false.
Proof.
  unfold pass_events.
  change (spinner_after (Some false)
            (ESpinnerStart :: EStream i (took r)
               :: stream_events verbose fresh (chunks r)
               ++ match chunks r with [] => [ESpinnerStop] | _ => [] end))
    with (spinner_after (Some true)
            (stream_events verbose fresh (chunks r)
               ++ match chunks r with [] => [ESpinnerStop] | _ => [] end)).
  rewrite spinner_after_app, spinner_after_stream_events by reflexivity.
  destruct (chunks r); reflexivity.
Qed.

(** The spinner discipline is respected wherever a loop stops. *)
Lemma turn_loop_spinner
    (stream : G -> agent_input -> option pyval -> string -> stream_result G)
    (fuel : nat) (i : agent_input) (config : option pyval)
    (interactive verbose : bool) (stream_mode : string) (s : option bool) w :
  spinner_after s (trace w) = Some false ->
  spinner_after s
    (trace (final_world
              (turn_loop stream fuel i config interactive verbose stream_mode w)))
  = Some false.
Proof.
  assert (Hpass : forall i0 w0,
             spinner_after s (trace w0) = Some false ->
             spinner_after s
               (trace (streamed i0 verbose
                         (stream (graph w0) i0 config stream_mode) w0))
             = Some false).
  { intros i0 w0 H. simpl. rewrite spinner_after_app, H.
    apply spinner_after_pass_events. }
  assert (Hcollect : forall n w0,
             spinner_after s (trace w0) = Some false ->
             spinner_after s (trace (final_world (handle_interrupt_input n w0)))
             = Some false).
  { intros n w0 H.
    destruct (handle_interrupt_input_grows n w0) as [evs [Ht [Hops _]]].
    rewrite Ht. simpl. rewrite !spinner_after_app, H. simpl.
    apply spinner_after_neutral.
    eapply forallb_weaken; [ apply operator_spinner_neutral | exact Hops ]. }
  apply (turn_loop_invariant stream config interactive verbose stream_mode
           (fun _ w' => spinner_after s (trace w') = Some false)
           (fun w' => spinner_after s (trace w') = Some false)).
  - auto.
  - auto.
  - intros i0 w0 st H _ _. apply Hcollect, Hpass, H.
  - intros i0 w0 st ds w2 H _ _ Hh.
    pose proof (Hcollect (num_pending_actions st) _ (Hpass i0 w0 H)) as Hc.
    rewrite Hh in Hc. exact Hc.
Qed.

End TurnFacts.

Section ResumeFacts.
Context {G : Type} {E : DeepagentCode.Engine G} {R : DeepagentCode.Renderer}
        {J : Json}.
Import DeepagentCode.
Implicit Types (w : world G).



Lemma pass_events_quiet_tail (verbose : bool) (r : stream_result G) :
  forallb quiet
    (stream_events verbose fresh (chunks r)
       ++ match chunks r with [] => [ESpinnerStop] | _ => [] end) = true.
Proof.
  rewrite forallb_app. apply andb_true_iff. split.
  - eapply forallb_weaken; [ apply render_quiet | apply stream_events_render ].
  - destruct (chunks r); reflexivity.
Qed.



End ResumeFacts.

(* ================================================================== *)
(** ** The entry points *)

Section EntryPoints.
Context {G : Type} {D : DeepagentCode.Engine G} {L : LanggraphUtilsCli.Engine G}
        {RD : DeepagentCode.Renderer} {RL : LanggraphUtilsCli.Renderer}
        {J : Json}.
Implicit Types (w : world G).

(** A turn is its loop between two readings of the clock. *)
Lemma run_single_turn_sync_unfold (fuel : nat) (message : string)
    (config : option pyval) (interactive verbose : bool) (stream_mode : string) w :
  DeepagentCode.run_single_turn_sync fuel message config interactive verbose
    stream_mode w
  = match DeepagentCode.turn_loop DeepagentCode.stream_graph_updates fuel
            (user_message message) config interactive verbose stream_mode w with
    | Done _ w' => Done (now w' - now w) w'
    | Raised e w' => Raised e w'
    | Exited c w' => Exited c w'
    | Starved w' => Starved w'
    | OutOfFuel w' => OutOfFuel w'
    end.
Proof.
  unfold DeepagentCode.run_single_turn_sync, bind, lift, time_time, ret.
  simpl. unfold user_message.
  destruct (DeepagentCode.turn_loop _ _ _ _ _ _ _ _); reflexivity.
Qed.

Lemma run_single_turn_async_unfold (fuel : nat) (message : string)
    (config : option pyval) (interactive verbose : bool) (stream_mode : string) w :
  DeepagentCode.run_single_turn_async fuel message config interactive verbose
    stream_mode w
  = match DeepagentCode.turn_loop DeepagentCode.astream_graph_updates fuel
            (user_message message) config interactive verbose stream_mode w with
    | Done _ w' => Done (now w' - now w) w'
    | Raised e w' => Raised e w'
    | Exited c w' => Exited c w'
    | Starved w' => Starved w'
    | OutOfFuel w' => OutOfFuel w'
    end.
Proof.
  unfold DeepagentCode.run_single_turn_async, bind, lift, time_time, ret.
  simpl. unfold user_message.
  destruct (DeepagentCode.turn_loop _ _ _ _ _ _ _ _); reflexivity.
Qed.

Lemma run_single_turn_sync_final_world (fuel : nat) (message : string)
    (config : option pyval) (interactive verbose : bool) (stream_mode : string) w :
  final_world (DeepagentCode.run_single_turn_sync fuel message config
                 interactive verbose stream_mode w)
  = final_world (DeepagentCode.turn_loop DeepagentCode.stream_graph_updates fuel
                   (user_message message) config interactive verbose
                   stream_mode w).
Proof.
  rewrite run_single_turn_sync_unfold.
  destruct (DeepagentCode.turn_loop _ _ _ _ _ _ _ _); reflexivity.
Qed.

Lemma run_single_turn_async_final_world (fuel : nat) (message : string)
    (config : option pyval) (interactive verbose : bool) (stream_mode : string) w :
  final_world (DeepagentCode.run_single_turn_async fuel message config
                 interactive verbose stream_mode w)
  = final_world (DeepagentCode.turn_loop DeepagentCode.astream_graph_updates fuel
                   (user_message message) config interactive verbose
                   stream_mode w).
Proof.
  rewrite run_single_turn_async_unfold.
  destruct (DeepagentCode.turn_loop _ _ _ _ _ _ _ _); reflexivity.
Qed.

(** Both drivers of langgraph_utils_cli stop at their first statement: it
    reads [prepare_agent_input], which the import further down makes a
    local name that is not bound yet. *)
Lemma run_graph_unbound (fuel : nat) (message : string)
    (config : option pyval) (interactive verbose : bool) w :
  LanggraphUtilsCli.run_sync_graph fuel message config interactive verbose w
  = Raised UnboundLocalError w
  /\ LanggraphUtilsCli.run_async_graph fuel message config interactive verbose w
     = Raised UnboundLocalError w.
Proof. split; reflexivity. Qed.

(** The events of a pass: one invocation, no collector call. *)
Lemma pass_events_invocations (i : agent_input) (verbose : bool)
    (r : stream_result G) :
  invocations (pass_events i verbose r) = [i]
  /\ collector_calls (pass_events i verbose r) = [].
Proof.
  unfold pass_events. simpl.
  rewrite quiet_invocations, quiet_collector_calls
    by apply pass_events_quiet_tail.
  split; reflexivity.
Qed.

Lemma pass_events_countable (i : agent_input) (verbose : bool)
    (r : stream_result G) (st : DeepagentCode.turn_state) :
  scan verbose DeepagentCode.fresh (chunks r) = inr st ->
  pass_events i verbose r
  = ESpinnerStart :: EStream i (took r) :: ESpinnerStop
      :: map (fun c => EPrintChunk c verbose) (chunks r).
Proof.
  intros Hscan. unfold pass_events.
  rewrite (stream_events_countable verbose _ _ _ Hscan).
  destruct (chunks r); simpl; [ reflexivity | ].
  rewrite app_nil_r. reflexivity.
Qed.

(** A non-interactive loop of deepagent_code makes one pass. *)
Lemma turn_loop_non_interactive
    (stream : G -> agent_input -> option pyval -> string -> stream_result G)
    (fuel : nat) (i : agent_input) (config : option pyval) (verbose : bool)
    (stream_mode : string) w :
  let r := stream (graph w) i config stream_mode in
  match scan verbose DeepagentCode.fresh (chunks r) with
  | inl e =>
      DeepagentCode.turn_loop stream (S fuel) i config false verbose stream_mode w
      = Raised e (streamed i verbose r w)
  | inr _ =>
      DeepagentCode.turn_loop stream (S fuel) i config false verbose stream_mode w
      = Done tt (streamed i verbose r w)
  end.
Proof.
  intros r. rewrite turn_loop_unfold. fold r. destruct (scan _ _); [ reflexivity | ].
  rewrite andb_false_r. reflexivity.
Qed.

End EntryPoints.

(* ================================================================== *)
(** ** Non-interactive turns *)

Section NonInteractive.
Context {G : Type} {D : DeepagentCode.Engine G} {L : LanggraphUtilsCli.Engine G}
        {RD : DeepagentCode.Renderer} {RL : LanggraphUtilsCli.Renderer}
        {J : Json}.
Implicit Types (w : world G).

Lemma timed_turn_non_interactive
    (stream : G -> agent_input -> option pyval -> string -> stream_result G)
    (fuel : nat) (i : agent_input) (config : option pyval) (verbose : bool)
    (stream_mode : string) w :
  let r := stream (graph w) i config stream_mode in
  let o := match DeepagentCode.turn_loop stream (S fuel) i config false verbose
                   stream_mode w with
           | Done _ w' => Done (now w' - now w) w'
           | Raised e w' => Raised e w'
           | Exited c w' => Exited c w'
           | Starved w' => Starved w'
           | OutOfFuel w' => OutOfFuel w'
           end in
  one_pass_only w o i (chunks r)
  /\ (renders verbose (chunks r) = true ->
      countable (chunks r) = true ->
      o = Done (took r) (streamed i verbose r w)).
Proof.
  intros r o. subst o.
  pose proof (turn_loop_non_interactive stream fuel i config verbose stream_mode w)
    as Hloop.
  cbv zeta in Hloop. fold r in Hloop.
  destruct (pass_events_invocations i verbose r) as [Hinv Hcalls].
  destruct (scan verbose DeepagentCode.fresh (chunks r)) as [ e | st ] eqn:Hscan;
    rewrite Hloop.
  - split.
    + exists (pass_events i verbose r).
      split; [ reflexivity | ]. split; [ exact Hinv | ].
      split; [ exact Hcalls | ]. repeat (split; [ reflexivity | ]).
      intros [a [w' Hd]]. discriminate.
    + intros Hr Hc.
      destruct (scan_countable verbose (chunks r) DeepagentCode.fresh Hr Hc)
        as [st Hst].
      congruence.
  - split.
    + exists (pass_events i verbose r).
      split; [ reflexivity | ]. split; [ exact Hinv | ].
      split; [ exact Hcalls | ]. repeat (split; [ reflexivity | ]).
      intros _. rewrite (pass_events_countable i verbose r st Hscan). simpl.
      apply printed_chunks.
    + intros _ _. f_equal. simpl. lia.
Qed.

End NonInteractive.

(** C2, at the failing input.  With [interactive] off, both drivers of
    langgraph_utils_cli raise [UnboundLocalError] at their first statement,
    whatever the engine would stream: the world is as it was, so the engine
    was not invoked, no interrupt chunk went to the renderer, and the loop
    that would exit after the stream is never entered. *)
Theorem langgraph_utils_cli_non_interactive_run_raises
    (G : Type) (L : LanggraphUtilsCli.Engine G)
    (RL : LanggraphUtilsCli.Renderer) (J : Json)
    (fuel : nat) (message : string) (config : option pyval) (verbose : bool)
    (w : world G) :
  LanggraphUtilsCli.run_sync_graph fuel message config false verbose w
  = Raised UnboundLocalError w
  /\ LanggraphUtilsCli.run_async_graph fuel message config false verbose w
     = Raised UnboundLocalError w
  /\ invocations
       (trace (final_world
                 (LanggraphUtilsCli.run_sync_graph fuel message config false
                    verbose w)))
     = invocations (trace w)
  /\ printed
       (trace (final_world
                 (LanggraphUtilsCli.run_sync_graph fuel message config false
                    verbose w)))
     = printed (trace w).
Proof.
  destruct (run_graph_unbound (L := L) (RL := RL) fuel message config false
              verbose w) as [Hsync Hasync].
  rewrite Hsync. repeat split; assumption || reflexivity.
Qed.

(** X13.  With [interactive] off, the two drivers of deepagent_code make
    exactly one pass whatever the stream holds, interrupt chunks included:
    the engine is invoked once and never again, the chunks go to the
    renderer, the Decision Collector is not called and the operator is not
    asked.  On a stream the renderer can draw they return the time the
    invocation took whenever counting the pending actions of the interrupt
    chunks does not raise. *)
Theorem non_interactive_turn_makes_one_pass
    (G : Type) (D : DeepagentCode.Engine G) (RD : DeepagentCode.Renderer)
    (J : Json) (fuel : nat) (message : string) (config : option pyval)
    (verbose : bool) (stream_mode : string) (w : world G) :
  let i := user_message message in
  let sync := DeepagentCode.stream_graph_updates (graph w) i config stream_mode in
  let async := DeepagentCode.astream_graph_updates (graph w) i config stream_mode in
  (one_pass_only w
     (DeepagentCode.run_single_turn_sync (S fuel) message config false verbose
        stream_mode w) i (chunks sync)
   /\ (renders verbose (chunks sync) = true ->
       countable (chunks sync) = true ->
       DeepagentCode.run_single_turn_sync (S fuel) message config false verbose
         stream_mode w
       = Done (took sync) (streamed i verbose sync w)))
  /\ (one_pass_only w
        (DeepagentCode.run_single_turn_async (S fuel) message config false verbose
           stream_mode w) i (chunks async)
      /\ (renders verbose (chunks async) = true ->
          countable (chunks async) = true ->
          DeepagentCode.run_single_turn_async (S fuel) message config false verbose
            stream_mode w
          = Done (took async) (streamed i verbose async w))).
Proof.
  intros i sync async.
  rewrite run_single_turn_sync_unfold, run_single_turn_async_unfold.
  split.
  - apply (timed_turn_non_interactive DeepagentCode.stream_graph_updates).
  - apply (timed_turn_non_interactive DeepagentCode.astream_graph_updates).
Qed.

Lemma non_interactive_turn_makes_one_pass_witness :
  DeepagentCode.run_single_turn_sync
    (E := Demo.deepagent_engine Demo.two_actions)
    (R := Demo.deepagent_renderer) (J := Demo.tiny_json)
    1 "go" None false false "updates" (Demo.start [(2, KEnter)] [] [])
  = Done 5
      (mkWorld 105 1%nat [(2, KEnter)] [] []
         [ESpinnerStart; EStream (user_message "go") 5; ESpinnerStop;
          EPrintChunk Demo.text_chunk false;
          EPrintChunk (Demo.interrupt_chunk [Demo.write_file; Demo.delete_file])
            false]).
Proof.
  destruct (non_interactive_turn_makes_one_pass nat
              (Demo.deepagent_engine Demo.two_actions)
              Demo.deepagent_renderer Demo.tiny_json
              0 "go" None false "updates" (Demo.start [(2, KEnter)] [] []))
    as [[_ Hsync] _].
  rewrite Hsync; reflexivity.
Defined.

(* ================================================================== *)
(** ** The duration a turn returns *)

Section Duration.
Context {G : Type} {D : DeepagentCode.Engine G} {R : DeepagentCode.Renderer}
        {J : Json}.
Implicit Types (w : world G).

Lemma timed_turn_duration
    (stream : G -> agent_input -> option pyval -> string -> stream_result G)
    (fuel : nat) (i : agent_input) (config : option pyval)
    (interactive verbose : bool) (stream_mode : string) w (d : Z) (w' : world G) :
  match DeepagentCode.turn_loop stream fuel i config interactive verbose
          stream_mode w with
  | Done _ w1 => Done (now w1 - now w) w1
  | Raised e w1 => Raised e w1
  | Exited c w1 => Exited c w1
  | Starved w1 => Starved w1
  | OutOfFuel w1 => OutOfFuel w1
  end = Done d w' ->
  DeepagentCode.turn_loop stream fuel i config interactive verbose stream_mode w
  = Done tt w'
  /\ exists evs,
       trace w' = (trace w ++ evs)%list /\
       d = now w' - now w /\
       d = streaming_time evs + waiting_time evs.
Proof.
  pose proof (turn_loop_grows stream fuel i config interactive verbose
                stream_mode w) as Hgrows.
  destruct (DeepagentCode.turn_loop _ _ _ _ _ _ _ _) as [ [] w1 | | | | ];
    intros H; inversion H; subst.
  split; [ reflexivity | ].
  destruct Hgrows as [evs [Ht [_ Hclock]]]. simpl in Ht, Hclock.
  exists evs. repeat split; auto.
Qed.

End Duration.

(** C7.  When a turn of deepagent_code returns, what it returns is the time
    the clock advanced between the start of the turn, before the first
    engine invocation, and the end of its loop: the time of every engine
    invocation of the turn plus the time the operator took at every
    decision, not the time of the last invocation alone.  And it returns
    whenever its loop ends. *)
Theorem turn_duration_spans_every_invocation
    (G : Type) (D : DeepagentCode.Engine G) (R : DeepagentCode.Renderer)
    (J : Json)
    (fuel : nat) (message : string) (config : option pyval)
    (interactive verbose : bool) (stream_mode : string) (w : world G) :
  (forall d w',
      DeepagentCode.run_single_turn_sync fuel message config interactive verbose
        stream_mode w = Done d w' ->
      exists evs,
        trace w' = (trace w ++ evs)%list /\
        d = now w' - now w /\
        d = streaming_time evs + waiting_time evs)
  /\ (forall d w',
         DeepagentCode.run_single_turn_async fuel message config interactive
           verbose stream_mode w = Done d w' ->
         exists evs,
           trace w' = (trace w ++ evs)%list /\
           d = now w' - now w /\
           d = streaming_time evs + waiting_time evs)
  /\ (forall w',
         DeepagentCode.turn_loop DeepagentCode.stream_graph_updates fuel
           (user_message message) config interactive verbose stream_mode w
         = Done tt w' ->
         DeepagentCode.run_single_turn_sync fuel message config interactive
           verbose stream_mode w = Done (now w' - now w) w')
  /\ (forall w',
         DeepagentCode.turn_loop DeepagentCode.astream_graph_updates fuel
           (user_message message) config interactive verbose stream_mode w
         = Done tt w' ->
         DeepagentCode.run_single_turn_async fuel message config interactive
           verbose stream_mode w = Done (now w' - now w) w').
Proof.
  rewrite run_single_turn_sync_unfold, run_single_turn_async_unfold.
  split; [ | split; [ | split ] ].
  - intros d w' H. eapply timed_turn_duration in H. apply H.
  - intros d w' H. eapply timed_turn_duration in H. apply H.
  - intros w' H. rewrite H. reflexivity.
  - intros w' H. rewrite H. reflexivity.
Qed.

Lemma turn_duration_spans_every_invocation_witness :
  exists evs,
    [ESpinnerStart; EStream (user_message "go") 5; ESpinnerStop;
     EPrintChunk Demo.text_chunk false;
     EPrintChunk (Demo.interrupt_chunk [Demo.write_file; Demo.delete_file]) false;
     ECollect (PInt 2); EKey 2 KDown; EKey 1 KEnter;
     ESpinnerStart; EStream (ResumeCommand [reject; reject]) 7; ESpinnerStop;
     EPrintChunk Demo.text_chunk false; EPrintChunk Demo.complete_chunk false]
    = ([] ++ evs)%list /\
    15 = 115 - 100 /\
    15 = streaming_time evs + waiting_time evs.
Proof.
  destruct (turn_duration_spans_every_invocation nat
              (Demo.deepagent_engine Demo.two_actions) Demo.deepagent_renderer
              Demo.tiny_json
              5 "go" None true false "updates"
              (Demo.start [(2, KDown); (1, KEnter)] [] []))
    as [Hsync _].
  apply (Hsync 15 (mkWorld 115 2%nat [] [] []
                     [ESpinnerStart; EStream (user_message "go") 5; ESpinnerStop;
                      EPrintChunk Demo.text_chunk false;
                      EPrintChunk
                        (Demo.interrupt_chunk [Demo.write_file; Demo.delete_file])
                        false;
                      ECollect (PInt 2); EKey 2 KDown; EKey 1 KEnter;
                      ESpinnerStart; EStream (ResumeCommand [reject; reject]) 7;
                      ESpinnerStop; EPrintChunk Demo.text_chunk false;
                      EPrintChunk Demo.complete_chunk false])).
  vm_compute. reflexivity.
Defined.

(* ================================================================== *)
(** ** The spinner *)

(** C9.  In every run of a turn of deepagent_code that starts with the
    spinner at rest, no chunk is rendered and the Decision Collector is not
    entered while the spinner runs, and the spinner is at rest wherever the
    run stops: each invocation stops it before its first chunk is rendered.
    An invocation that streams nothing stops it all the same, before the
    turn returns. *)
Theorem spinner_stopped_before_rendering
    (G : Type) (D : DeepagentCode.Engine G) (R : DeepagentCode.Renderer)
    (J : Json)
    (fuel : nat) (message : string) (config : option pyval)
    (interactive verbose : bool) (stream_mode : string) (w : world G) :
  let i := user_message message in
  let sync := DeepagentCode.stream_graph_updates (graph w) i config stream_mode in
  let async := DeepagentCode.astream_graph_updates (graph w) i config stream_mode in
  spinner_after (Some false) (trace w) = Some false ->
  spinner_after (Some false)
    (trace (final_world
              (DeepagentCode.run_single_turn_sync fuel message config
                 interactive verbose stream_mode w))) = Some false
  /\ spinner_after (Some false)
       (trace (final_world
                 (DeepagentCode.run_single_turn_async fuel message config
                    interactive verbose stream_mode w))) = Some false
  /\ (chunks sync = [] ->
      DeepagentCode.run_single_turn_sync (S fuel) message config interactive
        verbose stream_mode w
      = Done (took sync)
          (mkWorld (now w + took sync) (graph_after sync) (keys w) (lines w)
             (numbers w)
             (trace w ++ [ESpinnerStart; EStream i (took sync); ESpinnerStop])))
  /\ (chunks async = [] ->
      DeepagentCode.run_single_turn_async (S fuel) message config interactive
        verbose stream_mode w
      = Done (took async)
          (mkWorld (now w + took async) (graph_after async) (keys w) (lines w)
             (numbers w)
             (trace w ++ [ESpinnerStart; EStream i (took async); ESpinnerStop]))).
Proof.
  intros i sync async Hrest.
  rewrite run_single_turn_sync_final_world, run_single_turn_async_final_world.
  split; [ apply turn_loop_spinner; exact Hrest | ].
  split; [ apply turn_loop_spinner; exact Hrest | ].
  split.
  - intros Hnone. rewrite run_single_turn_sync_unfold, turn_loop_unfold.
    fold i. fold sync. cbv zeta. unfold streamed, pass_events.
    rewrite Hnone. simpl. f_equal. lia.
  - intros Hnone. rewrite run_single_turn_async_unfold, turn_loop_unfold.
    fold i. fold async. cbv zeta. unfold streamed, pass_events.
    rewrite Hnone. simpl. f_equal. lia.
Qed.

Lemma spinner_stopped_before_rendering_witness :
  DeepagentCode.run_single_turn_sync
    (E := Demo.deepagent_engine Demo.silent) (R := Demo.deepagent_renderer)
    (J := Demo.tiny_json)
    1 "go" None true false "updates" (Demo.start [] [] [])
  = Done 3
      (mkWorld 103 1%nat [] [] []
         [ESpinnerStart; EStream (user_message "go") 3; ESpinnerStop]).
Proof.
  destruct (spinner_stopped_before_rendering nat
              (Demo.deepagent_engine Demo.silent) Demo.deepagent_renderer
              Demo.tiny_json
              0 "go" None true false "updates" (Demo.start [] [] []) eq_refl)
    as [_ [_ [Hsync _]]].
  etransitivity; [ exact (Hsync eq_refl) | vm_compute; reflexivity ].
Defined.

(* ================================================================== *)
(** ** The count the Decision Collector is called with *)

Section PendingCount.
Context {G : Type} {D : DeepagentCode.Engine G} {R : DeepagentCode.Renderer}
        {J : Json}.
Import DeepagentCode.
Implicit Types (w : world G).

(** Past the stream of its first pass a loop only adds to the trace. *)
Lemma turn_loop_after_stream
    (stream : G -> agent_input -> option pyval -> string -> stream_result G)
    (fuel : nat) (i : agent_input) (config : option pyval)
    (interactive verbose : bool) (stream_mode : string) w :
  grows any_event
    (streamed i verbose (stream (graph w) i config stream_mode) w)
    (final_world
       (turn_loop stream (S fuel) i config interactive verbose stream_mode w)).
Proof.
  rewrite turn_loop_unfold. cbv zeta.
  destruct (scan verbose fresh _) as [ e | st ]; [ apply grows_refl | ].
  destruct (has_interrupt st && interactive)%bool; [ | apply grows_refl ].
  match goal with
  | |- context [handle_interrupt_input ?n ?w1] =>
      pose proof (handle_interrupt_input_keeps n w1) as Hk;
      destruct (handle_interrupt_input n w1) as [ ds w2 | | | | ]
  end; try exact Hk.
  eapply grows_trans; [ exact Hk | apply turn_loop_grows ].
Qed.

(** Whatever a loop adds to the trace begins with an engine invocation. *)
Lemma turn_loop_later
    (stream : G -> agent_input -> option pyval -> string -> stream_result G)
    (fuel : nat) (i : agent_input) (config : option pyval)
    (interactive verbose : bool) (stream_mode : string) w :
  exists later,
    trace (final_world
             (turn_loop stream fuel i config interactive verbose stream_mode w))
    = (trace w ++ later)%list
    /\ calls_until_next_stream later = [].
Proof.
  destruct fuel as [ | fuel ].
  - exists []. simpl. rewrite app_nil_r. auto.
  - destruct (turn_loop_after_stream stream fuel i config interactive verbose
                stream_mode w) as [more [Ht _]].
    exists (pass_events i verbose (stream (graph w) i config stream_mode) ++ more)%list.
    split; [ | reflexivity ].
    rewrite Ht. unfold streamed. cbn [trace]. rewrite <- app_assoc. reflexivity.
Qed.

(** A pass that ends on a pending interrupt calls the Decision Collector
    once, with the count the stream left. *)
Lemma turn_loop_collects
    (stream : G -> agent_input -> option pyval -> string -> stream_result G)
    (fuel : nat) (i : agent_input) (config : option pyval) (verbose : bool)
    (stream_mode : string) w (st : turn_state) :
  scan verbose fresh (chunks (stream (graph w) i config stream_mode)) = inr st ->
  has_interrupt st = true ->
  exists evs,
    trace (final_world
             (turn_loop stream (S fuel) i config true verbose stream_mode w))
    = (trace w ++ evs)%list
    /\ first_invocation_calls evs = [PInt (num_pending_actions st)].
Proof.
  intros Hscan Hint. rewrite turn_loop_unfold. cbv zeta.
  rewrite Hscan, Hint. simpl andb. cbv iota.
  set (r := stream (graph w) i config stream_mode).
  set (n := num_pending_actions st).
  assert (Hshape : forall ops later,
             forallb operator_event ops = true ->
             calls_until_next_stream later = [] ->
             first_invocation_calls
               (pass_events i verbose r ++ ECollect (PInt n) :: ops ++ later)
             = [PInt n]).
  { intros ops later Hops Hlater. unfold pass_events.
    cbn [app first_invocation_calls].
    rewrite quiet_calls_until_next_stream by apply pass_events_quiet_tail.
    cbn [calls_until_next_stream].
    rewrite quiet_calls_until_next_stream
      by (eapply forallb_weaken; [ apply operator_quiet | exact Hops ]).
    rewrite Hlater. reflexivity. }
  destruct (handle_interrupt_input_grows n (streamed i verbose r w))
    as [ops [Ht [Hops _]]].
  assert (Hstop : trace (final_world (handle_interrupt_input n (streamed i verbose r w)))
                  = (trace w ++ pass_events i verbose r
                       ++ ECollect (PInt n) :: ops ++ [])%list).
  { rewrite Ht. unfold streamed, log. cbn [trace].
    rewrite app_nil_r, <- !app_assoc. reflexivity. }
  destruct (handle_interrupt_input n (streamed i verbose r w))
    as [ ds w2 | e w2 | c w2 | w2 | w2 ];
    try (eexists; split; [ exact Hstop | apply Hshape; [ exact Hops | reflexivity ] ]).
  destruct (turn_loop_later stream fuel (ResumeCommand ds) config true verbose
              stream_mode w2) as [later [Hlater Hcalls]].
  exists (pass_events i verbose r ++ ECollect (PInt n) :: ops ++ later)%list.
  split; [ | apply Hshape; assumption ].
  rewrite Hlater. cbn [final_world] in Ht. rewrite Ht.
  unfold streamed, log. cbn [trace]. rewrite <- !app_assoc. reflexivity.
Qed.

End PendingCount.

(** C10.  When one engine invocation of a deepagent_code turn, over either
    stream function, streams several interrupt chunks, each of them
    overwrites the pending action count: the stream leaves the number of
    action requests of its last interrupt chunk, whatever the interrupt
    chunks before it held, and in interactive mode the Decision Collector is
    called exactly once for that invocation, with that number. *)
Theorem last_interrupt_sets_pending_count
    (G : Type) (D : DeepagentCode.Engine G) (R : DeepagentCode.Renderer)
    (J : Json)
    (stream : G -> agent_input -> option pyval -> string -> stream_result G)
    (fuel : nat) (i : agent_input) (config : option pyval) (verbose : bool)
    (stream_mode : string) (w : world G)
    (pre post : list pydict) (chunk data : pydict) (actions : list pyval) :
  stream = DeepagentCode.stream_graph_updates
    \/ stream = DeepagentCode.astream_graph_updates ->
  chunks (stream (graph w) i config stream_mode) = (pre ++ chunk :: post)%list ->
  renders verbose (pre ++ chunk :: post) = true ->
  countable pre = true ->
  is_interrupt chunk = true ->
  lookup "interrupt" chunk = Some (PDict data) ->
  lookup "action_requests" data = Some (PList actions) ->
  actions <> [] ->
  forallb (fun c => negb (is_interrupt c)) post = true ->
  scan verbose DeepagentCode.fresh (pre ++ chunk :: post)
  = inr (DeepagentCode.mkTurn true (Z.of_nat (List.length actions)) false)
  /\ exists evs,
       trace (final_world
                (DeepagentCode.turn_loop stream (S fuel) i config true verbose
                   stream_mode w))
       = (trace w ++ evs)%list
       /\ first_invocation_calls evs = [PInt (Z.of_nat (List.length actions))].
Proof.
  intros _ Hchunks Hrenders Hpre Hi Hdata Hactions Hsome Hpost.
  assert (Hn : DeepagentCode.pending_actions chunk
               = inr (Z.of_nat (List.length actions))).
  { unfold DeepagentCode.pending_actions, get. rewrite Hdata.
    cbn [get_method]. unfold get. rewrite Hactions.
    destruct actions; [ contradiction | reflexivity ]. }
  pose proof (scan_last_interrupt verbose pre post chunk _ DeepagentCode.fresh
                Hrenders Hpre Hi Hn Hpost) as Hscan.
  split; [ exact Hscan | ].
  rewrite <- Hchunks in Hscan.
  exact (turn_loop_collects stream fuel i config verbose stream_mode w _ Hscan eq_refl).
Qed.

Lemma last_interrupt_sets_pending_count_witness :
  exists evs,
    trace (final_world
             (DeepagentCode.turn_loop (R := Demo.deepagent_renderer)
                (J := Demo.tiny_json)
                (DeepagentCode.stream_graph_updates
                   (Engine := Demo.deepagent_engine Demo.growing_interrupts)) 1
                (user_message "go") None
                true false "updates" (Demo.start [(1, KEnter)] [] [])))
    = ([] ++ evs)%list
    /\ first_invocation_calls evs = [PInt 3].
Proof.
  apply (last_interrupt_sets_pending_count nat
           (Demo.deepagent_engine Demo.growing_interrupts) Demo.deepagent_renderer
           Demo.tiny_json
           (DeepagentCode.stream_graph_updates
              (Engine := Demo.deepagent_engine Demo.growing_interrupts))
           0 (user_message "go") None false
           "updates" (Demo.start [(1, KEnter)] [] [])
           [Demo.interrupt_chunk [Demo.write_file]; Demo.text_chunk]
           []
           (Demo.interrupt_chunk [Demo.write_file; Demo.delete_file; Demo.write_file])
           [("action_requests",
             PList [Demo.write_file; Demo.delete_file; Demo.write_file]);
            ("review_configs", PList [])]
           [Demo.write_file; Demo.delete_file; Demo.write_file]);
    solve [ left; reflexivity | reflexivity | discriminate ].
Defined.

(** C8.  An interrupt chunk whose payload has no [action_requests], or an
    empty list of them, counts as one pending action; when it is the last
    interrupt chunk of an invocation of an interactive deepagent_code turn,
    over either stream function, the Decision Collector is called with 1. *)
Theorem empty_action_list_counts_as_one
    (G : Type) (D : DeepagentCode.Engine G) (R : DeepagentCode.Renderer)
    (J : Json) (chunk : pydict) (interrupt_data : pydict) :
  get chunk "interrupt" (PDict []) = PDict interrupt_data ->
  lookup "action_requests" interrupt_data = None
    \/ lookup "action_requests" interrupt_data = Some (PList []) ->
  DeepagentCode.pending_actions chunk = inr 1
  /\ forall (stream : G -> agent_input -> option pyval -> string -> stream_result G)
       (fuel : nat) (i : agent_input) (config : option pyval) (verbose : bool)
       (stream_mode : string) (w : world G) (pre post : list pydict),
       stream = DeepagentCode.stream_graph_updates
         \/ stream = DeepagentCode.astream_graph_updates ->
       is_interrupt chunk = true ->
       chunks (stream (graph w) i config stream_mode) = (pre ++ chunk :: post)%list ->
       renders verbose (pre ++ chunk :: post) = true ->
       countable pre = true ->
       forallb (fun c => negb (is_interrupt c)) post = true ->
       exists evs,
         trace (final_world
                  (DeepagentCode.turn_loop stream (S fuel) i config true verbose
                     stream_mode w))
         = (trace w ++ evs)%list
         /\ first_invocation_calls evs = [PInt 1].
Proof.
  intros Hdata Hrequests.
  assert (Hone : DeepagentCode.pending_actions chunk = inr 1).
  { unfold DeepagentCode.pending_actions. rewrite Hdata. simpl. unfold get.
    destruct Hrequests as [H | H]; rewrite H; reflexivity. }
  split; [ exact Hone | ].
  intros stream fuel i config verbose stream_mode w pre post _ Hi Hchunks
         Hrenders Hpre Hpost.
  pose proof (scan_last_interrupt verbose pre post chunk 1 DeepagentCode.fresh
                Hrenders Hpre Hi Hone Hpost) as Hscan.
  rewrite <- Hchunks in Hscan.
  exact (turn_loop_collects stream fuel i config verbose stream_mode w _ Hscan eq_refl).
Qed.

Lemma empty_action_list_counts_as_one_witness :
  DeepagentCode.pending_actions (Demo.interrupt_chunk []) = inr 1
  /\ DeepagentCode.pending_actions [("status", PStr "interrupt")] = inr 1
  /\ DeepagentCode.pending_actions
       [("status", PStr "interrupt"); ("interrupt", PDict [])] = inr 1.
Proof.
  split; [ | split ].
  - apply (empty_action_list_counts_as_one nat
             (Demo.deepagent_engine Demo.two_interrupts) Demo.deepagent_renderer
             Demo.tiny_json (Demo.interrupt_chunk [])
             [("action_requests", PList []); ("review_configs", PList [])]);
      [ reflexivity | right; reflexivity ].
  - apply (empty_action_list_counts_as_one nat
             (Demo.deepagent_engine Demo.two_interrupts) Demo.deepagent_renderer
             Demo.tiny_json [("status", PStr "interrupt")] []);
      [ reflexivity | left; reflexivity ].
  - apply (empty_action_list_counts_as_one nat
             (Demo.deepagent_engine Demo.two_interrupts) Demo.deepagent_renderer
             Demo.tiny_json
             [("status", PStr "interrupt"); ("interrupt", PDict [])] []);
      [ reflexivity | left; reflexivity ].
Defined.

(* ================================================================== *)
(** ** The decisions the engine is resumed with *)

Section Decisions.
Context {G : Type} {J : Json}.
Implicit Types (w : world G).


(** The custom-JSON path of the Decision Collector of
    langgraph_utils_cli. *)
Lemma graph_handle_interrupt_input_custom (data : pydict) w
    (asked waited : Z) (line : string)
    (more_numbers : list (Z * Z)) (rest : list (Z * string)) :
  numbers w = (asked, 3) :: more_numbers ->
  lines w = (waited, line) :: rest ->
  let w3 :=
    mkWorld (now w + asked + waited) (graph w) (keys w) rest more_numbers
      (trace w
         ++ [ECollect (PDict data);
             EPrint "How would you like to proceed?";
             EPrint "1. Approve all actions";
             EPrint "2. Reject all actions";
             EPrint "3. Provide custom decision (JSON)";
             EPrint "4. Exit";
             ENumber asked 3;
             EPrint "Enter your decision as JSON (e.g., {'type': 'approve'}):";
             ELine waited line]) in
  LanggraphUtilsCli.handle_interrupt_input (PDict data) w
  = match json_loads line with
    | inr decision => Done decision w3
    | inl e => Done reject (add_events w3 [EPrint ("Invalid JSON: " ++ e)])
    end.
Proof.
  intros Hnumbers Hlines w3.
  unfold LanggraphUtilsCli.handle_interrupt_input.
  cbv beta iota delta [bind emit lift ret get_method click_prompt_int
                       click_prompt_str].
  cbn [log numbers lines now graph keys trace].
  rewrite Hnumbers. cbv beta iota.
  change (3 =? 1) with false. change (3 =? 2) with false.
  change (3 =? 3) with true. cbv beta iota.
  cbn [log numbers lines now graph keys trace].
  rewrite Hlines. cbv beta iota.
  unfold w3, add_events.
  destruct (json_loads line);
    unfold log; cbn [numbers lines now graph keys trace];
    repeat rewrite <- app_assoc; reflexivity.
Qed.

(** The two bulk choices of the Decision Collector of langgraph_utils_cli. *)
Lemma graph_handle_interrupt_input_bulk (data : pydict) w
    (asked n : Z) (more_numbers : list (Z * Z)) :
  numbers w = (asked, n) :: more_numbers ->
  n = 1 \/ n = 2 ->
  let w1 :=
    mkWorld (now w + asked) (graph w) (keys w) (lines w) more_numbers
      (trace w
         ++ [ECollect (PDict data);
             EPrint "How would you like to proceed?";
             EPrint "1. Approve all actions";
             EPrint "2. Reject all actions";
             EPrint "3. Provide custom decision (JSON)";
             EPrint "4. Exit";
             ENumber asked n]) in
  LanggraphUtilsCli.handle_interrupt_input (PDict data) w
  = Done (if n =? 1 then approve else reject) w1.
Proof.
  intros Hnumbers Hn w1.
  unfold LanggraphUtilsCli.handle_interrupt_input.
  cbv beta iota delta [bind emit lift ret get_method click_prompt_int].
  cbn [log numbers lines now graph keys trace].
  rewrite Hnumbers. cbv beta iota.
  unfold w1, log. cbn [numbers lines now graph keys trace].
  destruct Hn as [Hn | Hn]; subst n; cbn [Z.eqb Pos.eqb]; cbv iota;
    repeat rewrite <- app_assoc; reflexivity.
Qed.

End Decisions.







(* ================================================================== *)
(** ** The tests of the repository and the scenarios of the spec, replayed *)

Module Replay.

Example test_tuple_format_two_elements :
  let action_requests := PList [PDict [("tool", PStr "test_tool"); ("args", PDict [])]] in
  let review_configs :=
    PList [PDict [("allowed_decisions", PList [PStr "approve"; PStr "reject"])]] in
  parse_interrupt_value (PTuple [action_requests; review_configs])
  = inr (action_requests, review_configs).
Proof. reflexivity. Qed.

Example test_tuple_format_single_element_with_dict :
  let mock_interrupt :=
    PObj [("value",
           PDict [("action_requests", PList [PDict [("tool", PStr "test")]]);
                  ("review_configs",
                   PList [PDict [("allowed_decisions", PList [PStr "approve"])]])])] in
  parse_interrupt_value (PTuple [mock_interrupt])
  = inr (PList [PDict [("tool", PStr "test")]],
         PList [PDict [("allowed_decisions", PList [PStr "approve"])]]).
Proof. reflexivity. Qed.

Example test_dict_format :
  serialize_action_request
    (PDict [("tool", PStr "test_tool"); ("tool_call_id", PStr "call_123");
            ("args", PDict [("param", PStr "value")]);
            ("description", PStr "Test action")]) 0
  = inr (PDict [("tool", PStr "test_tool"); ("tool_call_id", PStr "call_123");
                ("args", PDict [("param", PStr "value")]);
                ("description", PStr "Test action")]).
Proof. reflexivity. Qed.

Example test_object_format :
  exists serialized,
    serialize_action_request
      (PObj [("tool", PStr "test_tool"); ("tool_call_id", PStr "call_123");
             ("args", PDict [("param", PStr "value")]);
             ("description", PStr "Test action")]) 0
    = inr serialized
    /\ field serialized "tool" = Some (PStr "test_tool")
    /\ field serialized "tool_call_id" = Some (PStr "call_123").
Proof. eexists. repeat split; reflexivity. Qed.

Example test_fallback_tool_call_id :
  exists serialized,
    serialize_action_request
      (PDict [("tool", PStr "test_tool"); ("args", PDict [])]) 5
    = inr serialized
    /\ field serialized "tool_call_id" = Some (PStr "call_5").
Proof. eexists. split; reflexivity. Qed.

Example test_message_input :
  prepare_agent_input (Some "Hello, agent!") None None
  = inr (user_message "Hello, agent!").
Proof. reflexivity. Qed.

Example test_decisions_input :
  prepare_agent_input None (Some [approve]) None = inr (ResumeCommand [approve]).
Proof. reflexivity. Qed.

Example test_raw_input :
  prepare_agent_input None None (Some (PDict [("custom", PStr "data")]))
  = inr (RawInput (PDict [("custom", PStr "data")])).
Proof. reflexivity. Qed.

Example test_full_interrupt_processing :
  process_interrupt
    (PTuple [PList [PDict [("tool", PStr "test_tool");
                           ("tool_call_id", PStr "call_1");
                           ("args", PDict [("param", PStr "value")])]];
             PList [PDict [("allowed_decisions",
                            PList [PStr "approve"; PStr "reject"])]]])
  = inr (payload
           [PDict [("tool", PStr "test_tool"); ("tool_call_id", PStr "call_1");
                   ("args", PDict [("param", PStr "value")]);
                   ("description", PNone)]]
           [PDict [("allowed_decisions", PList [PStr "approve"; PStr "reject"])]]).
Proof. reflexivity. Qed.

(** Scenario 1: a text chunk, then completion; the turn returns without
    asking anything, after the 7 ticks the invocation took. *)
Example scenario_text_then_complete :
  exists w',
    DeepagentCode.run_single_turn_sync
      (E := Demo.deepagent_engine Demo.two_actions)
      (R := Demo.deepagent_renderer) (J := Demo.tiny_json)
      3 "go" None true false "updates" (mkWorld 100 1%nat [] [] [] [])
    = Done 7 w'
    /\ collector_calls (trace w') = []
    /\ invocations (trace w') = [user_message "go"].
Proof. eexists. split; [ vm_compute; reflexivity | split; reflexivity ]. Qed.

(** Scenario 2: an interrupt with two action requests; the collector is
    asked for two decisions, and approving all resumes the engine with two
    approvals. *)
Example scenario_two_actions_approved :
  exists w',
    DeepagentCode.run_single_turn_sync
      (E := Demo.deepagent_engine Demo.two_actions)
      (R := Demo.deepagent_renderer) (J := Demo.tiny_json)
      3 "go" None true false "updates" (Demo.start [(4, KEnter)] [] [])
    = Done 16 w'
    /\ collector_calls (trace w') = [PInt 2]
    /\ invocations (trace w')
       = [user_message "go"; ResumeCommand [approve; approve]].
Proof. eexists. split; [ vm_compute; reflexivity | split; reflexivity ]. Qed.

(** Scenario 3: a custom decision that is not JSON; the engine is resumed
    with two rejects. *)
Example scenario_invalid_json :
  exists w',
    DeepagentCode.run_single_turn_sync
      (E := Demo.deepagent_engine Demo.two_actions)
      (R := Demo.deepagent_renderer) (J := Demo.tiny_json)
      3 "go" None true false "updates"
      (Demo.start [(1, KDown); (1, KDown); (1, KEnter)] [(2, "not valid json")] [])
    = Done 17 w'
    /\ invocations (trace w')
       = [user_message "go"; ResumeCommand [reject; reject]].
Proof. eexists. split; [ vm_compute; reflexivity | reflexivity ]. Qed.

(** Choosing the fourth option leaves the process with exit code 0. *)
Example scenario_exit :
  exists w',
    DeepagentCode.run_single_turn_sync
      (E := Demo.deepagent_engine Demo.two_actions)
      (R := Demo.deepagent_renderer) (J := Demo.tiny_json)
      3 "go" None true false "updates"
      (Demo.start [(1, KDown); (1, KDown); (1, KDown); (1, KDown); (1, KEnter)] [] [])
    = Exited 0 w'
    /\ invocations (trace w') = [user_message "go"].
Proof. eexists. split; [ vm_compute; reflexivity | reflexivity ]. Qed.

End Replay.

(* ================================================================== *)
(** * More of the command-line front ends *)

(** ** Strings *)

Section TextFacts.

Lemma rsplit1_none (sep : ascii) (s : string) :
  rsplit1 sep s = None <-> has_char sep s = false.
Proof.
  induction s as [ | c rest IH ]; simpl; [ tauto | ].
  destruct (rsplit1 sep rest) as [ [before after] | ].
  - split; [ discriminate | ].
    intros H. apply orb_false_iff in H. destruct H as [_ H].
    apply IH in H. discriminate.
  - destruct (Ascii.eqb c sep); simpl.
    + split; discriminate.
    + split; intros _; [ apply IH | ]; reflexivity.
Qed.

(** [rsplit1] cuts at the last separator, and only there. *)
Lemma rsplit1_spec (sep : ascii) (s before after : string) :
  rsplit1 sep s = Some (before, after)
  <-> s = before ++ String sep after /\ has_char sep after = false.
Proof.
  split.
  - revert before after.
    induction s as [ | c rest IH ]; intros before after; simpl; [ discriminate | ].
    destruct (rsplit1 sep rest) as [ [b a] | ] eqn:Hrest.
    + intros H. inversion H; subst.
      destruct (IH b after eq_refl) as [Hs Hnone]. subst rest. auto.
    + destruct (Ascii.eqb c sep) eqn:Hc; [ | discriminate ].
      intros H. inversion H; subst. apply Ascii.eqb_eq in Hc. subst c.
      split; [ reflexivity | ]. apply rsplit1_none. exact Hrest.
  - intros [Hs Hnone]. subst s.
    induction before as [ | c before IH ]; simpl.
    + apply rsplit1_none in Hnone. rewrite Hnone, Ascii.eqb_refl. reflexivity.
    + rewrite IH. reflexivity.
Qed.

Lemma endswith_spec (s suffix : string) :
  endswith s suffix = true <-> exists prefix, s = prefix ++ suffix.
Proof.
  split.
  - induction s as [ | c rest IH ]; cbn [endswith].
    + rewrite orb_false_r. intros H. apply String.eqb_eq in H.
      exists "". exact H.
    + intros H. apply orb_true_iff in H. destruct H as [H | H].
      * apply String.eqb_eq in H. exists "". exact H.
      * destruct (IH H) as [prefix Hp]. exists (String c prefix).
        simpl. congruence.
  - intros [prefix Hp]. subst s.
    induction prefix as [ | c prefix IH ]; cbn [append endswith].
    + destruct suffix; cbn [endswith]; rewrite String.eqb_refl; reflexivity.
    + rewrite IH. apply orb_true_r.
Qed.

Lemma has_char_app (c : ascii) (s t : string) :
  has_char c (s ++ t) = (has_char c s || has_char c t)%bool.
Proof.
  induction s as [ | d s IH ]; simpl; [ reflexivity | ].
  rewrite IH, orb_assoc. reflexivity.
Qed.

Lemma ends_char_app (s t : string) :
  ends_char t = true ->
  ends_char (s ++ t) = ends_char s.
Proof. destruct s; simpl; auto. Qed.

(** Joining texts adds their characters, when the second one starts at a
    character boundary. *)
Lemma char_length_app (s t : string) :
  ends_char t = true ->
  char_length (s ++ t) = (char_length s + char_length t)%nat.
Proof.
  intros Ht. induction s as [ | c s IH ]; [ reflexivity | ].
  cbn [append char_length]. rewrite (ends_char_app s t Ht), IH. lia.
Qed.

(** Cutting keeps the first [n] characters, or all of them. *)
Lemma char_length_take_chars (s : string) :
  forall n, char_length (take_chars n s) = Nat.min n (char_length s).
Proof.
  induction s as [ | c rest IH ]; intros n; [ destruct n; reflexivity | ].
  destruct n as [ | n ]; [ reflexivity | ].
  cbn [take_chars char_length]. rewrite IH.
  destruct rest as [ | d rest ]; [ destruct n; reflexivity | ].
  cbn [ends_char]. destruct (continues d) eqn:Hd; cbn [negb].
  - cbn [take_chars ends_char]. rewrite Hd. cbn [negb]. lia.
  - destruct n as [ | n ]; [ cbn [take_chars ends_char]; lia | ].
    cbn [take_chars ends_char]. rewrite Hd. cbn [negb]. lia.
Qed.

Lemma take_chars_all (s : string) :
  forall n, (char_length s <= n)%nat -> take_chars n s = s.
Proof.
  induction s as [ | c rest IH ]; intros n Hn; [ destruct n; reflexivity | ].
  pose proof (char_length_positive c rest) as Hpos.
  destruct n as [ | n ]; [ lia | ].
  cbn [take_chars]. cbn [char_length] in Hn.
  rewrite IH; [ reflexivity | ].
  destruct (ends_char rest); lia.
Qed.

Lemma has_char_take_chars (c : ascii) (s : string) :
  forall n, has_char c s = false -> has_char c (take_chars n s) = false.
Proof.
  induction s as [ | d s IH ]; intros n; [ destruct n; reflexivity | ].
  destruct n as [ | n ]; [ reflexivity | ].
  cbn [take_chars has_char]. intros H.
  apply orb_false_iff in H. destruct H as [Hd Hs].
  rewrite Hd, IH by exact Hs. reflexivity.
Qed.

End TextFacts.

(** ** Agent specs *)

(** X1.  [parse_agent_spec] accepts exactly the texts [file:variable] whose
    file part ends in [.py] and whose variable part holds no colon, and
    returns these two parts: joining them with a colon gives the spec back,
    and the cut is at the last colon.  A text without a colon is a
    [ValueError]. *)
Theorem parse_agent_spec_round_trip (agent_spec file_path variable_name : string) :
  (DeepagentCodeTools.parse_agent_spec agent_spec = inr (file_path, variable_name)
   <-> agent_spec = file_path ++ ":" ++ variable_name
       /\ has_char colon variable_name = false
       /\ endswith file_path ".py" = true)
  /\ (has_char colon agent_spec = false ->
      exists msg,
        DeepagentCodeTools.parse_agent_spec agent_spec = inl (ValueError msg)).
Proof.
  unfold DeepagentCodeTools.parse_agent_spec. split; [ split | ].
  - destruct (rsplit1 colon agent_spec) as [ [f v] | ] eqn:Hsplit; [ | discriminate ].
    destruct (endswith f ".py") eqn:Hpy; simpl; [ | discriminate ].
    intros H. inversion H; subst.
    apply rsplit1_spec in Hsplit. destruct Hsplit as [Hs Hnone]. auto.
  - intros [Hs [Hnone Hpy]].
    assert (Hsplit : rsplit1 colon agent_spec = Some (file_path, variable_name)).
    { apply rsplit1_spec. auto. }
    rewrite Hsplit, Hpy. reflexivity.
  - intros Hnone. apply rsplit1_none in Hnone. rewrite Hnone. eauto.
Qed.

Lemma parse_agent_spec_round_trip_witness :
  DeepagentCodeTools.parse_agent_spec "agents:v2/my_agent.py:graph"
  = inr ("agents:v2/my_agent.py", "graph")
  /\ exists msg,
       DeepagentCodeTools.parse_agent_spec "my_agent.py" = inl (ValueError msg).
Proof.
  split.
  - apply (parse_agent_spec_round_trip "agents:v2/my_agent.py:graph"
             "agents:v2/my_agent.py" "graph").
    repeat split; reflexivity.
  - apply (parse_agent_spec_round_trip "my_agent.py" "" ""). reflexivity.
Defined.

Section LoadingFacts.
Context {I : DeepagentCodeTools.Importer}.

(** X2.  Where [parse_agent_spec] accepts a spec and finds a non-empty
    variable name, [load_graph] reads the spec the same way: it loads that
    file, as a file, under that variable name, whatever the default name. *)
Theorem load_graph_agrees_with_parse_agent_spec
    (spec default_graph_name file_path variable_name : string) :
  DeepagentCodeTools.parse_agent_spec spec = inr (file_path, variable_name) ->
  variable_name <> "" ->
  DeepagentCodeTools.load_graph spec default_graph_name
  = match DeepagentCodeTools.load_graph_from_file file_path variable_name with
    | inl e => inl e
    | inr graph => inr (graph, variable_name)
    end.
Proof.
  unfold DeepagentCodeTools.parse_agent_spec, DeepagentCodeTools.load_graph.
  destruct (rsplit1 colon spec) as [ [f v] | ]; [ | discriminate ].
  destruct (endswith f ".py") eqn:Hpy; cbn [negb]; [ | discriminate ].
  intros H Hname. inversion H; subst.
  destruct (String.eqb variable_name "") eqn:Hempty.
  - apply String.eqb_eq in Hempty. contradiction.
  - reflexivity.
Qed.

(** X3.  A spec without a colon, the same spec followed by a colon, and the
    same spec followed by a colon and the default graph name all load the
    same thing. *)
Theorem load_graph_default_name (spec default_graph_name : string) :
  has_char colon spec = false ->
  DeepagentCodeTools.load_graph (spec ++ ":") default_graph_name
  = DeepagentCodeTools.load_graph spec default_graph_name
  /\ (has_char colon default_graph_name = false ->
      DeepagentCodeTools.load_graph (spec ++ ":" ++ default_graph_name)
        default_graph_name
      = DeepagentCodeTools.load_graph spec default_graph_name).
Proof.
  intros Hspec.
  assert (Hnone : rsplit1 colon spec = None) by (apply rsplit1_none; exact Hspec).
  assert (Hcut : forall name,
             has_char colon name = false ->
             rsplit1 colon (spec ++ ":" ++ name) = Some (spec, name)).
  { intros name Hname. apply rsplit1_spec. auto. }
  unfold DeepagentCodeTools.load_graph. rewrite Hnone. split.
  - pose proof (Hcut "" eq_refl) as Hempty. cbn [append] in Hempty.
    rewrite Hempty. reflexivity.
  - intros Hdefault. rewrite (Hcut default_graph_name Hdefault).
    destruct (String.eqb default_graph_name ""); reflexivity.
Qed.

End LoadingFacts.

Lemma load_graph_agrees_with_parse_agent_spec_witness :
  DeepagentCodeTools.load_graph (I := Bench.one_agent_file) "my_agent.py:graph" "agent"
  = inr (PObj [], "graph").
Proof.
  rewrite (load_graph_agrees_with_parse_agent_spec (I := Bench.one_agent_file)
             "my_agent.py:graph" "agent" "my_agent.py" "graph");
    [ reflexivity | reflexivity | discriminate ].
Defined.

Lemma load_graph_default_name_witness :
  DeepagentCodeTools.load_graph (I := Bench.one_agent_file) "my_agent.py:" "graph"
  = inr (PObj [], "graph")
  /\ DeepagentCodeTools.load_graph (I := Bench.one_agent_file) "my_agent.py:graph" "graph"
     = inr (PObj [], "graph").
Proof.
  destruct (load_graph_default_name (I := Bench.one_agent_file) "my_agent.py" "graph"
              eq_refl) as [Hcolon Hname].
  split.
  - etransitivity; [ exact Hcolon | reflexivity ].
  - etransitivity; [ exact (Hname eq_refl) | reflexivity ].
Defined.

(** ** Previews *)

Section PreviewFacts.

Lemma split_length (sep : ascii) (s : string) :
  List.length (split sep s) = S (count_char sep s).
Proof.
  induction s as [ | c rest IH ]; simpl; [ reflexivity | ].
  destruct (Ascii.eqb c sep); simpl; [ congruence | ].
  destruct (split sep rest); simpl in *; congruence.
Qed.

Lemma split_hd (sep : ascii) (s : string) :
  has_char sep (List.hd "" (split sep s)) = false.
Proof.
  induction s as [ | c rest IH ]; simpl; [ reflexivity | ].
  destruct (Ascii.eqb c sep) eqn:Hc; simpl; [ reflexivity | ].
  destruct (split sep rest); simpl in *; rewrite Hc; [ reflexivity | exact IH ].
Qed.

Lemma split_single (sep : ascii) (s : string) :
  has_char sep s = false -> split sep s = [s].
Proof.
  induction s as [ | c rest IH ]; simpl; [ reflexivity | ].
  intros H. apply orb_false_iff in H. destruct H as [Hc Hrest].
  rewrite Hc, IH by exact Hrest. reflexivity.
Qed.

Lemma count_char_none (c : ascii) (s : string) :
  count_char c s = O <-> has_char c s = false.
Proof.
  induction s as [ | d rest IH ]; simpl; [ tauto | ].
  destruct (Ascii.eqb d c); simpl; [ split; discriminate | exact IH ].
Qed.

Lemma string_of_uint_no_newline (d : Decimal.uint) :
  has_char newline (NilEmpty.string_of_uint d) = false.
Proof. induction d; simpl; auto. Qed.

Lemma str_of_int_no_newline (z : Z) : has_char newline (str_of_int z) = false.
Proof.
  unfold str_of_int, NilZero.string_of_int, NilZero.string_of_uint.
  destruct (Z.to_int z) as [ d | d ]; destruct d; simpl;
    auto using string_of_uint_no_newline.
Qed.

Lemma append_nonempty_r (s t : string) : t <> "" -> s ++ t <> "".
Proof.
  intros Ht H. destruct s; simpl in H; [ contradiction | discriminate ].
Qed.

End PreviewFacts.

(** X4.  A result preview is one non-empty line: [format_result_preview]
    never returns the empty text and never a text holding a newline, whatever
    the result it is given. *)
Theorem format_result_preview_one_line (result : string) :
  DeepagentCodeTools.format_result_preview result <> ""
  /\ has_char newline (DeepagentCodeTools.format_result_preview result) = false.
Proof.
  unfold DeepagentCodeTools.format_result_preview.
  destruct (String.eqb result "") eqn:Hempty; [ split; [ discriminate | reflexivity ] | ].
  cbv zeta.
  assert (Hfirst : has_char newline
                     (take_chars 60 (List.hd "" (split newline result)))
                   = false)
    by (apply has_char_take_chars, split_hd).
  destruct (1 <? List.length (split newline result))%nat eqn:Hmany.
  - split.
    + apply append_nonempty_r. discriminate.
    + rewrite !has_char_app, Hfirst, str_of_int_no_newline. reflexivity.
  - destruct (60 <? char_length (List.hd "" (split newline result)))%nat eqn:Hlong.
    + split.
      * apply append_nonempty_r. discriminate.
      * rewrite has_char_app, Hfirst. reflexivity.
    + split; [ | exact Hfirst ].
      apply Nat.ltb_ge in Hmany. rewrite split_length in Hmany.
      assert (Hnone : has_char newline result = false)
        by (apply count_char_none; lia).
      rewrite (split_single _ _ Hnone) in *. cbn [List.hd] in *.
      apply Nat.ltb_ge in Hlong. rewrite take_chars_all by exact Hlong.
      apply String.eqb_neq in Hempty. exact Hempty.
Qed.

(** X5.  The preview of a one-line result is the result itself when it has
    at most 60 characters, and otherwise its first 60 characters followed by
    three dots, 63 characters in all; the preview of a result of several
    lines is the first 60 characters of its first line followed by the
    number of newlines it holds.  Characters are counted, not bytes. *)
Theorem format_result_preview_shape (result : string) :
  result <> "" ->
  (has_char newline result = false ->
   ((char_length result <= 60)%nat ->
    DeepagentCodeTools.format_result_preview result = result)
   /\ ((60 < char_length result)%nat ->
       DeepagentCodeTools.format_result_preview result
       = take_chars 60 result ++ "..."
       /\ char_length (DeepagentCodeTools.format_result_preview result) = 63%nat))
  /\ (has_char newline result = true ->
      DeepagentCodeTools.format_result_preview result
      = take_chars 60 (List.hd "" (split newline result))
          ++ " ... +" ++ str_of_int (Z.of_nat (count_char newline result))
          ++ " lines").
Proof.
  intros Hne. apply String.eqb_neq in Hne.
  unfold DeepagentCodeTools.format_result_preview. rewrite Hne. cbv zeta.
  rewrite split_length. split.
  - intros Hnone. rewrite (split_single _ _ Hnone).
    assert (Hcount : count_char newline result = O)
      by (apply count_char_none; exact Hnone).
    rewrite Hcount. change (1 <? 1)%nat with false. cbn [List.hd]. cbv iota.
    split.
    + intros Hshort.
      assert (Hlong : (60 <? char_length result)%nat = false)
        by (apply Nat.ltb_ge; lia).
      rewrite Hlong. apply take_chars_all. exact Hshort.
    + intros Hlong. apply Nat.ltb_lt in Hlong as Hb. rewrite Hb.
      split; [ reflexivity | ].
      rewrite char_length_app by reflexivity.
      rewrite char_length_take_chars.
      change (char_length "...") with 3%nat. lia.
  - intros Hsome.
    assert (Hcount : count_char newline result <> O).
    { intros H0. apply count_char_none in H0. congruence. }
    assert (Hmany : (1 <? S (count_char newline result))%nat = true)
      by (apply Nat.ltb_lt; lia).
    rewrite Hmany. repeat f_equal. lia.
Qed.

Lemma format_result_preview_shape_witness :
  DeepagentCodeTools.format_result_preview "total 3" = "total 3"
  /\ DeepagentCodeTools.format_result_preview
       "ééééééééééééééééééééééééééééééé"
     = "ééééééééééééééééééééééééééééééé"
  /\ DeepagentCodeTools.format_result_preview
       ("a.py" ++ String newline ("b.py" ++ String newline "c.py"))
     = "a.py ... +2 lines".
Proof.
  split; [ | split ].
  - apply (format_result_preview_shape "total 3");
      [ discriminate | reflexivity | vm_compute; lia ].
  - apply (format_result_preview_shape "ééééééééééééééééééééééééééééééé");
      [ discriminate | reflexivity | vm_compute; lia ].
  - etransitivity.
    + apply (format_result_preview_shape
               ("a.py" ++ String newline ("b.py" ++ String newline "c.py")));
        [ discriminate | reflexivity ].
    + reflexivity.
Defined.

(** X6.  The preview of the arguments of a tool call never exceeds 53
    characters: it is empty for missing or empty arguments, the text of the
    first argument when that has at most 50 characters, and its first 50
    characters followed by three dots otherwise; arguments that are not a
    mapping raise.  Characters are counted, not bytes. *)
Theorem get_tool_arg_preview_bounded (str : pyval -> string) (args : pyval) :
  (truthy args = false ->
   DeepagentCodeTools.get_tool_arg_preview str args = inr "")
  /\ (forall preview,
         DeepagentCodeTools.get_tool_arg_preview str args = inr preview ->
         (char_length preview <= 53)%nat)
  /\ (forall key first rest,
         args = PDict ((key, first) :: rest) ->
         exists preview,
           DeepagentCodeTools.get_tool_arg_preview str args = inr preview
           /\ ((char_length (str first) <= 50)%nat -> preview = str first)
           /\ ((50 < char_length (str first))%nat ->
               preview = take_chars 50 (str first) ++ "..."))
  /\ (truthy args = true -> (forall d, args <> PDict d) ->
      DeepagentCodeTools.get_tool_arg_preview str args = inl AttributeError).
Proof.
  unfold DeepagentCodeTools.get_tool_arg_preview.
  split; [ | split; [ | split ] ].
  - intros Hfalsy. rewrite Hfalsy. reflexivity.
  - intros preview.
    destruct (truthy args); cbn [negb];
      [ | intros H; inversion H; simpl; lia ].
    destruct args as [ | b | z | s | l | l | d | attrs ]; try discriminate.
    destruct d as [ | [key first] rest ]; [ discriminate | ].
    cbv zeta.
    destruct (50 <? char_length (str first))%nat eqn:Hlong;
      intros H;
      apply (f_equal (fun r : exn + string =>
                        match r with
                        | inr p => char_length p
                        | inl _ => O
                        end)) in H;
      cbv beta iota in H; rewrite <- H.
    + rewrite char_length_app by reflexivity.
      rewrite char_length_take_chars.
      change (char_length "...") with 3%nat. lia.
    + apply Nat.ltb_ge in Hlong. lia.
  - intros key first rest Hargs. subst args. cbn [truthy negb]. cbv zeta.
    destruct (50 <? char_length (str first))%nat eqn:Hlong;
      eexists; (split; [ reflexivity | ]); split; intros H; try reflexivity.
    + apply Nat.ltb_lt in Hlong. lia.
    + apply Nat.ltb_ge in Hlong. lia.
  - intros Htruthy Hnot. rewrite Htruthy. cbn [negb].
    destruct args as [ | b | z | s | l | l | d | attrs ]; try reflexivity.
    exfalso. apply (Hnot d). reflexivity.
Qed.

Lemma get_tool_arg_preview_bounded_witness :
  DeepagentCodeTools.get_tool_arg_preview
    (fun v => match v with PStr s => s | _ => "" end) (PDict []) = inr ""
  /\ DeepagentCodeTools.get_tool_arg_preview
       (fun v => match v with PStr s => s | _ => "" end)
       (PDict [("path", PStr "éééééééééééééééééééééééééé")])
     = inr "éééééééééééééééééééééééééé"
  /\ DeepagentCodeTools.get_tool_arg_preview
       (fun v => match v with PStr s => s | _ => "" end)
       (PList [PStr "x"]) = inl AttributeError.
Proof.
  split; [ | split ].
  - apply (get_tool_arg_preview_bounded
             (fun v => match v with PStr s => s | _ => "" end) (PDict [])).
    reflexivity.
  - destruct (get_tool_arg_preview_bounded
                (fun v => match v with PStr s => s | _ => "" end)
                (PDict [("path", PStr "éééééééééééééééééééééééééé")]))
      as [_ [_ [Hfirst _]]].
    destruct (Hfirst "path" (PStr "éééééééééééééééééééééééééé") [] eq_refl)
      as [preview [Hrun [Hshort _]]].
    rewrite Hrun, Hshort; [ reflexivity | vm_compute; lia ].
  - apply (get_tool_arg_preview_bounded
             (fun v => match v with PStr s => s | _ => "" end)
             (PList [PStr "x"]));
      [ reflexivity | intros d H; discriminate ].
Defined.

(** ** The name of the agent *)

Section AgentNameFacts.
Import DeepagentCodeTools.

Lemma usable_name_spec (found : option pyval) (name : string) :
  usable_name found = Some name <-> found = Some (PStr name) /\ name <> "".
Proof.
  unfold usable_name. split.
  - destruct found as [ [ | b | z | s | l | l | d | attrs ] | ]; try discriminate.
    destruct (String.eqb s "") eqn:Hs; [ discriminate | ].
    intros H. inversion H; subst. apply String.eqb_neq in Hs. auto.
  - intros [Hfound Hname]. subst found. apply String.eqb_neq in Hname.
    rewrite Hname. reflexivity.
Qed.

Lemma first_usable_name_spec (graph : pyval) (attrs : list string) (name : string) :
  first_usable_name graph attrs = Some name <->
  exists before attr after,
    attrs = (before ++ attr :: after)%list
    /\ Forall (fun a => usable_name (attribute graph a) = None) before
    /\ usable_name (attribute graph attr) = Some name.
Proof.
  split.
  - induction attrs as [ | a rest IH ]; simpl; [ discriminate | ].
    destruct (usable_name (attribute graph a)) as [ n | ] eqn:Ha.
    + intros H. inversion H; subst. exists [], a, rest. auto.
    + intros H. destruct (IH H) as [before [attr [after [Hs [Hb Hu]]]]].
      exists (a :: before), attr, after. subst rest. auto.
  - intros [before [attr [after [Hs [Hb Hu]]]]]. subst attrs.
    induction Hb as [ | a before Ha _ IH ]; simpl.
    + rewrite Hu. reflexivity.
    + rewrite Ha. exact IH.
Qed.

End AgentNameFacts.

(** X7.  The name [get_agent_name] finds is never empty.  It is the first of
    the attributes [name], [agent_name], [_name], [__name__] of the graph to
    hold a non-empty string; only when none of the four does, the [name] of
    the graph's [builder] if that is a non-empty string; and [AgentCode]
    otherwise. *)
Theorem get_agent_name_first_usable (graph : pyval) :
  DeepagentCodeTools.get_agent_name graph <> ""
  /\ (forall before attr after name,
         ["name"; "agent_name"; "_name"; "__name__"]
         = (before ++ attr :: after)%list ->
         Forall (fun a => DeepagentCodeTools.usable_name (attribute graph a) = None)
                before ->
         attribute graph attr = Some (PStr name) ->
         name <> "" ->
         DeepagentCodeTools.get_agent_name graph = name)
  /\ (Forall (fun a => DeepagentCodeTools.usable_name (attribute graph a) = None)
             ["name"; "agent_name"; "_name"; "__name__"] ->
      (forall builder name,
          attribute graph "builder" = Some builder ->
          attribute builder "name" = Some (PStr name) ->
          name <> "" ->
          DeepagentCodeTools.get_agent_name graph = name)
      /\ ((forall builder,
              attribute graph "builder" = Some builder ->
              DeepagentCodeTools.usable_name (attribute builder "name") = None) ->
          DeepagentCodeTools.get_agent_name graph = "AgentCode")).
Proof.
  unfold DeepagentCodeTools.get_agent_name. split; [ | split ].
  - destruct (DeepagentCodeTools.first_usable_name graph _) as [ name | ] eqn:Hfirst.
    + apply first_usable_name_spec in Hfirst.
      destruct Hfirst as [before [attr [after [_ [_ Hu]]]]].
      apply usable_name_spec in Hu. tauto.
    + destruct (attribute graph "builder") as [ builder | ]; [ | discriminate ].
      destruct (DeepagentCodeTools.usable_name (attribute builder "name"))
        as [ name | ] eqn:Hb; [ | discriminate ].
      apply usable_name_spec in Hb. tauto.
  - intros before attr after name Hs Hb Ha Hname.
    assert (Hfirst : DeepagentCodeTools.first_usable_name graph
                       ["name"; "agent_name"; "_name"; "__name__"] = Some name).
    { apply first_usable_name_spec. exists before, attr, after.
      repeat split; auto. apply usable_name_spec. auto. }
    rewrite Hfirst. reflexivity.
  - intros Hnone.
    assert (Hfirst : DeepagentCodeTools.first_usable_name graph
                       ["name"; "agent_name"; "_name"; "__name__"] = None).
    { destruct (DeepagentCodeTools.first_usable_name graph _) as [ name | ] eqn:Hf;
        [ | reflexivity ].
      apply first_usable_name_spec in Hf.
      destruct Hf as [before [attr [after [Hs [_ Hu]]]]].
      rewrite Forall_forall in Hnone.
      rewrite Hnone in Hu; [ discriminate | ].
      rewrite Hs. apply in_or_app. right. left. reflexivity. }
    rewrite Hfirst. split.
    + intros builder name Hbuilder Hname Hne. rewrite Hbuilder.
      assert (Hu : DeepagentCodeTools.usable_name (attribute builder "name")
                   = Some name)
        by (apply usable_name_spec; auto).
      rewrite Hu. reflexivity.
    + intros Hbuilder.
      destruct (attribute graph "builder") as [ builder | ]; [ | reflexivity ].
      rewrite (Hbuilder builder eq_refl). reflexivity.
Qed.

Lemma get_agent_name_first_usable_witness :
  DeepagentCodeTools.get_agent_name
    (PObj [("name", PStr ""); ("agent_name", PNone); ("_name", PStr "planner");
           ("builder", PObj [("name", PStr "built")])])
  = "planner".
Proof.
  destruct (get_agent_name_first_usable
              (PObj [("name", PStr ""); ("agent_name", PNone);
                     ("_name", PStr "planner");
                     ("builder", PObj [("name", PStr "built")])]))
    as [_ [Hfirst _]].
  apply (Hfirst ["name"; "agent_name"] "_name" ["__name__"] "planner");
    [ reflexivity | repeat constructor | reflexivity | discriminate ].
Defined.

(** ** The option selector *)

Section SelectorFacts.
Context {G : Type}.
Implicit Types (w : world G).

Lemma select_loop_outcomes (rounds : nat) :
  forall num_options selected w,
    match DeepagentCode.select_loop rounds num_options selected w with
    | Done _ _ | Starved _ => True
    | Exited code _ => code = 0
    | Raised _ _ | OutOfFuel _ => False
    end.
Proof.
  induction rounds as [ | rounds IH ]; intros num_options selected w; simpl;
    [ exact I | ].
  unfold bind, get_key.
  destruct (keys w) as [ | [waited k] rest ]; [ exact I | ].
  destruct k; try apply IH; try exact I; try reflexivity.
  - destruct (selected >? 0); apply IH.
  - destruct (selected <? num_options - 1); apply IH.
Qed.

Lemma select_loop_downs (downs : list Z) :
  forall (rounds : nat) (num_options selected : Z) w (waited : Z)
         (rest : list (Z * key)),
    keys w = (map (fun d => (d, KDown)) downs ++ (waited, KEnter) :: rest)%list ->
    (List.length downs < rounds)%nat ->
    0 <= selected <= num_options - 1 ->
    exists w',
      DeepagentCode.select_loop rounds num_options selected w
      = Done (Z.min (selected + Z.of_nat (List.length downs)) (num_options - 1)) w'
      /\ keys w' = rest.
Proof.
  induction downs as [ | d downs IH ];
    intros rounds num_options selected w waited rest Hkeys Hrounds Hsel;
    (destruct rounds as [ | rounds ]; [ simpl in Hrounds; lia | ]);
    simpl in Hkeys; simpl DeepagentCode.select_loop; unfold bind, get_key;
    rewrite Hkeys.
  - simpl List.length. rewrite Z.add_0_r, Z.min_l by lia.
    eexists. split; reflexivity.
  - simpl in Hrounds.
    replace (Z.of_nat (List.length (d :: downs)))
      with (1 + Z.of_nat (List.length downs)) by (simpl List.length; lia).
    destruct (selected <? num_options - 1) eqn:Hlt.
    + apply Z.ltb_lt in Hlt.
      destruct (IH rounds num_options (selected + 1)
                  (log (EKey d KDown)
                     (mkWorld (now w + d) (graph w)
                        (map (fun d0 => (d0, KDown)) downs ++ (waited, KEnter) :: rest)
                        (lines w) (numbers w) (trace w)))
                  waited rest eq_refl) as [w' [Hrun Hrest]]; [ lia | lia | ].
      exists w'. split; [ | exact Hrest ].
      rewrite Hrun. f_equal. lia.
    + apply Z.ltb_ge in Hlt.
      destruct (IH rounds num_options selected
                  (log (EKey d KDown)
                     (mkWorld (now w + d) (graph w)
                        (map (fun d0 => (d0, KDown)) downs ++ (waited, KEnter) :: rest)
                        (lines w) (numbers w) (trace w)))
                  waited rest eq_refl) as [w' [Hrun Hrest]]; [ lia | lia | ].
      exists w'. split; [ | exact Hrest ].
      rewrite Hrun. f_equal. lia.
Qed.

End SelectorFacts.



(** X9.  The selection does not wrap around: pressing the down arrow [k]
    times and then enter selects option [k], or the last option when there
    are fewer than [k + 1] of them, and leaves the keys pressed after enter
    unread. *)
Theorem select_option_clamps
    (G : Type) (opts : list string) (prompt : string) (w : world G)
    (downs : list Z) (waited : Z) (rest : list (Z * key)) :
  opts <> [] ->
  keys w = (map (fun d => (d, KDown)) downs ++ (waited, KEnter) :: rest)%list ->
  exists w',
    DeepagentCode.select_option opts prompt w
    = Done (Z.min (Z.of_nat (List.length downs))
                  (Z.of_nat (List.length opts) - 1)) w'
    /\ keys w' = rest.
Proof.
  intros Hopts Hkeys. unfold DeepagentCode.select_option.
  destruct (select_loop_downs downs (S (List.length (keys w)))
              (Z.of_nat (List.length opts)) 0 w waited rest Hkeys)
    as [w' [Hrun Hrest]].
  - rewrite Hkeys, List.length_app, List.length_map. simpl. lia.
  - destruct opts; [ contradiction | simpl List.length; lia ].
  - exists w'. split; [ exact Hrun | exact Hrest ].
Qed.

Lemma select_option_clamps_witness :
  exists w',
    DeepagentCode.select_option DeepagentCode.options "How?"
      (Demo.start [(1, KDown); (2, KDown); (1, KDown); (1, KDown); (1, KDown);
                   (3, KEnter); (1, KUp)] [] [])
    = Done 3 w'
    /\ keys w' = [(1, KUp)].
Proof.
  apply (select_option_clamps nat DeepagentCode.options "How?"
           (Demo.start [(1, KDown); (2, KDown); (1, KDown); (1, KDown); (1, KDown);
                        (3, KEnter); (1, KUp)] [] [])
           [1; 2; 1; 1; 1] 3 [(1, KUp)]);
    [ discriminate | reflexivity ].
Defined.

(** ** Leaving from the Decision Collector *)

Section ExitFacts.
Context {G : Type} {J : Json}.
Implicit Types (w : world G).

Lemma handle_interrupt_input_exit_code (num_actions : Z) w (code : Z)
    (w' : world G) :
  DeepagentCode.handle_interrupt_input num_actions w = Exited code w' ->
  code = 0.
Proof.
  intros Hrun.
  cbv beta iota delta [DeepagentCode.handle_interrupt_input bind emit ret sys_exit]
    in Hrun.
  pose proof (select_loop_outcomes
                (S (List.length (keys (log (ECollect (PInt num_actions)) w))))
                (Z.of_nat (List.length DeepagentCode.options)) 0
                (log (ECollect (PInt num_actions)) w)) as Hsel.
  unfold DeepagentCode.select_option in Hrun.
  destruct (DeepagentCode.select_loop _ _ _ _) as [ choice w1 | | c w1 | | ];
    try discriminate.
  - destruct (choice =? 0); [ discriminate | ].
    destruct (choice =? 1); [ discriminate | ].
    destruct (choice =? 2); [ | inversion Hrun; reflexivity ].
    cbv beta in Hrun. unfold input in Hrun.
    destruct (lines _) as [ | [waited line] rest ]; [ discriminate | ].
    destruct (json_loads (strip line)); cbv beta in Hrun; discriminate.
  - inversion Hrun; congruence.
Qed.

(** Moving down to the fourth option, or past it, and pressing enter leaves
    the process. *)
Lemma handle_interrupt_input_exit_choice (num_actions : Z) w (downs : list Z)
    (waited : Z) (rest : list (Z * key)) :
  keys w = (map (fun d => (d, KDown)) downs ++ (waited, KEnter) :: rest)%list ->
  (3 <= List.length downs)%nat ->
  exists w',
    DeepagentCode.handle_interrupt_input num_actions w = Exited 0 w'
    /\ keys w' = rest.
Proof.
  intros Hkeys Hdowns.
  destruct (select_loop_downs downs
              (S (List.length (keys (log (ECollect (PInt num_actions)) w))))
              4 0 (log (ECollect (PInt num_actions)) w) waited rest)
    as [w1 [Hsel Hrest]].
  - exact Hkeys.
  - cbn [log keys]. rewrite Hkeys, List.length_app, List.length_map. simpl. lia.
  - lia.
  - rewrite Z.min_r in Hsel by lia.
    pose proof (handle_interrupt_input_paths num_actions w) as Hpaths.
    unfold DeepagentCode.select_option in Hpaths.
    change (Z.of_nat (List.length DeepagentCode.options)) with 4 in Hpaths.
    change (4 - 1) with 3 in Hsel.
    rewrite Hsel in Hpaths. simpl in Hpaths.
    exists w1. split; assumption.
Qed.

End ExitFacts.

(** X10.  Choosing Exit in the Decision Collector of deepagent_code ends
    the turn at once with exit code 0: whenever the collector leaves the
    process it does so with code 0, a turn whose collector leaves the
    process leaves it the same way without invoking the engine again, and
    moving down three times or more before pressing enter is such a
    choice. *)
Theorem collector_exit_ends_turn
    (G : Type) (R : DeepagentCode.Renderer) (J : Json)
    (stream : G -> agent_input -> option pyval -> string -> stream_result G)
    (fuel : nat) (i : agent_input) (config : option pyval) (verbose : bool)
    (stream_mode : string) (w w2 : world G) (st : DeepagentCode.turn_state)
    (code : Z) :
  scan verbose DeepagentCode.fresh (chunks (stream (graph w) i config stream_mode))
  = inr st ->
  DeepagentCode.has_interrupt st = true ->
  DeepagentCode.handle_interrupt_input (DeepagentCode.num_pending_actions st)
    (streamed i verbose (stream (graph w) i config stream_mode) w)
  = Exited code w2 ->
  DeepagentCode.turn_loop stream (S fuel) i config true verbose stream_mode w
  = Exited 0 w2
  /\ (exists evs,
         trace w2 = (trace w ++ evs)%list /\ invocations evs = [i])
  /\ (forall (downs : list Z) (waited : Z) (rest : list (Z * key)),
         keys w = (map (fun d => (d, KDown)) downs ++ (waited, KEnter) :: rest)%list ->
         (3 <= List.length downs)%nat ->
         code = 0 /\ keys w2 = rest).
Proof.
  intros Hscan Hint Hexit.
  pose proof (handle_interrupt_input_exit_code _ _ _ _ Hexit) as Hcode. subst code.
  split; [ | split ].
  - rewrite turn_loop_unfold. cbv zeta. rewrite Hscan, Hint, Hexit. reflexivity.
  - destruct (handle_interrupt_input_grows
                (DeepagentCode.num_pending_actions st)
                (streamed i verbose (stream (graph w) i config stream_mode) w))
      as [ops [Ht [Hops _]]].
    rewrite Hexit in Ht. cbn [final_world] in Ht.
    exists (pass_events i verbose (stream (graph w) i config stream_mode)
              ++ ECollect (PInt (DeepagentCode.num_pending_actions st)) :: ops)%list.
    split.
    + rewrite Ht. unfold streamed, log. cbn [trace].
      rewrite <- !app_assoc. reflexivity.
    + rewrite invocations_app.
      destruct (pass_events_invocations (G := G) i verbose
                  (stream (graph w) i config stream_mode)) as [Hinv _].
      rewrite Hinv. cbn [invocations].
      rewrite quiet_invocations
        by (eapply forallb_weaken; [ apply operator_quiet | exact Hops ]).
      reflexivity.
  - intros downs waited rest Hkeys Hdowns. split; [ reflexivity | ].
    destruct (handle_interrupt_input_exit_choice
                (DeepagentCode.num_pending_actions st)
                (streamed i verbose (stream (graph w) i config stream_mode) w)
                downs waited rest Hkeys Hdowns) as [w' [Hrun Hrest]].
    rewrite Hexit in Hrun. inversion Hrun; subst. reflexivity.
Qed.

Lemma collector_exit_ends_turn_witness :
  exists w2,
    DeepagentCode.turn_loop (R := Demo.deepagent_renderer) (J := Demo.tiny_json)
      (DeepagentCode.stream_graph_updates
         (Engine := Demo.deepagent_engine Demo.two_actions))
      3 (user_message "go") None true false "updates"
      (Demo.start [(1, KDown); (1, KDown); (1, KDown); (1, KEnter)] [] [])
    = Exited 0 w2
    /\ keys w2 = [].
Proof.
  pose (stream := DeepagentCode.stream_graph_updates
                    (Engine := Demo.deepagent_engine Demo.two_actions)).
  pose (w := Demo.start
               [(1, KDown); (1, KDown); (1, KDown); (1, KEnter)] [] []).
  pose (w2 := final_world
                (DeepagentCode.handle_interrupt_input (J := Demo.tiny_json) 2
                   (streamed (R := Demo.deepagent_renderer) (user_message "go") false
                      (stream (graph w) (user_message "go") None "updates") w))).
  exists w2.
  assert (Hscan : scan (R := Demo.deepagent_renderer) false DeepagentCode.fresh
                    (chunks (stream (graph w) (user_message "go") None "updates"))
                  = inr (DeepagentCode.mkTurn true 2 false))
    by (vm_compute; reflexivity).
  assert (Hexit : DeepagentCode.handle_interrupt_input (J := Demo.tiny_json)
                    (DeepagentCode.num_pending_actions
                       (DeepagentCode.mkTurn true 2 false))
                    (streamed (R := Demo.deepagent_renderer) (user_message "go") false
                       (stream (graph w) (user_message "go") None "updates") w)
                  = Exited 0 w2)
    by (vm_compute; reflexivity).
  destruct (collector_exit_ends_turn nat Demo.deepagent_renderer Demo.tiny_json
              stream 2 (user_message "go") None false "updates" w w2
              (DeepagentCode.mkTurn true 2 false) 0 Hscan eq_refl Hexit)
    as [Hturn [_ Hkeys]].
  split; [ exact Hturn | ].
  apply (Hkeys [1; 1; 1] 1 []); [ reflexivity | simpl; lia ].
Defined.

(* ================================================================== *)
(** ** The Decision Collector of langgraph_utils_cli *)

Section GraphCollector.
Context {G : Type} {J : Json}.
Implicit Types (w : world G).

(** Any number but 1, 2 and 3 leaves the process with code 0, and no line
    is read. *)
Lemma graph_handle_interrupt_input_exit (d : pydict) w (waited n : Z)
    (rest : list (Z * Z)) :
  numbers w = (waited, n) :: rest ->
  n <> 1 -> n <> 2 -> n <> 3 ->
  exists w',
    LanggraphUtilsCli.handle_interrupt_input (PDict d) w = Exited 0 w'
    /\ numbers w' = rest /\ lines w' = lines w
    /\ collector_calls (trace w') = (collector_calls (trace w) ++ [PDict d])%list.
Proof.
  intros Hnum H1 H2 H3.
  unfold LanggraphUtilsCli.handle_interrupt_input, bind, emit, lift,
    get_method, ret, click_prompt_int, sys_exit.
  cbn [numbers log]. rewrite Hnum.
  apply Z.eqb_neq in H1, H2, H3. rewrite H1, H2, H3.
  eexists. split; [ reflexivity | ]. split; [ reflexivity | ].
  split; [ reflexivity | ].
  unfold log. cbn [trace]. rewrite <- !app_assoc.
  rewrite collector_calls_app. reflexivity.
Qed.

(** The collector leaves the process in no other way. *)
Lemma graph_handle_interrupt_input_exit_only (d : pydict) w (code : Z)
    (w' : world G) :
  LanggraphUtilsCli.handle_interrupt_input (PDict d) w = Exited code w' ->
  code = 0
  /\ exists waited n rest,
       numbers w = (waited, n) :: rest /\ n <> 1 /\ n <> 2 /\ n <> 3.
Proof.
  intros Hrun.
  destruct (numbers w) as [ | [waited n] rest ] eqn:Hnum.
  { exfalso. revert Hrun.
    unfold LanggraphUtilsCli.handle_interrupt_input.
    cbv beta iota delta [bind emit lift ret get_method click_prompt_int].
    cbn [log numbers lines now graph keys trace].
    rewrite Hnum. discriminate. }
  destruct (Z.eq_dec n 1) as [H1 | H1].
  { exfalso. rewrite (graph_handle_interrupt_input_bulk d w waited n rest Hnum
                        (or_introl H1)) in Hrun. discriminate. }
  destruct (Z.eq_dec n 2) as [H2 | H2].
  { exfalso. rewrite (graph_handle_interrupt_input_bulk d w waited n rest Hnum
                        (or_intror H2)) in Hrun. discriminate. }
  destruct (Z.eq_dec n 3) as [H3 | H3].
  { exfalso. subst n.
    destruct (lines w) as [ | [asked line] more ] eqn:Hlines.
    - revert Hrun.
      unfold LanggraphUtilsCli.handle_interrupt_input.
      cbv beta iota delta [bind emit lift ret get_method click_prompt_int
                           click_prompt_str].
      cbn [log numbers lines now graph keys trace].
      rewrite Hnum. cbv beta iota.
      change (3 =? 1) with false. change (3 =? 2) with false.
      change (3 =? 3) with true. cbv beta iota.
      cbn [log numbers lines now graph keys trace].
      rewrite Hlines. discriminate.
    - rewrite (graph_handle_interrupt_input_custom d w waited asked line rest
                 more Hnum Hlines) in Hrun.
      destruct (json_loads line); discriminate. }
  destruct (graph_handle_interrupt_input_exit d w waited n rest Hnum H1 H2 H3)
    as [w'' [Hexit _]].
  rewrite Hexit in Hrun. inversion Hrun.
  split; [ reflexivity | ]. exists waited, n, rest. auto.
Qed.

End GraphCollector.

(** X11.  The Decision Collector of langgraph_utils_cli, handed the data of
    an interrupt, leaves the process exactly when the operator answers the
    menu with a number other than 1, 2 and 3, and then with exit code 0: it
    was entered once, the number was read and no line of JSON. *)
Theorem graph_collector_exit_choice
    (G : Type) (J : Json) (d : pydict) (w : world G)
    (waited n : Z) (rest : list (Z * Z)) :
  numbers w = (waited, n) :: rest ->
  (n <> 1 -> n <> 2 -> n <> 3 ->
   exists w',
     LanggraphUtilsCli.handle_interrupt_input (PDict d) w = Exited 0 w'
     /\ numbers w' = rest /\ lines w' = lines w
     /\ collector_calls (trace w') = (collector_calls (trace w) ++ [PDict d])%list)
  /\ (forall code w',
         LanggraphUtilsCli.handle_interrupt_input (PDict d) w = Exited code w' ->
         code = 0 /\ n <> 1 /\ n <> 2 /\ n <> 3).
Proof.
  intros Hnum. split.
  - exact (graph_handle_interrupt_input_exit d w waited n rest Hnum).
  - intros code w' Hrun.
    destruct (graph_handle_interrupt_input_exit_only d w code w' Hrun)
      as [Hcode [waited' [n' [rest' [Hnum' Hn]]]]].
    rewrite Hnum in Hnum'. inversion Hnum'; subst. auto.
Qed.

Lemma graph_collector_exit_choice_witness :
  exists w',
    LanggraphUtilsCli.handle_interrupt_input (J := Demo.tiny_json)
      (payload [Demo.write_file; Demo.delete_file] [])
      (Demo.start [] [(2, "{}")] [(1, 7)])
    = Exited 0 w'
    /\ lines w' = [(2, "{}")].
Proof.
  destruct (graph_collector_exit_choice nat Demo.tiny_json
              [("action_requests", PList [Demo.write_file; Demo.delete_file]);
               ("review_configs", PList [])]
              (Demo.start [] [(2, "{}")] [(1, 7)]) 1 7 [] eq_refl)
    as [Hexit _].
  destruct Hexit as [w' [Hrun [_ [Hlines _]]]]; try lia.
  exists w'. split; assumption.
Defined.

Section QuietStreams.
Context {G : Type} {D : DeepagentCode.Engine G}
        {RD : DeepagentCode.Renderer} {J : Json}.
Implicit Types (w : world G).

Lemma turn_loop_no_interrupt
    (stream : G -> agent_input -> option pyval -> string -> stream_result G)
    (fuel : nat) (i : agent_input) (config : option pyval)
    (interactive verbose : bool) (stream_mode : string) w :
  let r := stream (graph w) i config stream_mode in
  renders verbose (chunks r) = true ->
  forallb (fun c => negb (is_interrupt c)) (chunks r) = true ->
  match DeepagentCode.turn_loop stream (S fuel) i config interactive verbose
          stream_mode w with
  | Done _ w' => Done (now w' - now w) w'
  | Raised e w' => Raised e w'
  | Exited c w' => Exited c w'
  | Starved w' => Starved w'
  | OutOfFuel w' => OutOfFuel w'
  end = Done (took r) (streamed i verbose r w).
Proof.
  intros r Hr Hno. rewrite turn_loop_unfold. cbv zeta. fold r.
  destruct (scan_no_interrupt verbose (chunks r) DeepagentCode.fresh Hr Hno)
    as [first Hscan].
  rewrite Hscan. cbn [DeepagentCode.has_interrupt DeepagentCode.fresh andb].
  f_equal. unfold streamed. cbn [now]. lia.
Qed.

End QuietStreams.

(** X12.  A stream without interrupt chunk ends a turn of deepagent_code
    whatever [interactive] is: on a stream the renderer can draw, both
    drivers invoke the engine once and return the time that invocation
    took, without calling the Decision Collector or asking the operator. *)
Theorem stream_without_interrupt_ends_turn
    (G : Type) (D : DeepagentCode.Engine G) (RD : DeepagentCode.Renderer)
    (J : Json) (fuel : nat) (message : string) (config : option pyval)
    (interactive verbose : bool) (stream_mode : string) (w : world G) :
  let i := user_message message in
  let sync := DeepagentCode.stream_graph_updates (graph w) i config stream_mode in
  let async := DeepagentCode.astream_graph_updates (graph w) i config stream_mode in
  let quiet_stream := forallb (fun c => negb (is_interrupt c)) in
  (renders verbose (chunks sync) = true -> quiet_stream (chunks sync) = true ->
   DeepagentCode.run_single_turn_sync (S fuel) message config interactive
     verbose stream_mode w
   = Done (took sync) (streamed i verbose sync w))
  /\ (renders verbose (chunks async) = true -> quiet_stream (chunks async) = true ->
      DeepagentCode.run_single_turn_async (S fuel) message config interactive
        verbose stream_mode w
      = Done (took async) (streamed i verbose async w)).
Proof.
  intros i sync async quiet_stream.
  rewrite run_single_turn_sync_unfold, run_single_turn_async_unfold.
  split.
  - apply (turn_loop_no_interrupt DeepagentCode.stream_graph_updates).
  - apply (turn_loop_no_interrupt DeepagentCode.astream_graph_updates).
Qed.

Lemma stream_without_interrupt_ends_turn_witness :
  DeepagentCode.run_single_turn_sync
    (E := Demo.deepagent_engine Demo.two_actions)
    (R := Demo.deepagent_renderer) (J := Demo.tiny_json)
    1 "go" None true false "updates"
    (mkWorld 100 1%nat [(2, KEnter)] [] [] [])
  = Done 7
      (mkWorld 107 2%nat [(2, KEnter)] [] []
         [ESpinnerStart; EStream (user_message "go") 7; ESpinnerStop;
          EPrintChunk Demo.text_chunk false;
          EPrintChunk Demo.complete_chunk false]).
Proof.
  destruct (stream_without_interrupt_ends_turn nat
              (Demo.deepagent_engine Demo.two_actions)
              Demo.deepagent_renderer Demo.tiny_json
              0 "go" None true false "updates"
              (mkWorld 100 1%nat [(2, KEnter)] [] [] []))
    as [Hsync _].
  rewrite Hsync; reflexivity.
Defined.

(* ================================================================== *)
(** ** Streams that cannot be consumed to their end *)

Section BrokenStreams.
Context {G : Type} {R : DeepagentCode.Renderer} {J : Json}.
Implicit Types (w : world G).

(** A chunk on which the loop body raises ends the pass: the chunks before
    it and the chunk itself went to the renderer, none after it. *)
Lemma scan_raises (verbose : bool) (pre post : list pydict) (chunk : pydict)
    (e : exn) :
  forall st st1,
    scan verbose st pre = inr st1 ->
    step verbose st1 chunk = inl e ->
    scan verbose st (pre ++ chunk :: post) = inl e
    /\ printed (stream_events verbose st (pre ++ chunk :: post))
       = (pre ++ [chunk])%list.
Proof.
  induction pre as [ | c pre IH ]; intros st st1 Hpre Hstep.
  - simpl in Hpre. inversion Hpre; subst st1. simpl. rewrite Hstep.
    split; [ reflexivity | ].
    rewrite printed_app. destruct (DeepagentCode.first_chunk st); reflexivity.
  - simpl in Hpre. simpl.
    destruct (step verbose st c) as [ e' | st' ]; [ discriminate | ].
    destruct (IH st' st1 Hpre Hstep) as [Hscan Hprinted].
    split; [ exact Hscan | ].
    rewrite printed_app. cbn [printed]. rewrite Hprinted.
    destruct (DeepagentCode.first_chunk st); reflexivity.
Qed.

(** Counting the pending actions of an interrupt chunk whose payload is
    neither a dict nor an object raises. *)
Lemma step_malformed (verbose : bool) (st : DeepagentCode.turn_state)
    (chunk : pydict) :
  is_interrupt chunk = true ->
  match get chunk "interrupt" (PDict []) with
  | PDict _ | PObj _ => False
  | _ => True
  end ->
  exists e,
    step verbose st chunk = inl e
    /\ (DeepagentCode.print_chunk_error chunk verbose = None ->
        e = AttributeError).
Proof.
  intros Hi Hpayload. unfold step. unfold is_interrupt in Hi.
  destruct (DeepagentCode.print_chunk_error chunk verbose) as [ e | ].
  - exists e. split; [ reflexivity | discriminate ].
  - rewrite Hi. unfold DeepagentCode.pending_actions. cbv zeta.
    destruct (get chunk "interrupt" (PDict [])); try contradiction;
      (exists AttributeError; split; [ reflexivity | reflexivity ]).
Qed.

End BrokenStreams.

(** X14.  An interrupt chunk whose payload is not a mapping (None, a
    number, a string, a list) makes a turn of deepagent_code raise,
    interactive or not: the engine was invoked once, the chunks up to that
    one went to the renderer and none after it, the Decision Collector is
    not called and the operator is not asked.  When the renderer drew the
    chunk the exception is the AttributeError of the count of pending
    actions. *)
Theorem malformed_interrupt_payload_raises
    (G : Type) (R : DeepagentCode.Renderer) (J : Json)
    (stream : G -> agent_input -> option pyval -> string -> stream_result G)
    (fuel : nat) (i : agent_input) (config : option pyval)
    (interactive verbose : bool) (stream_mode : string) (w : world G)
    (pre post : list pydict) (chunk : pydict) :
  chunks (stream (graph w) i config stream_mode) = (pre ++ chunk :: post)%list ->
  renders verbose pre = true ->
  countable pre = true ->
  is_interrupt chunk = true ->
  match get chunk "interrupt" (PDict []) with
  | PDict _ | PObj _ => False
  | _ => True
  end ->
  exists e w',
    DeepagentCode.turn_loop stream (S fuel) i config interactive verbose
      stream_mode w
    = Raised e w'
    /\ (DeepagentCode.print_chunk_error chunk verbose = None ->
        e = AttributeError)
    /\ (exists evs,
           trace w' = (trace w ++ evs)%list
           /\ invocations evs = [i]
           /\ collector_calls evs = []
           /\ printed evs = (pre ++ [chunk])%list)
    /\ keys w' = keys w /\ lines w' = lines w.
Proof.
  intros Hchunks Hr Hc Hi Hpayload.
  destruct (scan_countable verbose pre DeepagentCode.fresh Hr Hc) as [st1 Hst1].
  destruct (step_malformed verbose st1 chunk Hi Hpayload) as [e [Hstep He]].
  destruct (scan_raises verbose pre post chunk e _ _ Hst1 Hstep)
    as [Hscan Hprinted].
  set (r := stream (graph w) i config stream_mode) in *.
  exists e, (streamed i verbose r w).
  split; [ | split; [ exact He | split; [ | split; reflexivity ] ] ].
  - rewrite turn_loop_unfold. cbv zeta. fold r. rewrite Hchunks, Hscan.
    reflexivity.
  - exists (pass_events i verbose r).
    destruct (pass_events_invocations (G := G) i verbose r) as [Hinv Hcalls].
    split; [ reflexivity | ]. split; [ exact Hinv | ]. split; [ exact Hcalls | ].
    unfold pass_events. cbn [printed]. rewrite printed_app.
    rewrite Hchunks, Hprinted.
    destruct pre; simpl; try rewrite app_nil_r; reflexivity.
Qed.

Lemma malformed_interrupt_payload_raises_witness :
  exists w',
    DeepagentCode.turn_loop (R := Demo.deepagent_renderer) (J := Demo.tiny_json)
      (DeepagentCode.stream_graph_updates
         (Engine := Demo.deepagent_engine Bench.broken_interrupt))
      1 (user_message "go") None true false "updates"
      (Demo.start [(1, KEnter)] [] [])
    = Raised AttributeError w'
    /\ keys w' = [(1, KEnter)].
Proof.
  destruct (malformed_interrupt_payload_raises nat Demo.deepagent_renderer
              Demo.tiny_json
              (DeepagentCode.stream_graph_updates
                 (Engine := Demo.deepagent_engine Bench.broken_interrupt))
              0 (user_message "go") None true false "updates"
              (Demo.start [(1, KEnter)] [] [])
              [Demo.text_chunk] [Demo.complete_chunk]
              [("status", PStr "interrupt"); ("interrupt", PNone)]
              eq_refl eq_refl eq_refl eq_refl I)
    as [e [w' [Hrun [He [_ [Hkeys _]]]]]].
  exists w'. rewrite (He eq_refl) in Hrun. split; assumption.
Defined.

(* ================================================================== *)
(** ** The thread identifier of a conversation *)

Section ThreadFacts.
Import DeepagentCodeLoop.

Lemma lookup_set_item (d : pydict) (key : string) (v : pyval) :
  lookup key (set_item d key v) = Some v.
Proof.
  induction d as [ | [k x] rest IH ]; simpl.
  - rewrite String.eqb_refl. reflexivity.
  - destruct (String.eqb k key) eqn:Hk; simpl; rewrite Hk; [ reflexivity | exact IH ].
Qed.

Lemma lookup_set_item_other (d : pydict) (key other : string) (v : pyval) :
  other <> key ->
  lookup other (set_item d key v) = lookup other d.
Proof.
  intros Hne. induction d as [ | [k x] rest IH ]; simpl.
  - destruct (String.eqb key other) eqn:Hk; [ | reflexivity ].
    apply String.eqb_eq in Hk. congruence.
  - destruct (String.eqb k key) eqn:Hk; simpl.
    + apply String.eqb_eq in Hk. subst k.
      destruct (String.eqb key other) eqn:Ho; [ | reflexivity ].
      apply String.eqb_eq in Ho. congruence.
    + destruct (String.eqb k other); [ reflexivity | exact IH ].
Qed.

Lemma set_thread_id_spec (config : pyval) (id : string) (config' : pyval) :
  set_thread_id config id = inr config' ->
  exists d c,
    config = PDict d
    /\ lookup "configurable" d = Some (PDict c)
    /\ config' = PDict (set_item d "configurable"
                          (PDict (set_item c "thread_id" (PStr id)))).
Proof.
  unfold set_thread_id. destruct config as [ | | | | | | d | ]; try discriminate.
  destruct (lookup "configurable" d) as [ [ | | | | | | c | ] | ] eqn:Hc;
    try discriminate.
  intros H. inversion H. eauto.
Qed.

Lemma thread_id_set_item (d c : pydict) :
  thread_id (PDict (set_item d "configurable" (PDict c))) = lookup "thread_id" c.
Proof. unfold thread_id. rewrite lookup_set_item. reflexivity. Qed.

Lemma set_thread_id_dict (d c : pydict) (id : string) :
  lookup "configurable" d = Some (PDict c) ->
  set_thread_id (PDict d) id
  = inr (PDict (set_item d "configurable"
                  (PDict (set_item c "thread_id" (PStr id))))).
Proof. intros Hc. unfold set_thread_id. rewrite Hc. reflexivity. Qed.

Lemma ensure_thread_id_no_configurable (d : pydict) (fresh : string) :
  lookup "configurable" d = None ->
  ensure_thread_id (PDict d) fresh
  = inr (PDict (set_item (set_item d "configurable" (PDict [])) "configurable"
                  (PDict [("thread_id", PStr fresh)]))).
Proof.
  intros Hc. unfold ensure_thread_id, not_in. rewrite Hc.
  cbv beta iota. rewrite lookup_set_item. cbn [lookup].
  rewrite (set_thread_id_dict _ [] fresh) by apply lookup_set_item.
  reflexivity.
Qed.

Lemma ensure_thread_id_configurable (d c : pydict) (fresh : string) :
  lookup "configurable" d = Some (PDict c) ->
  ensure_thread_id (PDict d) fresh
  = match lookup "thread_id" c with
    | Some _ => inr (PDict d)
    | None => inr (PDict (set_item d "configurable"
                            (PDict (set_item c "thread_id" (PStr fresh)))))
    end.
Proof.
  intros Hc. unfold ensure_thread_id, not_in. rewrite Hc.
  cbv beta iota. rewrite Hc.
  destruct (lookup "thread_id" c); [ reflexivity | ].
  apply set_thread_id_dict. exact Hc.
Qed.

End ThreadFacts.

(** X15.  The "/c" assignment of the conversation loop, when it succeeds,
    changes the thread identifier and nothing else: the new config carries
    the new identifier, every other entry of the config and every other
    entry of its "configurable" is as before.  It succeeds exactly on a
    config that is a dict whose "configurable" is a dict. *)
Theorem set_thread_id_changes_only_the_thread (config : pyval) (id : string) :
  match DeepagentCodeLoop.set_thread_id config id with
  | inr config' =>
      DeepagentCodeLoop.thread_id config' = Some (PStr id)
      /\ (exists d c d' c',
             config = PDict d /\ lookup "configurable" d = Some (PDict c)
             /\ config' = PDict d' /\ lookup "configurable" d' = Some (PDict c')
             /\ (forall key, key <> "configurable" -> lookup key d' = lookup key d)
             /\ (forall key, key <> "thread_id" -> lookup key c' = lookup key c))
  | inl e =>
      (e = KeyError \/ e = TypeError)
      /\ forall d c, config = PDict d -> lookup "configurable" d <> Some (PDict c)
  end.
Proof.
  destruct (DeepagentCodeLoop.set_thread_id config id) as [ e | config' ] eqn:Hset.
  - unfold DeepagentCodeLoop.set_thread_id in Hset.
    destruct config as [ | | | | | | d | ];
      try (inversion Hset; split; [ right; reflexivity | discriminate ]).
    destruct (lookup "configurable" d) as [ [ | | | | | | c | ] | ] eqn:Hc;
      try discriminate;
      inversion Hset; (split; [ auto | ]);
      intros d0 c0 Hd; inversion Hd; subst d0; rewrite Hc; discriminate.
  - destruct (set_thread_id_spec config id config' Hset) as [d [c [Hd [Hc Hnew]]]].
    subst config config'. split.
    + unfold DeepagentCodeLoop.thread_id.
      rewrite lookup_set_item, lookup_set_item. reflexivity.
    + exists d, c, (DeepagentCodeLoop.set_item d "configurable"
                      (PDict (DeepagentCodeLoop.set_item c "thread_id" (PStr id)))),
        (DeepagentCodeLoop.set_item c "thread_id" (PStr id)).
      split; [ reflexivity | ]. split; [ exact Hc | ]. split; [ reflexivity | ].
      split; [ apply lookup_set_item | ].
      split; intros key Hkey; apply lookup_set_item_other; exact Hkey.
Qed.

(** X16.  The lines of [main] that prepare the config leave a config the
    loop can work with: for no config at all, or a dict whose
    "configurable", if any, is a dict, they succeed; a thread identifier
    that was given is kept and the config is then unchanged, a missing one
    is the fresh identifier; and on the result the "/c" assignment of the
    loop never raises. *)
Theorem ensure_thread_id_prepares_the_loop (config_dict : pyval)
    (fresh : string) :
  match config_dict with
  | PNone => True
  | PDict d =>
      match lookup "configurable" d with
      | None | Some (PDict _) => True
      | Some _ => False
      end
  | _ => False
  end ->
  exists config,
    DeepagentCodeLoop.ensure_thread_id config_dict fresh = inr config
    /\ DeepagentCodeLoop.thread_id config
       = Some (match DeepagentCodeLoop.thread_id config_dict with
               | Some given => given
               | None => PStr fresh
               end)
    /\ (DeepagentCodeLoop.thread_id config_dict <> None -> config = config_dict)
    /\ forall id, exists config',
         DeepagentCodeLoop.set_thread_id config id = inr config'
         /\ DeepagentCodeLoop.thread_id config' = Some (PStr id).
Proof.
  intros Hwf.
  assert (Hclear : forall d c,
             lookup "configurable" d = Some (PDict c) ->
             forall id, exists config',
               DeepagentCodeLoop.set_thread_id (PDict d) id = inr config'
               /\ DeepagentCodeLoop.thread_id config' = Some (PStr id)).
  { intros d c Hc id. rewrite (set_thread_id_dict d c id Hc).
    eexists. split; [ reflexivity | ].
    rewrite thread_id_set_item. apply lookup_set_item. }
  destruct config_dict as [ | | | | | | d | ]; try contradiction.
  - eexists. split; [ vm_compute; reflexivity | ].
    split; [ reflexivity | ]. split; [ intros H; contradiction H; reflexivity | ].
    apply (Hclear _ [("thread_id", PStr fresh)]). reflexivity.
  - destruct (lookup "configurable" d) as [ [ | | | | | | c | ] | ] eqn:Hc;
      try contradiction.
    + rewrite (ensure_thread_id_configurable d c fresh Hc).
      assert (Hgiven : DeepagentCodeLoop.thread_id (PDict d) = lookup "thread_id" c)
        by (unfold DeepagentCodeLoop.thread_id; rewrite Hc; reflexivity).
      rewrite Hgiven.
      destruct (lookup "thread_id" c) as [ given | ] eqn:Ht.
      * exists (PDict d). split; [ reflexivity | ].
        split; [ rewrite Hgiven; reflexivity | ]. split; [ reflexivity | ].
        apply (Hclear d c Hc).
      * eexists. split; [ reflexivity | ].
        rewrite thread_id_set_item, lookup_set_item.
        split; [ reflexivity | ]. split; [ intros H; contradiction H; reflexivity | ].
        eapply Hclear. apply lookup_set_item.
    + rewrite (ensure_thread_id_no_configurable d fresh Hc).
      assert (Hgiven : DeepagentCodeLoop.thread_id (PDict d) = None)
        by (unfold DeepagentCodeLoop.thread_id; rewrite Hc; reflexivity).
      rewrite Hgiven.
      eexists. split; [ reflexivity | ].
      rewrite thread_id_set_item.
      split; [ reflexivity | ]. split; [ intros H; contradiction H; reflexivity | ].
      eapply Hclear. apply lookup_set_item.
Qed.

Lemma ensure_thread_id_prepares_the_loop_witness :
  exists config,
    DeepagentCodeLoop.ensure_thread_id
      (PDict [("recursion_limit", PInt 50)]) "id-0" = inr config
    /\ DeepagentCodeLoop.thread_id config = Some (PStr "id-0").
Proof.
  destruct (ensure_thread_id_prepares_the_loop
              (PDict [("recursion_limit", PInt 50)]) "id-0" I)
    as [config [Hrun [Hid _]]].
  exists config. split; assumption.
Defined.

(* ================================================================== *)
(** ** One iteration of the conversation loop *)

Section LoopFacts.
Context {G : Type} {E : DeepagentCode.Engine G} {R : DeepagentCode.Renderer}
        {J : Json} {S : DeepagentCodeLoop.Screen}.
Import DeepagentCodeLoop Dialogue.
Implicit Types (w : world G).

Lemma is_quit_nonempty (user_input : string) :
  is_quit user_input = true ->
  String.eqb user_input EmptyString = false.
Proof.
  destruct user_input; [ discriminate | reflexivity ].
Qed.

(** A turn of the loop is a turn loop between two readings of the clock,
    with its timing lines after it. *)
Lemma run_turn_unfold (fuel : nat) (message : string) (config : pyval)
    (use_async interactive verbose : bool) (stream_mode : string) w :
  run_turn fuel message config use_async interactive verbose stream_mode w
  = match DeepagentCode.turn_loop (stream_of use_async) fuel
            (user_message message) (Some config) interactive verbose
            stream_mode w with
    | Done _ w' => Done tt (add_events w' (timing_lines (now w' - now w) verbose))
    | Raised e w' => Raised e w'
    | Exited c w' => Exited c w'
    | Starved w' => Starved w'
    | OutOfFuel w' => OutOfFuel w'
    end.
Proof.
  unfold run_turn, stream_of. unfold bind at 1.
  destruct use_async;
    [ rewrite run_single_turn_async_unfold | rewrite run_single_turn_sync_unfold ];
    (destruct (DeepagentCode.turn_loop _ _ _ _ _ _ _ _) as [ [] w' | | | | ];
     [ | reflexivity .. ]);
    unfold print_timing, timing_lines, bind, emit, add_events, log;
    destruct verbose; cbn [trace now graph keys lines numbers append];
    rewrite <- app_assoc; reflexivity.
Qed.

Lemma body_eof (fuel : nat) (use_async interactive verbose : bool)
    (stream_mode : string) (vars : loop_vars) w :
  lines w = [] ->
  body fuel use_async interactive verbose stream_mode vars w
  = Raised EOFError (log (EPrint separator) w).
Proof.
  intros Hlines. unfold body. unfold bind at 1. unfold emit at 1.
  unfold bind at 1. unfold input. cbn [lines log]. rewrite Hlines. reflexivity.
Qed.

(** Reading the line: what is left of the body runs after the prompt. *)
Lemma body_read (fuel : nat) (use_async interactive verbose : bool)
    (stream_mode : string) (vars : loop_vars) w (waited : Z) (line : string)
    (rest : list (Z * string)) :
  lines w = (waited, line) :: rest ->
  body fuel use_async interactive verbose stream_mode vars w
  = (let user_input := strip line in
     if String.eqb user_input EmptyString then ret (Continue vars)
     else if is_quit user_input then ret Break
     else if String.eqb user_input "/c" then
       match set_thread_id (config vars) (uuid4 (uuids vars)) with
       | inl err => on_error err (mkLoop (config vars) (Datatypes.S (uuids vars)))
       | inr config' =>
           bind (emit (EPrint (bullet ++ " Cleared conversation")))
                (fun _ => ret (Continue (mkLoop config' (Datatypes.S (uuids vars)))))
       end
     else if is_help user_input then
       bind (emit (EPrint (String newline "Commands:")))
         (fun _ => bind (emit (EPrint "  /q, /quit, exit  - Exit"))
         (fun _ => bind (emit (EPrint "  /c               - Clear conversation"))
         (fun _ => bind (emit (EPrint ("  /h, /help        - Show this help"
                                       ++ String newline EmptyString)))
         (fun _ => ret (Continue vars)))))
     else
       bind (run_turn fuel user_input (config vars) use_async interactive
               verbose stream_mode)
            (fun _ => ret (Continue vars)))
      (after_prompt w waited line rest).
Proof.
  intros Hlines. unfold body. unfold bind at 1. unfold emit at 1.
  unfold bind at 1. unfold input. cbn [lines log]. rewrite Hlines.
  cbv zeta. unfold bind at 1. unfold emit at 1.
  unfold after_prompt, log. cbn [now graph keys lines numbers trace].
  rewrite <- !app_assoc. reflexivity.
Qed.

(** The lines the loop answers itself do not reach the engine. *)
Lemma iteration_command (fuel : nat) (use_async interactive verbose : bool)
    (stream_mode : string) (vars : loop_vars) w (waited : Z) (line : string)
    (rest : list (Z * string)) :
  lines w = (waited, line) :: rest ->
  is_command (strip line) = true ->
  exists next prints,
    iteration fuel use_async interactive verbose stream_mode vars w
    = Done next (add_events (after_prompt w waited line rest)
                   (map EPrint prints))
    /\ (next = Break <-> is_quit (strip line) = true)
    /\ (strip line <> "/c" -> next <> Break -> next = Continue vars).
Proof.
  intros Hlines Hcmd. unfold iteration.
  rewrite (body_read _ _ _ _ _ _ _ _ _ _ Hlines). cbv zeta.
  unfold is_command in Hcmd.
  destruct (String.eqb (strip line) EmptyString) eqn:Hempty.
  { exists (Continue vars), []. cbn [map]. rewrite add_events_nil.
    split; [ reflexivity | ]. apply String.eqb_eq in Hempty. rewrite Hempty.
    split; [ split; discriminate | auto ]. }
  destruct (is_quit (strip line)) eqn:Hquit.
  { exists Break, []. cbn [map]. rewrite add_events_nil.
    split; [ reflexivity | ]. split; [ split; reflexivity | ].
    intros _ H. contradiction H. reflexivity. }
  destruct (String.eqb (strip line) "/c") eqn:Hclear.
  { apply String.eqb_eq in Hclear.
    destruct (set_thread_id (config vars) (uuid4 (uuids vars))) as [ err | config' ].
    - exists (Continue (mkLoop (config vars) (Datatypes.S (uuids vars)))),
        [bullet ++ " Error: " ++ str_of_exn err].
      split; [ reflexivity | ]. split; [ split; discriminate | ].
      intros H. contradiction.
    - exists (Continue (mkLoop config' (Datatypes.S (uuids vars)))),
        [bullet ++ " Cleared conversation"].
      split; [ reflexivity | ]. split; [ split; discriminate | ].
      intros H. contradiction. }
  simpl in Hcmd. rewrite Hcmd.
  exists (Continue vars),
    [String newline "Commands:"; "  /q, /quit, exit  - Exit";
     "  /c               - Clear conversation";
     "  /h, /help        - Show this help" ++ String newline EmptyString].
  split; [ | split; [ split; discriminate | auto ] ].
  unfold bind, emit, ret, add_events, log. cbn [map trace now graph keys lines numbers].
  rewrite <- !app_assoc. reflexivity.
Qed.

(** Any other line is handed, stripped, to a turn under the config of the
    loop. *)
Lemma body_turn (fuel : nat) (use_async interactive verbose : bool)
    (stream_mode : string) (vars : loop_vars) w (waited : Z) (line : string)
    (rest : list (Z * string)) :
  lines w = (waited, line) :: rest ->
  is_command (strip line) = false ->
  body fuel use_async interactive verbose stream_mode vars w
  = match DeepagentCode.turn_loop (stream_of use_async) fuel
            (user_message (strip line)) (Some (config vars)) interactive
            verbose stream_mode (after_prompt w waited line rest) with
    | Done _ w' =>
        Done (Continue vars)
          (add_events w'
             (timing_lines (now w' - (now w + waited)) verbose))
    | Raised e w' => Raised e w'
    | Exited c w' => Exited c w'
    | Starved w' => Starved w'
    | OutOfFuel w' => OutOfFuel w'
    end.
Proof.
  intros Hlines Hcmd.
  rewrite (body_read _ _ _ _ _ _ _ _ _ _ Hlines). cbv zeta.
  unfold is_command in Hcmd.
  apply orb_false_iff in Hcmd. destruct Hcmd as [Hcmd Hhelp].
  apply orb_false_iff in Hcmd. destruct Hcmd as [Hcmd Hclear].
  apply orb_false_iff in Hcmd. destruct Hcmd as [Hempty Hquit].
  rewrite Hempty, Hquit, Hclear, Hhelp.
  unfold bind at 1. rewrite run_turn_unfold.
  destruct (DeepagentCode.turn_loop _ _ _ _ _ _ _ _); reflexivity.
Qed.

End LoopFacts.

Section PrintFacts.

Lemma prints_quiet (texts : list string) :
  forallb quiet (map EPrint texts) = true.
Proof. induction texts as [ | t texts IH ]; [ reflexivity | exact IH ]. Qed.

End PrintFacts.

(** X17.  The lines the conversation loop answers itself never reach the
    engine: on an empty line, a quit command, "/c" or a help command (all
    after stripping) the iteration returns with the engine, the keys and
    the later lines untouched, no engine invocation and no collector call;
    it ends the loop exactly on a quit command, and apart from "/c" it
    leaves the variables of the loop as they were. *)
Theorem loop_commands_stay_local
    (G : Type) (E : DeepagentCode.Engine G) (R : DeepagentCode.Renderer)
    (J : Json) (S : DeepagentCodeLoop.Screen)
    (fuel : nat) (use_async interactive verbose : bool) (stream_mode : string)
    (vars : DeepagentCodeLoop.loop_vars) (w : world G) (waited : Z)
    (line : string) (rest : list (Z * string)) :
  lines w = (waited, line) :: rest ->
  Dialogue.is_command (strip line) = true ->
  exists next w',
    DeepagentCodeLoop.iteration fuel use_async interactive verbose stream_mode
      vars w
    = Done next w'
    /\ graph w' = graph w /\ keys w' = keys w /\ lines w' = rest
    /\ (exists evs,
           trace w' = (trace w ++ evs)%list
           /\ invocations evs = [] /\ collector_calls evs = [])
    /\ (next = DeepagentCodeLoop.Break
        <-> DeepagentCodeLoop.is_quit (strip line) = true)
    /\ (strip line <> "/c" -> next <> DeepagentCodeLoop.Break ->
        next = DeepagentCodeLoop.Continue vars).
Proof.
  intros Hlines Hcmd.
  destruct (iteration_command fuel use_async interactive verbose stream_mode
              vars w waited line rest Hlines Hcmd)
    as [next [prints [Hrun [Hbreak Hvars]]]].
  exists next, (add_events (Dialogue.after_prompt w waited line rest)
                  (map EPrint prints)).
  split; [ exact Hrun | ]. repeat (split; [ reflexivity | ]).
  split; [ | split; assumption ].
  exists ([EPrint DeepagentCodeLoop.separator; ELine waited line;
           EPrint DeepagentCodeLoop.separator] ++ map EPrint prints)%list.
  split.
  - unfold add_events, Dialogue.after_prompt. cbn [trace].
    rewrite <- app_assoc. reflexivity.
  - rewrite invocations_app, collector_calls_app.
    rewrite (quiet_invocations _ (prints_quiet prints)),
      (quiet_collector_calls _ (prints_quiet prints)).
    split; reflexivity.
Qed.

Lemma loop_commands_stay_local_witness :
  exists w',
    DeepagentCodeLoop.iteration (E := Demo.deepagent_engine Demo.two_actions)
      (R := Demo.deepagent_renderer) (J := Demo.tiny_json) (S := Stage.screen)
      1 false true false "updates"
      (DeepagentCodeLoop.mkLoop
         (PDict [("configurable", PDict [("thread_id", PStr "t0")])]) 0)
      (Demo.start [] [(3, "  /c "); (1, "hello")] [])
    = Done (DeepagentCodeLoop.Continue
              (DeepagentCodeLoop.mkLoop
                 (PDict [("configurable", PDict [("thread_id", PStr "id-0")])])
                 1))
        w'
    /\ lines w' = [(1, "hello")].
Proof.
  destruct (loop_commands_stay_local nat (Demo.deepagent_engine Demo.two_actions)
              Demo.deepagent_renderer Demo.tiny_json Stage.screen
              1 false true false "updates"
              (DeepagentCodeLoop.mkLoop
                 (PDict [("configurable", PDict [("thread_id", PStr "t0")])]) 0)
              (Demo.start [] [(3, "  /c "); (1, "hello")] [])
              3 "  /c " [(1, "hello")] eq_refl eq_refl)
    as [next [w' [Hrun [_ [_ [Hlines _]]]]]].
  exists w'. split; [ | exact Hlines ].
  rewrite Hrun. f_equal.
  assert (Hnext : Done next w'
                  = DeepagentCodeLoop.iteration
                      (E := Demo.deepagent_engine Demo.two_actions)
                      (R := Demo.deepagent_renderer) (J := Demo.tiny_json)
                      (S := Stage.screen) 1 false true false "updates"
                      (DeepagentCodeLoop.mkLoop
                         (PDict [("configurable",
                                  PDict [("thread_id", PStr "t0")])]) 0)
                      (Demo.start [] [(3, "  /c "); (1, "hello")] []))
    by (symmetry; exact Hrun).
  vm_compute in Hnext. inversion Hnext. reflexivity.
Defined.

Section LoopEnds.
Context {G : Type} {E : DeepagentCode.Engine G} {R : DeepagentCode.Renderer}
        {J : Json} {S : DeepagentCodeLoop.Screen}.
Import DeepagentCodeLoop Dialogue.
Implicit Types (w : world G).

Lemma loop_unfold (rounds fuel : nat) (use_async interactive verbose : bool)
    (stream_mode : string) (vars : loop_vars) w :
  loop (Datatypes.S rounds) fuel use_async interactive verbose stream_mode vars w
  = match iteration fuel use_async interactive verbose stream_mode vars w with
    | Done (Continue vars') w' =>
        loop rounds fuel use_async interactive verbose stream_mode vars' w'
    | Done Break w' => Done tt w'
    | Raised e w' => Raised e w'
    | Exited c w' => Exited c w'
    | Starved w' => Starved w'
    | OutOfFuel w' => OutOfFuel w'
    end.
Proof.
  cbn [loop]. unfold bind at 1.
  destruct (iteration _ _ _ _ _ _ _) as [ [ vars' | ] w' | | | | ]; reflexivity.
Qed.

Lemma iteration_eof (fuel : nat) (use_async interactive verbose : bool)
    (stream_mode : string) (vars : loop_vars) w :
  lines w = [] ->
  iteration fuel use_async interactive verbose stream_mode vars w
  = Done Break (log (EPrint separator) w).
Proof.
  intros Hlines. unfold iteration. rewrite body_eof by exact Hlines. reflexivity.
Qed.

End LoopEnds.

(** X18.  The conversation loop ends normally at the end of the input and
    on a quit command: with no line left it returns after printing one
    separator, and on "/q", "/quit", "/exit" or "exit" (after stripping)
    it returns at once, later lines unread; in neither case is the engine
    invoked. *)
Theorem conversation_ends_at_quit_or_end_of_input
    (G : Type) (E : DeepagentCode.Engine G) (R : DeepagentCode.Renderer)
    (J : Json) (S : DeepagentCodeLoop.Screen)
    (rounds fuel : nat) (use_async interactive verbose : bool)
    (stream_mode : string) (vars : DeepagentCodeLoop.loop_vars) (w : world G) :
  (lines w = [] ->
   DeepagentCodeLoop.loop (Datatypes.S rounds) fuel use_async interactive
     verbose stream_mode vars w
   = Done tt (log (EPrint DeepagentCodeLoop.separator) w))
  /\ (forall (waited : Z) (line : string) (rest : list (Z * string)),
         lines w = (waited, line) :: rest ->
         DeepagentCodeLoop.is_quit (strip line) = true ->
         DeepagentCodeLoop.loop (Datatypes.S rounds) fuel use_async interactive
           verbose stream_mode vars w
         = Done tt (Dialogue.after_prompt w waited line rest)).
Proof.
  split.
  - intros Hlines. rewrite loop_unfold, iteration_eof by exact Hlines.
    reflexivity.
  - intros waited line rest Hlines Hquit. rewrite loop_unfold.
    unfold DeepagentCodeLoop.iteration.
    rewrite (body_read _ _ _ _ _ _ _ _ _ _ Hlines). cbv zeta.
    rewrite (is_quit_nonempty _ Hquit), Hquit. reflexivity.
Qed.

Lemma conversation_ends_at_quit_or_end_of_input_witness :
  DeepagentCodeLoop.loop (E := Demo.deepagent_engine Demo.two_actions)
    (R := Demo.deepagent_renderer) (J := Demo.tiny_json) (S := Stage.screen)
    1 1 false true false "updates"
    (DeepagentCodeLoop.mkLoop (PDict []) 0)
    (Demo.start [] [(2, Stage.padded_quit); (1, "hello")] [])
  = Done tt
      (mkWorld 102 0%nat [] [(1, "hello")] []
         [EPrint "----"; ELine 2 Stage.padded_quit; EPrint "----"]).
Proof.
  destruct (conversation_ends_at_quit_or_end_of_input nat
              (Demo.deepagent_engine Demo.two_actions)
              Demo.deepagent_renderer Demo.tiny_json Stage.screen
              0 1 false true false "updates"
              (DeepagentCodeLoop.mkLoop (PDict []) 0)
              (Demo.start [] [(2, Stage.padded_quit); (1, "hello")] []))
    as [_ Hquit].
  rewrite (Hquit 2 Stage.padded_quit [(1, "hello")] eq_refl);
    [ reflexivity | vm_compute; reflexivity ].
Defined.

(* ================================================================== *)
(** ** What a turn leaves of the operator's lines *)

Section LinesFacts.
Context {G : Type} {E : DeepagentCode.Engine G} {R : DeepagentCode.Renderer}
        {J : Json} {S : DeepagentCodeLoop.Screen}.
Import DeepagentCodeLoop Dialogue.
Implicit Types (w : world G).

(** The menu reads keys only. *)
Lemma select_loop_lines (rounds : nat) :
  forall num_options selected w,
    lines (final_world (DeepagentCode.select_loop rounds num_options selected w))
    = lines w.
Proof.
  induction rounds as [ | rounds IH ]; intros num_options selected w;
    [ reflexivity | ].
  cbn [DeepagentCode.select_loop]. unfold bind, get_key.
  destruct (keys w) as [ | [waited k] ks ]; [ reflexivity | ].
  destruct k as [ | | | | c ]; try reflexivity;
    repeat match goal with
           | |- context [if ?b then _ else _] => destruct b
           end;
    rewrite IH; reflexivity.
Qed.

(** The menu after some moves down and enter. *)
Lemma select_option_downs (num_actions : Z) w (downs : list Z) (waited : Z)
    (rest : list (Z * key)) :
  keys w = (map (fun d => (d, KDown)) downs ++ (waited, KEnter) :: rest)%list ->
  exists w1,
    DeepagentCode.select_option DeepagentCode.options
      "How would you like to proceed?" (log (ECollect (PInt num_actions)) w)
    = Done (Z.min (Z.of_nat (List.length downs)) 3) w1
    /\ keys w1 = rest /\ lines w1 = lines w.
Proof.
  intros Hkeys. unfold DeepagentCode.select_option.
  destruct (select_loop_downs downs
              (Datatypes.S (List.length (keys (log (ECollect (PInt num_actions)) w))))
              (Z.of_nat (List.length DeepagentCode.options)) 0
              (log (ECollect (PInt num_actions)) w) waited rest)
    as [w1 [Hsel Hrest]].
  - exact Hkeys.
  - cbn [log keys]. rewrite Hkeys, List.length_app, List.length_map. simpl. lia.
  - simpl. lia.
  - exists w1. split; [ exact Hsel | ]. split; [ exact Hrest | ].
    pose proof (select_loop_lines
                  (Datatypes.S (List.length (keys (log (ECollect (PInt num_actions)) w))))
                  (Z.of_nat (List.length DeepagentCode.options)) 0
                  (log (ECollect (PInt num_actions)) w)) as Hlines.
    rewrite Hsel in Hlines. exact Hlines.
Qed.

(** The collector reads at most one line. *)
Lemma handle_interrupt_input_lines (num_actions : Z) w :
  (List.length (lines (final_world
                         (DeepagentCode.handle_interrupt_input num_actions w)))
   <= List.length (lines w))%nat.
Proof.
  unfold DeepagentCode.handle_interrupt_input.
  unfold bind at 1. unfold emit at 1. unfold bind at 1.
  unfold DeepagentCode.select_option.
  pose proof (select_loop_lines
                (Datatypes.S (List.length (keys (log (ECollect (PInt num_actions)) w))))
                (Z.of_nat (List.length DeepagentCode.options)) 0
                (log (ECollect (PInt num_actions)) w)) as Hlines.
  destruct (DeepagentCode.select_loop _ _ _ _) as [ choice w1 | | | | ];
    cbn [final_world] in *; cbn [log lines] in Hlines;
    try (rewrite Hlines; lia).
  destruct (choice =? 0); [ cbn [ret final_world]; rewrite Hlines; lia | ].
  destruct (choice =? 1); [ cbn [ret final_world]; rewrite Hlines; lia | ].
  destruct (choice =? 2);
    [ | unfold sys_exit; cbn [final_world]; rewrite Hlines; lia ].
  unfold bind at 1. unfold emit at 1. unfold bind at 1. unfold input.
  unfold log at 1. cbn [lines]. rewrite Hlines.
  destruct (lines w) as [ | [waited line] rest ];
    [ cbn [final_world]; unfold log; cbn [lines]; rewrite Hlines; cbn; lia | ].
  cbv zeta.
  destruct (json_loads (strip line));
    unfold bind, emit, ret, log; cbn [final_world lines List.length]; lia.
Qed.

(** So does a turn, per pending interrupt. *)
Lemma turn_loop_lines
    (stream : G -> agent_input -> option pyval -> string -> stream_result G)
    (fuel : nat) (config : option pyval) (interactive verbose : bool)
    (stream_mode : string) :
  forall (i : agent_input) w,
    (List.length
       (lines (final_world
                 (DeepagentCode.turn_loop stream fuel i config interactive
                    verbose stream_mode w)))
     <= List.length (lines w))%nat.
Proof.
  induction fuel as [ | fuel IH ]; intros i w; [ cbn; lia | ].
  rewrite turn_loop_unfold. cbv zeta.
  set (w1 := streamed i verbose (stream (graph w) i config stream_mode) w).
  assert (Hw1 : lines w1 = lines w) by reflexivity.
  destruct (scan verbose DeepagentCode.fresh _) as [ e | st ];
    [ cbn [final_world]; rewrite Hw1; lia | ].
  destruct (DeepagentCode.has_interrupt st && interactive)%bool;
    [ | cbn [final_world]; rewrite Hw1; lia ].
  pose proof (handle_interrupt_input_lines
                (DeepagentCode.num_pending_actions st) w1) as Hh.
  rewrite Hw1 in Hh.
  destruct (DeepagentCode.handle_interrupt_input _ w1) as [ ds w2 | | | | ];
    cbn [final_world] in *; try exact Hh.
  etransitivity; [ apply IH | exact Hh ].
Qed.

(** An iteration that read a line leaves fewer lines than it found. *)
Lemma iteration_lines (fuel : nat) (use_async interactive verbose : bool)
    (stream_mode : string) (vars : loop_vars) w (waited : Z) (line : string)
    (rest : list (Z * string)) :
  lines w = (waited, line) :: rest ->
  (List.length
     (lines (final_world
               (iteration fuel use_async interactive verbose stream_mode vars w)))
   <= List.length rest)%nat.
Proof.
  intros Hlines.
  destruct (is_command (strip line)) eqn:Hcmd.
  - destruct (iteration_command fuel use_async interactive verbose stream_mode
                vars w waited line rest Hlines Hcmd)
      as [next [prints [Hrun _]]].
    rewrite Hrun. cbn. lia.
  - unfold iteration.
    rewrite (body_turn _ _ _ _ _ _ _ _ _ _ Hlines Hcmd).
    pose proof (turn_loop_lines (stream_of use_async) fuel (Some (config vars))
                  interactive verbose stream_mode (user_message (strip line))
                  (after_prompt w waited line rest)) as Hturn.
    cbn [after_prompt lines] in Hturn.
    destruct (DeepagentCode.turn_loop _ _ _ _ _ _ _ _) as [ [] w' | e w' | | | ];
      cbn [final_world] in *; try exact Hturn.
    destruct e; cbn [final_world]; try exact Hturn;
      unfold on_error, bind, emit, ret; cbn [final_world log lines]; exact Hturn.
Qed.

(** More rounds than lines change nothing. *)
Lemma loop_rounds (fuel : nat) (use_async interactive verbose : bool)
    (stream_mode : string) (rounds : nat) :
  forall (more : nat) (vars : loop_vars) w,
    (List.length (lines w) < rounds)%nat ->
    (rounds <= more)%nat ->
    loop more fuel use_async interactive verbose stream_mode vars w
    = loop rounds fuel use_async interactive verbose stream_mode vars w.
Proof.
  induction rounds as [ | rounds IH ]; intros more vars w Hlen Hmore; [ lia | ].
  destruct more as [ | more ]; [ lia | ].
  rewrite !loop_unfold.
  destruct (lines w) as [ | [waited line] rest ] eqn:Hlines.
  - rewrite iteration_eof by exact Hlines. reflexivity.
  - pose proof (iteration_lines fuel use_async interactive verbose stream_mode
                  vars w waited line rest Hlines) as Hit.
    destruct (iteration _ _ _ _ _ _ _) as [ [ vars' | ] w' | | | | ];
      try reflexivity.
    cbn [final_world] in Hit. simpl in Hlen. apply IH; lia.
Qed.

End LinesFacts.

(** X19.  Every iteration of the conversation loop that does not end it has
    read a line, and a turn only reads further lines, so the loop stops at
    the latest when the input is exhausted: once the rounds exceed the
    lines to come, allowing more rounds changes nothing of the run. *)
Theorem conversation_stops_with_the_input
    (G : Type) (E : DeepagentCode.Engine G) (R : DeepagentCode.Renderer)
    (J : Json) (S : DeepagentCodeLoop.Screen)
    (fuel : nat) (use_async interactive verbose : bool) (stream_mode : string)
    (vars : DeepagentCodeLoop.loop_vars) (w : world G) (more : nat) :
  (List.length (lines w) < more)%nat ->
  DeepagentCodeLoop.loop more fuel use_async interactive verbose stream_mode
    vars w
  = DeepagentCodeLoop.loop (Datatypes.S (List.length (lines w))) fuel use_async
      interactive verbose stream_mode vars w.
Proof.
  intros Hmore. apply loop_rounds; lia.
Qed.

Lemma conversation_stops_with_the_input_witness :
  DeepagentCodeLoop.loop (E := Demo.deepagent_engine Demo.two_actions)
    (R := Demo.deepagent_renderer) (J := Demo.tiny_json) (S := Stage.screen)
    7 2 false true false "updates"
    (DeepagentCodeLoop.mkLoop (PDict []) 0)
    (Demo.start [(1, KEnter)] [(2, "hello"); (1, "/h")] [])
  = DeepagentCodeLoop.loop (E := Demo.deepagent_engine Demo.two_actions)
      (R := Demo.deepagent_renderer) (J := Demo.tiny_json) (S := Stage.screen)
      3 2 false true false "updates"
      (DeepagentCodeLoop.mkLoop (PDict []) 0)
      (Demo.start [(1, KEnter)] [(2, "hello"); (1, "/h")] []).
Proof.
  apply (conversation_stops_with_the_input nat
           (Demo.deepagent_engine Demo.two_actions)
           Demo.deepagent_renderer Demo.tiny_json Stage.screen
           2 false true false "updates"
           (DeepagentCodeLoop.mkLoop (PDict []) 0)
           (Demo.start [(1, KEnter)] [(2, "hello"); (1, "/h")] []) 7).
  simpl. lia.
Defined.

(* ================================================================== *)
(** ** Turns that do not return *)

Section LoopErrors.
Context {G : Type} {E : DeepagentCode.Engine G} {R : DeepagentCode.Renderer}
        {J : Json} {S : DeepagentCodeLoop.Screen}.
Import DeepagentCodeLoop Dialogue.
Implicit Types (w : world G).

Lemma print_lines_spec (texts : list string) :
  forall w, print_lines texts w = Done tt (add_events w (map EPrint texts)).
Proof.
  induction texts as [ | t texts IH ]; intros w; cbn [print_lines map].
  - unfold ret. rewrite add_events_nil. reflexivity.
  - unfold bind at 1. unfold emit at 1. rewrite IH.
    unfold add_events, log. cbn [trace now graph keys lines numbers].
    rewrite <- app_assoc. reflexivity.
Qed.

(** The world when the turn of the initial message starts. *)
Lemma run_conversation_loop_initial (fuel : nat) (conf : pyval)
    (agent_name : string) (use_async interactive verbose : bool)
    (stream_mode : string) (message : string) w :
  message <> EmptyString ->
  let w0 := add_events w
              (map EPrint (header_box agent_name
                             ++ [separator; prompt_mark ++ " " ++ message;
                                 separator])) in
  run_conversation_loop fuel conf agent_name use_async interactive verbose
    stream_mode (Some message) w
  = match DeepagentCode.turn_loop (stream_of use_async) fuel
            (user_message message) (Some conf) interactive verbose
            stream_mode w0 with
    | Done _ w' =>
        let w1 := add_events w' (timing_lines (now w' - now w) verbose) in
        loop (Datatypes.S (List.length (lines w1))) fuel use_async interactive
          verbose stream_mode (mkLoop conf 0) w1
    | Raised e w' => Raised e w'
    | Exited c w' => Exited c w'
    | Starved w' => Starved w'
    | OutOfFuel w' => OutOfFuel w'
    end.
Proof.
  intros Hmessage w0. unfold run_conversation_loop.
  unfold bind at 1. unfold print_header_box. rewrite print_lines_spec.
  apply String.eqb_neq in Hmessage. rewrite Hmessage.
  unfold bind at 1. unfold bind at 1. unfold emit at 1.
  unfold bind at 1. unfold emit at 1. unfold bind at 1. unfold emit at 1.
  rewrite run_turn_unfold.
  assert (Hw0 : log (EPrint separator)
                  (log (EPrint (prompt_mark ++ " " ++ message))
                     (log (EPrint separator)
                        (add_events w (map EPrint (header_box agent_name)))))
                = w0).
  { unfold w0, add_events, log. cbn [trace now graph keys lines numbers].
    rewrite map_app. cbn [map]. rewrite <- !app_assoc. reflexivity. }
  rewrite Hw0.
  destruct (DeepagentCode.turn_loop _ _ _ _ _ _ _ _); reflexivity.
Qed.

End LoopErrors.

(** X20.  An exception of a turn is shown and the conversation goes on:
    when the stream of the turn for a line cannot be consumed to its end
    (the renderer or the count of pending actions raises anything but an
    end of input), the loop prints the error after what was rendered and
    asks for the next line with its variables unchanged. *)
Theorem turn_error_shown_and_loop_goes_on
    (G : Type) (E : DeepagentCode.Engine G) (R : DeepagentCode.Renderer)
    (J : Json) (S : DeepagentCodeLoop.Screen)
    (rounds fuel : nat) (use_async interactive verbose : bool)
    (stream_mode : string) (vars : DeepagentCodeLoop.loop_vars) (w : world G)
    (waited : Z) (line : string) (rest : list (Z * string)) (e : exn) :
  let i := user_message (strip line) in
  let r := Dialogue.stream_of use_async (graph w) i
             (Some (DeepagentCodeLoop.config vars)) stream_mode in
  lines w = (waited, line) :: rest ->
  Dialogue.is_command (strip line) = false ->
  scan verbose DeepagentCode.fresh (chunks r) = inl e ->
  e <> EOFError ->
  DeepagentCodeLoop.loop (Datatypes.S (Datatypes.S rounds)) (Datatypes.S fuel)
    use_async interactive verbose stream_mode vars w
  = DeepagentCodeLoop.loop (Datatypes.S rounds) (Datatypes.S fuel) use_async
      interactive verbose stream_mode vars
      (log (EPrint (DeepagentCodeLoop.bullet ++ " Error: "
                    ++ DeepagentCodeLoop.str_of_exn e))
         (streamed i verbose r (Dialogue.after_prompt w waited line rest))).
Proof.
  intros i r Hlines Hcmd Hscan He.
  rewrite loop_unfold. unfold DeepagentCodeLoop.iteration.
  rewrite (body_turn _ _ _ _ _ _ _ _ _ _ Hlines Hcmd).
  rewrite turn_loop_unfold. cbv zeta.
  change (graph (Dialogue.after_prompt w waited line rest)) with (graph w).
  fold i. fold r. rewrite Hscan.
  destruct e; try (contradiction He; reflexivity); reflexivity.
Qed.

Lemma turn_error_shown_and_loop_goes_on_witness :
  DeepagentCodeLoop.loop (E := Demo.deepagent_engine Bench.broken_interrupt)
    (R := Demo.deepagent_renderer) (J := Demo.tiny_json) (S := Stage.screen)
    2 1 false true false "updates"
    (DeepagentCodeLoop.mkLoop (PDict []) 0)
    (Demo.start [] [(2, "hello")] [])
  = Done tt
      (mkWorld 106 1%nat [] [] []
         [EPrint "----"; ELine 2 "hello"; EPrint "----";
          ESpinnerStart; EStream (user_message "hello") 4; ESpinnerStop;
          EPrintChunk Demo.text_chunk false;
          EPrintChunk [("status", PStr "interrupt"); ("interrupt", PNone)] false;
          EPrint "* Error: 'NoneType' object has no attribute 'get'";
          EPrint "----"]).
Proof.
  rewrite (turn_error_shown_and_loop_goes_on nat
             (Demo.deepagent_engine Bench.broken_interrupt)
             Demo.deepagent_renderer Demo.tiny_json Stage.screen
             0 0 false true false "updates"
             (DeepagentCodeLoop.mkLoop (PDict []) 0)
             (Demo.start [] [(2, "hello")] []) 2 "hello" [] AttributeError
             eq_refl eq_refl eq_refl);
    [ reflexivity | discriminate ].
Defined.

(** X21.  The turn of the initial message runs outside the [try] of the
    loop: when its stream cannot be consumed to its end, the exception
    leaves [run_conversation_loop], whatever it is, and no line of the
    operator was read. *)
Theorem initial_turn_error_leaves_the_loop
    (G : Type) (E : DeepagentCode.Engine G) (R : DeepagentCode.Renderer)
    (J : Json) (S : DeepagentCodeLoop.Screen)
    (fuel : nat) (config : pyval) (agent_name : string)
    (use_async interactive verbose : bool) (stream_mode : string)
    (message : string) (w : world G) (e : exn) :
  message <> EmptyString ->
  scan verbose DeepagentCode.fresh
    (chunks (Dialogue.stream_of use_async (graph w) (user_message message)
               (Some config) stream_mode))
  = inl e ->
  exists w',
    DeepagentCodeLoop.run_conversation_loop (Datatypes.S fuel) config agent_name
      use_async interactive verbose stream_mode (Some message) w
    = Raised e w'
    /\ lines w' = lines w
    /\ invocations (trace w') = (invocations (trace w) ++ [user_message message])%list.
Proof.
  intros Hmessage Hscan.
  rewrite run_conversation_loop_initial by exact Hmessage. cbv zeta.
  rewrite turn_loop_unfold. cbv zeta.
  match goal with
  | |- context [scan verbose DeepagentCode.fresh (chunks ?r)] =>
      change (scan verbose DeepagentCode.fresh (chunks r))
        with (scan verbose DeepagentCode.fresh
                (chunks (Dialogue.stream_of use_async (graph w)
                           (user_message message) (Some config) stream_mode)))
  end.
  rewrite Hscan. eexists. split; [ reflexivity | ]. split; [ reflexivity | ].
  unfold streamed, add_events. cbn [trace].
  rewrite !invocations_app.
  destruct (pass_events_invocations (G := G) (user_message message) verbose
              (Dialogue.stream_of use_async (graph w) (user_message message)
                 (Some config) stream_mode)) as [Hinv _].
  cbn [graph] in *. rewrite Hinv.
  rewrite (quiet_invocations (map EPrint _)) by apply prints_quiet.
  rewrite app_nil_r. reflexivity.
Qed.

Lemma initial_turn_error_leaves_the_loop_witness :
  exists w',
    DeepagentCodeLoop.run_conversation_loop
      (E := Demo.deepagent_engine Bench.broken_interrupt)
      (R := Demo.deepagent_renderer) (J := Demo.tiny_json) (S := Stage.screen)
      1 (PDict []) "Agent" false true false "updates" (Some "hello")
      (Demo.start [] [(2, "exit")] [])
    = Raised AttributeError w'
    /\ lines w' = [(2, "exit")].
Proof.
  destruct (initial_turn_error_leaves_the_loop nat
              (Demo.deepagent_engine Bench.broken_interrupt)
              Demo.deepagent_renderer Demo.tiny_json Stage.screen
              0 (PDict []) "Agent" false true false "updates" "hello"
              (Demo.start [] [(2, "exit")] []) AttributeError)
    as [w' [Hrun [Hlines _]]];
    [ discriminate | reflexivity | ].
  exists w'. split; assumption.
Defined.

Section LoopCollector.
Context {G : Type} {E : DeepagentCode.Engine G} {R : DeepagentCode.Renderer}
        {J : Json} {S : DeepagentCodeLoop.Screen}.
Import DeepagentCodeLoop Dialogue.
Implicit Types (w : world G).

(** Moving down to Exit, or past it, and pressing enter. *)
Lemma handle_interrupt_input_exits (num_actions : Z) w (downs : list Z)
    (waited : Z) (rest : list (Z * key)) :
  keys w = (map (fun d => (d, KDown)) downs ++ (waited, KEnter) :: rest)%list ->
  (3 <= List.length downs)%nat ->
  exists w',
    DeepagentCode.handle_interrupt_input num_actions w = Exited 0 w'
    /\ keys w' = rest /\ lines w' = lines w.
Proof.
  intros Hkeys Hdowns.
  destruct (select_option_downs num_actions w downs waited rest Hkeys)
    as [w1 [Hsel [Hrest Hlines]]].
  rewrite Z.min_r in Hsel by lia.
  pose proof (handle_interrupt_input_paths num_actions w) as Hpaths.
  rewrite Hsel in Hpaths. simpl in Hpaths.
  exists w1. repeat split; assumption.
Qed.

(** Choosing the custom decision when no line is left. *)
Lemma handle_interrupt_input_end_of_input (num_actions : Z) w (first second waited : Z)
    (rest : list (Z * key)) :
  keys w = (first, KDown) :: (second, KDown) :: (waited, KEnter) :: rest ->
  lines w = [] ->
  exists w',
    DeepagentCode.handle_interrupt_input num_actions w = Raised EOFError w'
    /\ keys w' = rest.
Proof.
  intros Hkeys Hlines.
  destruct (select_option_downs num_actions w [first; second] waited rest Hkeys)
    as [w1 [Hsel [Hrest Hl]]].
  change (Z.min (Z.of_nat (List.length [first; second])) 3) with 2 in Hsel.
  unfold DeepagentCode.handle_interrupt_input.
  unfold bind at 1. unfold emit at 1. unfold bind at 1. rewrite Hsel.
  cbn [Z.eqb Pos.eqb]. cbv iota.
  unfold bind at 1. unfold emit at 1. unfold bind at 1. unfold input.
  unfold log at 1. cbn [lines]. rewrite Hl, Hlines.
  eexists. split; [ reflexivity | exact Hrest ].
Qed.

End LoopCollector.

(** X22.  Choosing Exit in the Decision Collector ends the whole
    conversation, not just the turn: when the turn for a line stops on an
    interrupt and the operator moves down three times or more and presses
    enter, the loop leaves the process with exit code 0, after one engine
    invocation, and the later lines are never read. *)
Theorem exit_choice_ends_the_conversation
    (G : Type) (E : DeepagentCode.Engine G) (R : DeepagentCode.Renderer)
    (J : Json) (S : DeepagentCodeLoop.Screen)
    (rounds fuel : nat) (use_async verbose : bool) (stream_mode : string)
    (vars : DeepagentCodeLoop.loop_vars) (w : world G)
    (waited : Z) (line : string) (rest : list (Z * string))
    (downs : list Z) (pressed : Z) (later : list (Z * key))
    (st : DeepagentCode.turn_state) :
  let i := user_message (strip line) in
  let r := Dialogue.stream_of use_async (graph w) i
             (Some (DeepagentCodeLoop.config vars)) stream_mode in
  lines w = (waited, line) :: rest ->
  Dialogue.is_command (strip line) = false ->
  scan verbose DeepagentCode.fresh (chunks r) = inr st ->
  DeepagentCode.has_interrupt st = true ->
  keys w = (map (fun d => (d, KDown)) downs ++ (pressed, KEnter) :: later)%list ->
  (3 <= List.length downs)%nat ->
  exists w',
    DeepagentCodeLoop.loop (Datatypes.S rounds) (Datatypes.S fuel) use_async
      true verbose stream_mode vars w
    = Exited 0 w'
    /\ lines w' = rest /\ keys w' = later
    /\ exists evs,
         trace w' = (trace w ++ evs)%list /\ invocations evs = [i].
Proof.
  intros i r Hlines Hcmd Hscan Hint Hkeys Hdowns.
  rewrite loop_unfold. unfold DeepagentCodeLoop.iteration.
  rewrite (body_turn _ _ _ _ _ _ _ _ _ _ Hlines Hcmd).
  rewrite turn_loop_unfold. cbv zeta.
  change (graph (Dialogue.after_prompt w waited line rest)) with (graph w).
  fold i. fold r. rewrite Hscan, Hint. cbn [andb].
  destruct (handle_interrupt_input_exits
              (DeepagentCode.num_pending_actions st)
              (streamed i verbose r (Dialogue.after_prompt w waited line rest))
              downs pressed later Hkeys Hdowns)
    as [w' [Hrun [Hrest Hl]]].
  rewrite Hrun. exists w'.
  split; [ reflexivity | ]. split; [ exact Hl | ]. split; [ exact Hrest | ].
  destruct (handle_interrupt_input_grows
              (DeepagentCode.num_pending_actions st)
              (streamed i verbose r (Dialogue.after_prompt w waited line rest)))
    as [ops [Ht [Hops _]]].
  rewrite Hrun in Ht. cbn [final_world] in Ht.
  exists ([EPrint DeepagentCodeLoop.separator; ELine waited line;
           EPrint DeepagentCodeLoop.separator]
            ++ pass_events i verbose r
            ++ ECollect (PInt (DeepagentCode.num_pending_actions st)) :: ops)%list.
  split.
  - rewrite Ht. unfold streamed, log, Dialogue.after_prompt. cbn [trace].
    rewrite <- !app_assoc. reflexivity.
  - rewrite !invocations_app.
    destruct (pass_events_invocations (G := G) i verbose r) as [Hinv _].
    rewrite Hinv. cbn [invocations].
    rewrite quiet_invocations
      by (eapply forallb_weaken; [ apply operator_quiet | exact Hops ]).
    reflexivity.
Qed.

Lemma exit_choice_ends_the_conversation_witness :
  exists w',
    DeepagentCodeLoop.loop (E := Demo.deepagent_engine Demo.two_actions)
      (R := Demo.deepagent_renderer) (J := Demo.tiny_json) (S := Stage.screen)
      3 2 false true false "updates"
      (DeepagentCodeLoop.mkLoop (PDict []) 0)
      (Demo.start [(1, KDown); (1, KDown); (1, KDown); (1, KEnter)]
         [(2, "hello"); (1, "more")] [])
    = Exited 0 w'
    /\ lines w' = [(1, "more")].
Proof.
  destruct (exit_choice_ends_the_conversation nat
              (Demo.deepagent_engine Demo.two_actions)
              Demo.deepagent_renderer Demo.tiny_json Stage.screen
              2 1 false false "updates"
              (DeepagentCodeLoop.mkLoop (PDict []) 0)
              (Demo.start [(1, KDown); (1, KDown); (1, KDown); (1, KEnter)]
                 [(2, "hello"); (1, "more")] [])
              2 "hello" [(1, "more")] [1; 1; 1] 1 []
              (DeepagentCode.mkTurn true 2 false)
              eq_refl eq_refl eq_refl eq_refl eq_refl)
    as [w' [Hrun [Hlines _]]]; [ simpl; lia | ].
  exists w'. split; assumption.
Defined.

(** X23.  The end of the input inside the Decision Collector ends the
    conversation normally: when the turn for the last line stops on an
    interrupt and the operator chooses the custom decision, the missing
    line of JSON makes the collector raise an end of input, which the loop
    takes for the end of the conversation and returns; the engine is not
    resumed. *)
Theorem end_of_input_in_collector_ends_the_conversation
    (G : Type) (E : DeepagentCode.Engine G) (R : DeepagentCode.Renderer)
    (J : Json) (S : DeepagentCodeLoop.Screen)
    (rounds fuel : nat) (use_async verbose : bool) (stream_mode : string)
    (vars : DeepagentCodeLoop.loop_vars) (w : world G)
    (waited : Z) (line : string)
    (first second pressed : Z) (later : list (Z * key))
    (st : DeepagentCode.turn_state) :
  let i := user_message (strip line) in
  let r := Dialogue.stream_of use_async (graph w) i
             (Some (DeepagentCodeLoop.config vars)) stream_mode in
  lines w = [(waited, line)] ->
  Dialogue.is_command (strip line) = false ->
  scan verbose DeepagentCode.fresh (chunks r) = inr st ->
  DeepagentCode.has_interrupt st = true ->
  keys w = (first, KDown) :: (second, KDown) :: (pressed, KEnter) :: later ->
  exists w',
    DeepagentCodeLoop.loop (Datatypes.S rounds) (Datatypes.S fuel) use_async
      true verbose stream_mode vars w
    = Done tt w'
    /\ keys w' = later
    /\ exists evs,
         trace w' = (trace w ++ evs)%list /\ invocations evs = [i].
Proof.
  intros i r Hlines Hcmd Hscan Hint Hkeys.
  rewrite loop_unfold. unfold DeepagentCodeLoop.iteration.
  rewrite (body_turn _ _ _ _ _ _ _ _ _ _ Hlines Hcmd).
  rewrite turn_loop_unfold. cbv zeta.
  change (graph (Dialogue.after_prompt w waited line [])) with (graph w).
  fold i. fold r. rewrite Hscan, Hint. cbn [andb].
  destruct (handle_interrupt_input_end_of_input
              (DeepagentCode.num_pending_actions st)
              (streamed i verbose r (Dialogue.after_prompt w waited line []))
              first second pressed later Hkeys eq_refl)
    as [w' [Hrun Hrest]].
  destruct (handle_interrupt_input_grows
              (DeepagentCode.num_pending_actions st)
              (streamed i verbose r (Dialogue.after_prompt w waited line [])))
    as [ops [Ht [Hops _]]].
  rewrite Hrun in Ht. cbn [final_world] in Ht.
  rewrite Hrun. exists w'.
  split; [ reflexivity | ]. split; [ exact Hrest | ].
  exists ([EPrint DeepagentCodeLoop.separator; ELine waited line;
           EPrint DeepagentCodeLoop.separator]
            ++ pass_events i verbose r
            ++ ECollect (PInt (DeepagentCode.num_pending_actions st)) :: ops)%list.
  split.
  - rewrite Ht. unfold streamed, log, Dialogue.after_prompt. cbn [trace].
    rewrite <- !app_assoc. reflexivity.
  - rewrite !invocations_app.
    destruct (pass_events_invocations (G := G) i verbose r) as [Hinv _].
    rewrite Hinv. cbn [invocations].
    rewrite quiet_invocations
      by (eapply forallb_weaken; [ apply operator_quiet | exact Hops ]).
    reflexivity.
Qed.

Lemma end_of_input_in_collector_ends_the_conversation_witness :
  exists w',
    DeepagentCodeLoop.loop (E := Demo.deepagent_engine Demo.two_actions)
      (R := Demo.deepagent_renderer) (J := Demo.tiny_json) (S := Stage.screen)
      2 2 false true false "updates"
      (DeepagentCodeLoop.mkLoop (PDict []) 0)
      (Demo.start [(1, KDown); (1, KDown); (1, KEnter)] [(2, "hello")] [])
    = Done tt w'
    /\ keys w' = [].
Proof.
  destruct (end_of_input_in_collector_ends_the_conversation nat
              (Demo.deepagent_engine Demo.two_actions)
              Demo.deepagent_renderer Demo.tiny_json Stage.screen
              1 1 false false "updates"
              (DeepagentCodeLoop.mkLoop (PDict []) 0)
              (Demo.start [(1, KDown); (1, KDown); (1, KEnter)] [(2, "hello")] [])
              2 "hello" 1 1 1 []
              (DeepagentCode.mkTurn true 2 false)
              eq_refl eq_refl eq_refl eq_refl eq_refl)
    as [w' [Hrun [Hkeys _]]].
  exists w'. split; assumption.
Defined.

Section QuietConversation.
Context {G : Type} {E : DeepagentCode.Engine G} {R : DeepagentCode.Renderer}
        {J : Json} {S : DeepagentCodeLoop.Screen}.
Import DeepagentCodeLoop Dialogue.
Implicit Types (w : world G).

Lemma after_prompt_calls w (waited : Z) (line : string)
    (rest : list (Z * string)) :
  collector_calls (trace (after_prompt w waited line rest))
  = collector_calls (trace w).
Proof.
  unfold after_prompt. cbn [trace]. rewrite collector_calls_app.
  cbn [collector_calls]. apply app_nil_r.
Qed.

Lemma streamed_calls (i : agent_input) (verbose : bool) (r : stream_result G) w :
  collector_calls (trace (streamed i verbose r w)) = collector_calls (trace w).
Proof.
  unfold streamed. cbn [trace]. rewrite collector_calls_app.
  destruct (pass_events_invocations (G := G) i verbose r) as [_ Hcalls].
  rewrite Hcalls. apply app_nil_r.
Qed.

Lemma add_prints_calls w (texts : list string) :
  collector_calls (trace (add_events w (map EPrint texts)))
  = collector_calls (trace w).
Proof.
  unfold add_events. cbn [trace]. rewrite collector_calls_app.
  rewrite (quiet_collector_calls _ (prints_quiet texts)). apply app_nil_r.
Qed.

(** Without interaction every iteration returns, so the loop runs to a
    quit command or to the end of the input. *)
Lemma loop_non_interactive (fuel : nat) (use_async verbose : bool)
    (stream_mode : string) (rounds : nat) :
  forall (vars : loop_vars) w,
    (List.length (lines w) < rounds)%nat ->
    exists w',
      loop rounds (Datatypes.S fuel) use_async false verbose stream_mode vars w
      = Done tt w'
      /\ keys w' = keys w
      /\ collector_calls (trace w') = collector_calls (trace w).
Proof.
  induction rounds as [ | rounds IH ]; intros vars w Hlen; [ lia | ].
  rewrite loop_unfold.
  destruct (lines w) as [ | [waited line] rest ] eqn:Hlines.
  { rewrite iteration_eof by exact Hlines. eexists. split; [ reflexivity | ].
    split; [ reflexivity | ].
    unfold log. cbn [trace]. rewrite collector_calls_app. apply app_nil_r. }
  simpl in Hlen.
  assert (Hnext : forall vars' w2,
             keys w2 = keys w -> lines w2 = rest ->
             collector_calls (trace w2) = collector_calls (trace w) ->
             exists w',
               loop rounds (Datatypes.S fuel) use_async false verbose
                 stream_mode vars' w2 = Done tt w'
               /\ keys w' = keys w
               /\ collector_calls (trace w') = collector_calls (trace w)).
  { intros vars' w2 Hk Hl Hc.
    destruct (IH vars' w2) as [w' [Hrun [Hk' Hc']]]; [ rewrite Hl; lia | ].
    exists w'. split; [ exact Hrun | ]. split; congruence. }
  destruct (is_command (strip line)) eqn:Hcmd.
  - destruct (iteration_command (Datatypes.S fuel) use_async false verbose
                stream_mode vars w waited line rest Hlines Hcmd)
      as [next [prints [Hrun _]]].
    rewrite Hrun.
    assert (Hc : collector_calls
                   (trace (add_events (after_prompt w waited line rest)
                             (map EPrint prints)))
                 = collector_calls (trace w))
      by (rewrite add_prints_calls; apply after_prompt_calls).
    destruct next as [ vars' | ].
    + apply Hnext; [ reflexivity | reflexivity | exact Hc ].
    + eexists. split; [ reflexivity | ]. split; [ reflexivity | exact Hc ].
  - unfold iteration.
    rewrite (body_turn _ _ _ _ _ _ _ _ _ _ Hlines Hcmd).
    pose proof (turn_loop_non_interactive (stream_of use_async) fuel
                  (user_message (strip line)) (Some (config vars)) verbose
                  stream_mode (after_prompt w waited line rest)) as Hturn.
    cbv zeta in Hturn.
    set (w1 := streamed (user_message (strip line)) verbose
                 (stream_of use_async (graph (after_prompt w waited line rest))
                    (user_message (strip line)) (Some (config vars)) stream_mode)
                 (after_prompt w waited line rest)) in *.
    assert (Hc1 : collector_calls (trace w1) = collector_calls (trace w))
      by (unfold w1; rewrite streamed_calls; apply after_prompt_calls).
    destruct (scan verbose DeepagentCode.fresh _) as [ e | st ]; rewrite Hturn.
    + destruct e;
        try (unfold on_error, bind, emit, ret; apply Hnext;
             [ reflexivity | reflexivity
             | unfold log; cbn [trace]; rewrite collector_calls_app;
               cbn [collector_calls]; rewrite app_nil_r; exact Hc1 ]).
      eexists. split; [ reflexivity | ]. split; [ reflexivity | exact Hc1 ].
    + apply Hnext; [ reflexivity | reflexivity | ].
      unfold add_events, timing_lines. cbn [trace].
      rewrite collector_calls_app. cbn [collector_calls].
      rewrite app_nil_r. exact Hc1.
Qed.

End QuietConversation.

(** X24.  A conversation without interaction and without initial message
    always returns: whatever the engine streams, whatever the renderer
    raises and whatever lines the operator enters, [run_conversation_loop]
    with [interactive] off ends normally, at a quit command or at the end
    of the input, without ever calling the Decision Collector or reading a
    key. *)
Theorem non_interactive_conversation_returns
    (G : Type) (E : DeepagentCode.Engine G) (R : DeepagentCode.Renderer)
    (J : Json) (S : DeepagentCodeLoop.Screen)
    (fuel : nat) (config : pyval) (agent_name : string)
    (use_async verbose : bool) (stream_mode : string) (w : world G) :
  exists w',
    DeepagentCodeLoop.run_conversation_loop (Datatypes.S fuel) config agent_name
      use_async false verbose stream_mode None w
    = Done tt w'
    /\ keys w' = keys w
    /\ collector_calls (trace w') = collector_calls (trace w).
Proof.
  unfold DeepagentCodeLoop.run_conversation_loop.
  unfold bind at 1. unfold DeepagentCodeLoop.print_header_box.
  rewrite print_lines_spec. unfold bind at 1. unfold ret at 1.
  destruct (loop_non_interactive fuel use_async verbose stream_mode
              (Datatypes.S
                 (List.length
                    (lines (add_events w
                              (map EPrint
                                 (DeepagentCodeLoop.header_box agent_name))))))
              (DeepagentCodeLoop.mkLoop config 0)
              (add_events w (map EPrint (DeepagentCodeLoop.header_box agent_name))))
    as [w' [Hrun [Hkeys Hcalls]]]; [ lia | ].
  exists w'. split; [ exact Hrun | ]. split; [ exact Hkeys | ].
  rewrite Hcalls. apply add_prints_calls.
Qed.

(* ================================================================== *)
(** ** Reading a key *)

Section KeyFacts.
Import Keyboard.

Lemma is_char_one (c x : ascii) :
  is_char (String c EmptyString) x = Ascii.eqb c x.
Proof.
  unfold is_char. cbn [String.eqb].
  destruct (Ascii.eqb c x); reflexivity.
Qed.

Lemma is_char_none (x : ascii) : is_char EmptyString x = false.
Proof. reflexivity. Qed.

End KeyFacts.

(** X25.  The Unix branch of [get_key] reports an arrow exactly on its
    three-character escape sequence, enter exactly on a carriage return or
    a line feed and ctrl-c exactly on character 3; it reads at most three
    characters, at least one while there is input, and what it leaves is
    the rest of the input. *)
Theorem get_key_unix_decodes (stdin : list ascii) :
  let k := fst (Keyboard.get_key_unix stdin) in
  let rest := snd (Keyboard.get_key_unix stdin) in
  (k = KUp <-> exists tail,
      stdin = Keyboard.escape :: "["%char :: "A"%char :: tail)
  /\ (k = KDown <-> exists tail,
         stdin = Keyboard.escape :: "["%char :: "B"%char :: tail)
  /\ (k = KEnter <-> exists c tail,
         stdin = c :: tail /\ (c = Keyboard.carriage_return \/ c = newline))
  /\ (k = KCtrlC <-> exists tail, stdin = Keyboard.ctrl_c :: tail)
  /\ exists used,
       stdin = (used ++ rest)%list
       /\ (List.length used <= 3)%nat
       /\ (stdin <> [] -> used <> []).
Proof.
  cbv zeta. unfold Keyboard.get_key_unix.
  destruct stdin as [ | c1 s1 ]; cbn [Keyboard.read1].
  { rewrite !is_char_none. cbn [orb fst snd].
    repeat split; try discriminate;
      try (intros [tail H]; discriminate);
      try (intros [c [tail [H _]]]; discriminate).
    exists []. repeat split; [ simpl; lia | intros H; contradiction H; reflexivity ]. }
  rewrite !is_char_one.
  destruct (Ascii.eqb_spec c1 Keyboard.escape) as [H1 | H1].
  - subst c1.
    destruct s1 as [ | c2 s2 ]; cbn [Keyboard.read1].
    { rewrite is_char_none. cbn [fst snd].
      repeat split; try discriminate;
        try (intros [tail H]; discriminate);
        try (intros [c [tail [H [Hc | Hc]]]]; inversion H; subst c; discriminate).
      exists [Keyboard.escape]. repeat split; [ simpl; lia | discriminate ]. }
    rewrite is_char_one.
    destruct (Ascii.eqb_spec c2 "["%char) as [H2 | H2].
    + subst c2.
      destruct s2 as [ | c3 s3 ]; cbn [Keyboard.read1].
      { rewrite !is_char_none. cbn [fst snd].
        repeat split; try discriminate;
          try (intros [tail H]; discriminate);
          try (intros [c [tail [H [Hc | Hc]]]]; inversion H; subst c; discriminate).
        exists [Keyboard.escape; "["%char].
        repeat split; [ simpl; lia | discriminate ]. }
      rewrite !is_char_one.
      assert (Hused : exists used,
                 Keyboard.escape :: "["%char :: c3 :: s3 = (used ++ s3)%list
                 /\ (List.length used <= 3)%nat
                 /\ (Keyboard.escape :: "["%char :: c3 :: s3 <> [] -> used <> [])).
      { exists [Keyboard.escape; "["%char; c3].
        repeat split; [ simpl; lia | discriminate ]. }
      destruct (Ascii.eqb_spec c3 "A"%char) as [H3 | H3];
        [ | destruct (Ascii.eqb_spec c3 "B"%char) as [H4 | H4] ];
        cbn [fst snd]; repeat split; try discriminate; try exact Hused;
        try (subst c3; eauto; fail);
        try (intros [tail H]; inversion H; subst; try discriminate;
             contradiction; fail);
        try (intros [c [tail [H [Hc | Hc]]]]; inversion H; subst c; discriminate).
    + cbn [fst snd].
      repeat split; try discriminate;
        try (intros [tail H]; inversion H; subst; try discriminate;
             contradiction; fail);
        try (intros [c [tail [H [Hc | Hc]]]]; inversion H; subst c; discriminate).
      exists [Keyboard.escape; c2]. repeat split; [ simpl; lia | discriminate ].
  - assert (Hused : exists used,
               c1 :: s1 = (used ++ s1)%list
               /\ (List.length used <= 3)%nat
               /\ (c1 :: s1 <> [] -> used <> [])).
    { exists [c1]. repeat split; [ simpl; lia | discriminate ]. }
    destruct (Ascii.eqb_spec c1 Keyboard.carriage_return) as [Hr | Hr];
      [ | destruct (Ascii.eqb_spec c1 newline) as [Hn | Hn];
          [ | destruct (Ascii.eqb_spec c1 Keyboard.ctrl_c) as [Hc3 | Hc3] ] ];
      cbn [orb fst snd]; repeat split; try discriminate; try exact Hused;
      try (subst c1; eauto; fail);
      try (intros [tail H]; inversion H; subst; try discriminate;
           contradiction; fail);
      try (intros [c [tail [H [Hc | Hc]]]]; inversion H; subst;
           try discriminate; contradiction).
Qed.

(** X26.  The Windows branch of [get_key] reports an arrow exactly on a
    special-key prefix (byte 0 or 224) followed by H or P, enter exactly on
    a carriage return (a line feed is an ordinary character there) and
    ctrl-c exactly on byte 3; it takes one byte, two after a prefix, and
    waits only when the input is exhausted or ends in a prefix. *)
Theorem get_key_windows_decodes (stdin : list ascii) :
  match Keyboard.get_key_windows stdin with
  | None =>
      stdin = []
      \/ exists p, stdin = [p]
                   /\ (p = Keyboard.special_0 \/ p = Keyboard.special_e0)
  | Some (k, rest) =>
      (k = KUp <-> exists p tail,
          stdin = p :: "H"%char :: tail
          /\ (p = Keyboard.special_0 \/ p = Keyboard.special_e0))
      /\ (k = KDown <-> exists p tail,
             stdin = p :: "P"%char :: tail
             /\ (p = Keyboard.special_0 \/ p = Keyboard.special_e0))
      /\ (k = KEnter <-> exists tail, stdin = Keyboard.carriage_return :: tail)
      /\ (k = KCtrlC <-> exists tail, stdin = Keyboard.ctrl_c :: tail)
      /\ exists used,
           stdin = (used ++ rest)%list
           /\ (1 <= List.length used <= 2)%nat
  end.
Proof.
  unfold Keyboard.get_key_windows.
  destruct stdin as [ | c1 s1 ]; [ left; reflexivity | ].
  destruct (Ascii.eqb_spec c1 Keyboard.special_0) as [H0 | H0];
    [ | destruct (Ascii.eqb_spec c1 Keyboard.special_e0) as [He | He] ];
    cbn [orb].
  1, 2: destruct s1 as [ | c2 s2 ]; [ right; eauto | ];
    assert (Hused : exists used,
               c1 :: c2 :: s2 = (used ++ s2)%list
               /\ (1 <= List.length used <= 2)%nat)
      by (exists [c1; c2]; split; [ reflexivity | simpl; lia ]);
    destruct (Ascii.eqb_spec c2 "H"%char) as [Hh | Hh];
      [ | destruct (Ascii.eqb_spec c2 "P"%char) as [Hp | Hp] ];
    repeat split; try discriminate; try exact Hused;
      try (subst; eauto; fail);
      try (intros [p [tail [H _]]]; inversion H; subst; try discriminate;
           contradiction; fail);
      try (intros [tail H]; inversion H; subst; discriminate).
  assert (Hused : exists used,
             c1 :: s1 = (used ++ s1)%list
             /\ (1 <= List.length used <= 2)%nat)
    by (exists [c1]; split; [ reflexivity | simpl; lia ]).
  destruct (Ascii.eqb_spec c1 Keyboard.carriage_return) as [Hr | Hr];
    [ | destruct (Ascii.eqb_spec c1 Keyboard.ctrl_c) as [Hc | Hc] ];
    repeat split; try discriminate; try exact Hused;
    try (subst; eauto; fail);
    try (intros [p [tail [H [Hp | Hp]]]]; inversion H; subst;
         try discriminate; contradiction; fail);
    try (intros [tail H]; inversion H; subst; try discriminate; contradiction).
Qed.
